(** * Acquisition, buffering and persistence pipeline of the bioreactor logger

    A shallow embedding of [src/program.py]: [DatabaseManager]
    ([insert_bulk_data], [export_to_excel]) and [OpcClientThread]
    ([run], [_flush_cache_to_db]).

    Conventions of the embedding.
    - Python floats, SQLite [REAL] cells and pandas timestamps are exact
      rationals ([Qc]); rounding of binary floating point is not modelled.
    - A Python [dict] used as a record (a reading) is a [gmap string pyval];
      a [dict] that is iterated (the configured tags, the polled nodes) is an
      association list in insertion order.
    - The SQLite table, the OPC-UA client and the Qt signals are external
      collaborators: the table is a list of rows in insertion order, the
      client is a script of outcomes, and every call made on a collaborator
      is appended to a trace of events in program order.
    - Of [sqlite3]: a statement is prepared before any row is written; the
      module opens a transaction before the first INSERT and leaves it open
      when [executemany] raises; OR IGNORE skips a row whose primary key is
      taken.  Column names are matched as written ([configparser] yields
      lower-case keys), and a cell keeps the value bound to it.
    - Of [pandas]: [resample] with a frequency in seconds closes and labels
      its bins on the left and lays them from midnight of the first day;
      [mean] skips NaN, yields NaN for a bin without values, and leaves the
      text column out. *)

From Stdlib Require Import QArith Qcanon Qround Lqa Ascii String.
From Stdlib Require DecimalString DecimalPos.
From stdpp Require Import gmap strings list sorting.

#[local] Set Warnings "-clear-no-such-hyp".

Local Open Scope Z_scope.
Local Open Scope string_scope.
Local Open Scope list_scope.

(** ** Python values *)

Inductive pyval :=
| PNone                 (* None, SQL NULL, pandas NaN *)
| PNum (q : Qc)         (* int, float, bool *)
| PStr (s : string)     (* str *)
| PObj.                 (* any other object (a list, a datetime, ...), true *)

Global Instance pyval_eq_dec : EqDecision pyval.
Proof. solve_decision. Defined.

(** A reading, as [run] builds it: [{'timestamp': ..., name: value, ...}]. *)
Abbreviation reading := (gmap string pyval).

(** [d.get(k)] *)
Definition get (k : string) (d : reading) : pyval := default PNone (d !! k).

(** Truth value of an object, as [if x] and [not x] test it. *)
Definition truthy (v : pyval) : bool :=
  match v with
  | PNone => false
  | PNum q => negb (bool_decide (q = Q2Qc 0))
  | PStr s => negb (bool_decide (s = ""))
  | PObj => true
  end.

(** An integer as a rational. *)
Definition qz (z : Z) : Qc := Q2Qc (inject_Z z).

(** [sorted(...)] on strings. *)
Definition string_le (a b : string) : Prop := String.leb a b = true.

Global Instance string_le_dec : RelDecision string_le.
Proof. intros a b. unfold string_le. apply _. Defined.

Definition sorted_keys (d : reading) : list string :=
  merge_sort string_le (elements (dom d)).

(** ** DatabaseManager *)

Module DatabaseManager.

(** The columns of [sensordata], from [_create_table]. *)
Definition columns : list string :=
  [ "timestamp"; "ph"; "ph_setpoint"; "do"; "do_setpoint"; "temperature";
    "temp_setpoint"; "variable1"; "variable2"; "variable3"; "variable4";
    "variable5"; "variable6"; "variable7"; "bioreactor_status" ].

(** A stored row: column name to cell; a column that is absent holds NULL. *)
Abbreviation row := (gmap string pyval).

Definition cell (c : string) (r : row) : pyval := default PNone (r !! c).

Definition ts (r : row) : pyval := cell "timestamp" r.

(** The table as one connection sees it: the committed rows, followed by the
    rows its open transaction has inserted and not yet committed. *)
Record db := Db { committed : list row; pending : list row }.

Definition visible (d : db) : list row := committed d ++ pending d.

Definition empty_db : db := Db [] [].

(** [timestamp REAL PRIMARY KEY]: a row conflicts when a visible row has the
    same timestamp; NULL never conflicts (SQLite keeps NULLs distinct in a
    primary key that is not an integer rowid). *)
Definition conflicts (r : row) (rows : list row) : bool :=
  match ts r with
  | PNone => false
  | t => bool_decide (Exists (λ r', ts r' = t) rows)
  end.

Inductive sql_error :=
| SyntaxError                    (* empty column list *)
| NoSuchColumn (c : string)      (* table sensordata has no column named c *)
| BindError (i : nat).           (* parameter i has an unsupported type *)

Definition bindable (v : pyval) : bool :=
  match v with PObj => false | _ => true end.

(** Preparing [INSERT OR IGNORE INTO sensordata (keys) VALUES (?, ...)]. *)
Definition prepare (keys : list string) : option sql_error :=
  match keys with
  | [] => Some SyntaxError
  | _ =>
      match filter (λ k, k ∉ columns) keys with
      | [] => None
      | c :: _ => Some (NoSuchColumn c)
      end
  end.

(** Index of the first value of a parameter tuple that cannot be bound. *)
Fixpoint first_unbindable (i : nat) (vals : list pyval) : option nat :=
  match vals with
  | [] => None
  | v :: vals' => if bindable v then first_unbindable (S i) vals' else Some i
  end.

(** One step of the statement: OR IGNORE skips a conflicting row. *)
Definition insert_or_ignore (keys : list string) (vals : list pyval) (d : db) : db :=
  let r : row := list_to_map (zip keys vals) in
  if conflicts r (visible d) then d
  else Db (committed d) (pending d ++ [r]).

(** [cursor.executemany(sql, rows_to_insert)]: the statement is prepared
    first; then each tuple is bound and stepped in turn, inside the
    transaction the module opens before the first INSERT.  An exception
    leaves the rows already stepped in the open transaction. *)
Fixpoint step_all (keys : list string) (tuples : list (list pyval)) (d : db)
  : db * option sql_error :=
  match tuples with
  | [] => (d, None)
  | vals :: rest =>
      match first_unbindable 0 vals with
      | Some i => (d, Some (BindError i))
      | None => step_all keys rest (insert_or_ignore keys vals d)
      end
  end.

Definition executemany (keys : list string) (tuples : list (list pyval)) (d : db)
  : db * option sql_error :=
  match prepare keys with
  | Some e => (d, Some e)
  | None => step_all keys tuples d
  end.

(** [self.conn.commit()] *)
Definition commit (d : db) : db := Db (visible d) [].

Inductive log_entry :=
| LogFlushed (n : nat)            (* INFO: Flushed n records *)
| LogInsertFailed (e : sql_error) (* ERROR: Database bulk insert failed *)
| LogInvalidPolling (dflt : Z)    (* WARNING: Invalid 'polling_interval_ms' *)
| LogConnected (address : string) (* OPC-UA: Successfully connected *)
| LogClientFailed (e : string).   (* ERROR: OPC client thread failed *)

(** [insert_bulk_data(self, data_list)].  It returns [None] on every path:
    the result is the connection's new state and the lines logged. *)
Definition insert_bulk_data (data_list : list reading) (d : db) : db * list log_entry :=
  match data_list with
  | [] => (d, [])
  | first :: _ =>
      let keys := sorted_keys first in
      let rows_to_insert := (λ row : reading, (λ k, get k row) <$> keys) <$> data_list in
      match executemany keys rows_to_insert d with
      | (d', None) => (commit d', [LogFlushed (length rows_to_insert)])
      | (d', Some e) => (d', [LogInsertFailed e])
      end
  end.

(** *** Queries *)

(** SQLite's order on cells, as ORDER BY uses it: NULL first, then numbers
    by value, then text by its bytes. *)
Definition sql_le (a b : pyval) : bool :=
  match a, b with
  | PNone, _ => true
  | _, PNone => false
  | PNum x, PNum y => bool_decide (x ≤ y)%Qc
  | PNum _, _ => true
  | _, PNum _ => false
  | PStr x, PStr y => String.leb x y
  | PStr _, PObj => true
  | PObj, PStr _ => false
  | PObj, PObj => true
  end.

Definition row_le (r1 r2 : row) : Prop := sql_le (ts r1) (ts r2) = true.

Global Instance row_le_dec : RelDecision row_le.
Proof. intros a b. unfold row_le. apply _. Defined.

(** [timestamp BETWEEN start_ts AND end_ts], on numeric bounds: a NULL
    timestamp fails the test and text sorts after every number. *)
Definition between (start_ts end_ts : Qc) (r : row) : bool :=
  match ts r with
  | PNum t => bool_decide (start_ts ≤ t)%Qc && bool_decide (t ≤ end_ts)%Qc
  | _ => false
  end.

(** [SELECT * FROM sensordata WHERE timestamp BETWEEN .. AND ..
     ORDER BY timestamp ASC] *)
Definition query_range (start_ts end_ts : Qc) (rows : list row) : list row :=
  merge_sort row_le (filter (λ r, between start_ts end_ts r = true) rows).

(** [SELECT timestamp FROM sensordata WHERE bioreactor_status = 'STARTED'
     ORDER BY timestamp ASC LIMIT 1] *)
Definition query_start_event (rows : list row) : list pyval :=
  ts <$> take 1 (merge_sort row_le
                   (filter (λ r, cell "bioreactor_status" r = PStr "STARTED") rows)).

(** [get_all_data_as_dataframe]:
    [SELECT * FROM sensordata ORDER BY timestamp ASC]. *)
Definition get_all_data_as_dataframe (rows : list row) : list row :=
  merge_sort row_le rows.

(** *** Export *)

(** The columns pandas sees as numeric: every column but the text one. *)
Definition numeric_columns : list string :=
  [ "timestamp"; "ph"; "ph_setpoint"; "do"; "do_setpoint"; "temperature";
    "temp_setpoint"; "variable1"; "variable2"; "variable3"; "variable4";
    "variable5"; "variable6"; "variable7" ].

Definition qfloor (x : Qc) : Z := Qfloor x.

Definition number (v : pyval) : option Qc :=
  match v with PNum q => Some q | _ => None end.

(** The timestamp of a row of the queried range, where it is a number. *)
Definition seconds (r : row) : Qc := default (Q2Qc 0) (number (ts r)).

Definition qsum (l : list Qc) : Qc := foldr Qcplus (Q2Qc 0) l.

(** [mean()] of a column over the rows of one bin: nulls are skipped, and a
    bin without a value yields NaN. *)
Definition mean (c : string) (rs : list row) : pyval :=
  match omap (λ r, number (cell c r)) rs with
  | [] => PNone
  | vals => PNum (qsum vals / qz (Z.of_nat (length vals)))%Qc
  end.

(** The day of a timestamp starts at a multiple of 86400 seconds. *)
Definition start_day (t : Qc) : Qc := qz (86400 * qfloor (t / qz 86400)%Qc).

(** Number of the bin of width [w] that holds [t], counted from [origin]. *)
Definition bin_index (origin w t : Qc) : Z := qfloor ((t - origin) / w)%Qc.

Definition bin_start (origin w : Qc) (i : Z) : Qc := (origin + w * qz i)%Qc.

(** [df.resample(f'{interval_s}S').mean().reset_index()] on the rows of the
    range in ascending order: pandas lays bins of the given width, closed on
    the left and labelled by their left edge, from midnight of the first
    row's day (its default origin), and emits every bin from the one of the
    first row to the one of the last row.  The result pairs each label (the
    [datetime] column) with the means of the numeric columns. *)
Definition resample (interval_s : Z) (df : list row) : list (Qc * row) :=
  match df with
  | [] => []
  | first :: _ =>
      let origin := start_day (seconds first) in
      let w := qz interval_s in
      let i0 := bin_index origin w (seconds first) in
      let i1 := bin_index origin w (seconds (default first (last df))) in
      (λ i,
         let rs := filter (λ r, bin_index origin w (seconds r) = i) df in
         (bin_start origin w i,
          (list_to_map ((λ c, (c, mean c rs)) <$> numeric_columns) : row)))
      <$> seqZ i0 (i1 - i0 + 1)
  end.

(** The [EFT_seconds] cell of an exported row. *)
Inductive eft :=
| EftSeconds (s : Qc)
| EftNotStarted.          (* "N/A (Reactor not started)" *)

(** A row of the [Data] sheet: the [datetime] column (present only after
    resampling; otherwise it is the index, which [index=False] leaves out),
    the data columns and [EFT_seconds]. *)
Record out_row := OutRow {
  o_datetime : option Qc;
  o_cells : row;
  o_eft : eft
}.

Inductive export_error :=
| NoData              (* "No data found in the selected time range." *)
| KeyErrorDatetime    (* "An error occurred: 'datetime'" *)
| BadStartTimestamp.  (* pd.to_datetime raises on a STARTED timestamp that is text *)

Global Instance eft_eq_dec : EqDecision eft.
Proof. solve_decision. Defined.

Global Instance out_row_eq_dec : EqDecision out_row.
Proof. solve_decision. Defined.

Global Instance export_error_eq_dec : EqDecision export_error.
Proof. solve_decision. Defined.

(** [export_to_excel(self, output_path, start_ts, end_ts, interval_s, config)]
    on the rows its connection reads, up to the renaming of the headers
    and the writing of the file: the rows of the [Data] sheet, or the
    failure returned. *)
Definition export_to_excel (rows : list row) (start_ts end_ts : Qc) (interval_s : Z)
  : export_error + list out_row :=
  let df := query_range start_ts end_ts rows in
  match df with
  | [] => inl NoData
  | _ =>
      let start_timestamp := default PNone (head (query_start_event rows)) in
      if bool_decide (interval_s > 0) then
        let df := resample interval_s df in
        if truthy start_timestamp then
          match start_timestamp with
          | PNum anchor =>
              inr ((λ p, OutRow (Some p.1) p.2 (EftSeconds (p.1 - anchor)%Qc)) <$> df)
          | _ => inl BadStartTimestamp
          end
        else inr ((λ p, OutRow (Some p.1) p.2 EftNotStarted) <$> df)
      else
        if truthy start_timestamp then inl KeyErrorDatetime
        else inr ((λ r, OutRow None r EftNotStarted) <$> df)
  end.

End DatabaseManager.

(** ** Strings and configuration values *)

(** [s.replace(old, new)] for a non-empty [old]: occurrences are replaced
    from left to right and do not overlap; [skip] counts the characters of a
    replaced occurrence still to pass over. *)
Fixpoint replace_from (old new : string) (skip : nat) (s : string) : string :=
  match s with
  | EmptyString => EmptyString
  | String c s' =>
      match skip with
      | S n => replace_from old new n s'
      | O =>
          if String.prefix old s
          then new +:+ replace_from old new (String.length old - 1) s'
          else String c (replace_from old new 0 s')
      end
  end.

Definition replace (old new s : string) : string := replace_from old new 0 s.

(** [s.endswith(suffix)] *)
Definition endswith (suffix s : string) : bool :=
  bool_decide (list_ascii_of_string suffix `suffix_of` list_ascii_of_string s).

(** White space, as [int] strips it. *)
Definition is_space (a : ascii) : bool :=
  let n := nat_of_ascii a in
  ((9 <=? n)%nat && (n <=? 13)%nat) || ((28 <=? n)%nat && (n <=? 32)%nat).

Definition digit_value (a : ascii) : option Z :=
  let n := nat_of_ascii a in
  if ((48 <=? n)%nat && (n <=? 57)%nat) then Some (Z.of_nat n - 48) else None.

Fixpoint int_digits (acc : Z) (after_digit : bool) (s : list ascii) : option Z :=
  match s with
  | [] => if after_digit then Some acc else None
  | c :: s' =>
      match digit_value c with
      | Some v => int_digits (10 * acc + v) true s'
      | None =>
          if bool_decide (c = "_"%char) && after_digit
          then int_digits acc false s'
          else None
      end
  end.

Fixpoint lstrip (s : list ascii) : list ascii :=
  match s with
  | c :: s' => if is_space c then lstrip s' else s
  | [] => []
  end.

Definition strip (s : list ascii) : list ascii :=
  reverse (lstrip (reverse (lstrip s))).

(** [int(s)] on a string: surrounding white space is stripped, then come an
    optional sign and decimal digits, with single underscores allowed between
    digits.  [None] stands for [ValueError]. *)
Definition py_int (s : string) : option Z :=
  match strip (list_ascii_of_string s) with
  | "+"%char :: r => int_digits 0 false r
  | "-"%char :: r => Z.opp <$> int_digits 0 false r
  | r => int_digits 0 false r
  end.

(** [str(n)] on an integer: its decimal digits, after a minus sign when it
    is negative. *)
Definition str (n : Z) : string := DecimalString.NilZero.string_of_int (Z.to_int n).

(** What [run] reads of the configuration. *)
Record config := Config {
  address : string;                     (* config['OPC_SERVER']['address'] *)
  polling_interval_ms : option string;  (* the option under [SETTINGS], if set *)
  tags : list (string * string)         (* config['TAGS'].items() *)
}.

(** [config.getint('SETTINGS', 'polling_interval_ms')]: [None] stands for
    the two exceptions [run] catches, [NoOptionError] and [ValueError]. *)
Definition getint (c : config) : option Z :=
  s ← polling_interval_ms c; py_int s.

(** [d[k] = v] on a dict kept in insertion order. *)
Fixpoint dict_set {A} (k : string) (v : A) (d : list (string * A)) : list (string * A) :=
  match d with
  | [] => [(k, v)]
  | (k', v') :: d' =>
      if decide (k = k') then (k, v) :: d' else (k', v') :: dict_set k v d'
  end.

(** ** OpcClientThread *)

Module OpcClientThread.
Import DatabaseManager.

(** The calls [run] makes on its collaborators, in program order. *)
Inductive event :=
| EStatus (s : string)           (* self.status_changed.emit(s) *)
| EData (d : reading)            (* self.data_received.emit(d) *)
| EReactorStarted (t : pyval)    (* self.reactor_started.emit(t) *)
| ELog (l : log_entry)           (* log_event(...) *)
| ETimerStart                    (* self.db_timer.start() *)
| ETimerStop                     (* self.db_timer.stop() *)
| EConnect                       (* client.connect() *)
| EFlush                         (* self._flush_cache_to_db() *)
| EDisconnect                    (* client.disconnect() *)
| ESleep (s : Qc).               (* time.sleep(s) *)

(** The fields of the thread object, with the trace of its calls. *)
Record thread := Thread {
  reactor_start_time : pyval;
  data_cache : list reading;
  db_manager : db;
  trace : list event
}.

(** [__init__], on the connection [run] opens. *)
Definition init (d : db) : thread := Thread PNone [] d [].

Definition emit (e : event) (t : thread) : thread :=
  Thread (reactor_start_time t) (data_cache t) (db_manager t) (trace t ++ [e]).

(** A call on the remote client returns or raises. *)
Inductive outcome (A : Type) :=
| Returns (a : A)
| Raises (e : string).
Arguments Returns {A} a.
Arguments Raises {A} e.

(** One pass of the [while self.running] body, as the outside world decides
    it: the clock, the result of [get_value] on the node of each channel, and
    whether the flush timer's slot ran since the previous pass. *)
Record cycle := Cycle {
  now : Qc;
  get_value : string → outcome pyval;
  timer_fired : bool
}.

(** The remote client and the passes made before [stop] is observed. *)
Record client := Client {
  connect : outcome ();
  get_node : string → outcome ();
  disconnect : outcome ();
  cycles : list cycle
}.

(** [_flush_cache_to_db]: the snapshot is taken and the cache cleared before
    the bulk insert is called. *)
Definition _flush_cache_to_db (t : thread) : thread :=
  let t := emit EFlush t in
  match data_cache t with
  | [] => t
  | _ =>
      let cache_snapshot := data_cache t in
      let '(d, logs) := insert_bulk_data cache_snapshot (db_manager t) in
      Thread (reactor_start_time t) [] d (trace t ++ (ELog <$> logs))
  end.

(** The dict comprehension that builds [node_ids_to_poll]. *)
Definition node_ids_to_poll (tags_config : list (string * string)) : list (string * string) :=
  foldl (λ acc '(name, nid),
           if negb (bool_decide (nid = "")) && endswith "_nodeid" name
           then dict_set (replace "_name" "" (replace "_nodeid" "" name)) nid acc
           else acc)
        [] tags_config.

(** [node.get_value() == 1] *)
Definition equals_one (v : pyval) : bool :=
  match v with PNum q => bool_decide (q = Q2Qc 1) | _ => false end.

(** The body of [for name, node in nodes.items()], on the thread, the reading
    under construction and [status_note]. *)
Definition poll_node (c : cycle) (acc : thread * reading * option string) (name : string)
  : thread * reading * option string :=
  let '(t, data, status_note) := acc in
  if bool_decide (name = "run_start") && negb (truthy (reactor_start_time t)) then
    match get_value c name with
    | Returns v =>
        if equals_one v then
          let start := get "timestamp" data in
          let t := Thread start (data_cache t) (db_manager t) (trace t) in
          (emit (EReactorStarted start) t, data, Some "STARTED")
        else (t, data, status_note)
    | Raises _ => (t, <[name := PNone]> data, status_note)
    end
  else
    match get_value c name with
    | Returns v => (t, <[name := v]> data, status_note)
    | Raises _ => (t, <[name := PNone]> data, status_note)
    end.

(** The [for] loop of one pass, from the fresh reading
    [{'timestamp': time.time()}] and [status_note = None]. *)
Definition poll_nodes (nodes : list string) (c : cycle) (t : thread)
  : thread * reading * option string :=
  foldl (poll_node c) (t, {[ "timestamp" := PNum (now c) ]}, None) nodes.

(** The reading of one pass, once [bioreactor_status] is set. *)
Definition poll_reading (nodes : list string) (c : cycle) (t : thread) : reading :=
  let '(_, data, status_note) := poll_nodes nodes c t in
  match status_note with
  | Some note => <["bioreactor_status" := PStr note]> data
  | None => data
  end.

(** One pass of the loop body up to the append to the cache. *)
Definition poll_cycle (nodes : list string) (c : cycle) (t : thread) : thread :=
  let data := poll_reading nodes c t in
  let t := emit (EData data) (poll_nodes nodes c t).1.1 in
  Thread (reactor_start_time t) (data_cache t ++ [data]) (db_manager t) (trace t).

(** [while self.running: ...]: the loop ends when the passes are used up
    ([stop] has cleared the flag) or when [time.sleep] raises on a negative
    length, which leaves the loop with that exception. *)
Fixpoint loop (poll_interval_s : Qc) (nodes : list string) (cs : list cycle) (t : thread)
  : thread * option string :=
  match cs with
  | [] => (t, None)
  | c :: cs' =>
      let t := if timer_fired c then _flush_cache_to_db t else t in
      let t := emit (ESleep poll_interval_s) (poll_cycle nodes c t) in
      if bool_decide (poll_interval_s < 0)%Qc
      then (t, Some "sleep length must be non-negative")
      else loop poll_interval_s nodes cs' t
  end.

(** The dict comprehension that builds [nodes]: the first
    [client.get_node(nid)] that raises ends it with that exception. *)
Fixpoint get_nodes (cl : client) (ids : list (string * string)) : option string :=
  match ids with
  | [] => None
  | (_, nid) :: ids' =>
      match get_node cl nid with
      | Raises e => Some e
      | Returns _ => get_nodes cl ids'
      end
  end.

(** The [try] block of [run]: the thread, whether [is_connected] was set,
    and the exception caught by [except Exception as e], if any. *)
Definition try_block (cfg : config) (cl : client) (poll_interval_s : Qc)
    (ids : list (string * string)) (t : thread) : thread * bool * option string :=
  match connect cl with
  | Raises e => (emit EConnect t, false, Some e)
  | Returns _ =>
      let t := emit EConnect t in
      let t := emit (EStatus ("Connected to " +:+ address cfg)) t in
      let t := emit (ELog (LogConnected (address cfg))) t in
      match get_nodes cl ids with
      | Some e => (t, true, Some e)
      | None =>
          let t := emit ETimerStart t in
          let '(t, e) := loop poll_interval_s ids.*1 (cycles cl) t in
          (t, true, e)
      end
  end.

(** The [finally] block of [run]; the second component is the exception that
    leaves [run] when [client.disconnect()] raises. *)
Definition finally (cl : client) (is_connected : bool) (t : thread) : thread * option string :=
  let t := emit ETimerStop t in
  let t := _flush_cache_to_db t in
  if is_connected then
    match disconnect cl with
    | Returns _ => (emit (EStatus "Disconnected") (emit EDisconnect t), None)
    | Raises e => (emit EDisconnect t, Some e)
    end
  else (emit (EStatus "Disconnected") t, None).

(** The polling cadence: [(poll_ms, warning logged)]. *)
Definition polling_interval (cfg : config) : Z * list log_entry :=
  match getint cfg with
  | Some poll_ms => (poll_ms, [])
  | None => (1000, [LogInvalidPolling 1000])
  end.

(** [run(self)]; [db_manager t] is the connection that
    [DatabaseManager(self.db_path)] opens.  The second component is the
    exception that leaves [run], if any. *)
Definition run (cfg : config) (cl : client) (t : thread) : thread * option string :=
  let '(poll_ms, warning) := polling_interval cfg in
  let t := Thread (reactor_start_time t) (data_cache t) (db_manager t)
                  (trace t ++ (ELog <$> warning)) in
  let poll_interval_s := (qz poll_ms / qz 1000)%Qc in
  let ids := node_ids_to_poll (tags cfg) in
  let '(t, is_connected, e) := try_block cfg cl poll_interval_s ids t in
  let t :=
    match e with
    | Some e =>
        emit (ELog (LogClientFailed e)) (emit (EStatus ("Connection Failed: " +:+ e)) t)
    | None => t
    end in
  finally cl is_connected t.

End OpcClientThread.

(** ** ConfigManager *)

Module ConfigManager.

(** [d[k]] and [k in d] on a dict kept in insertion order. *)
Fixpoint dict_get {A} (k : string) (d : list (string * A)) : option A :=
  match d with
  | [] => None
  | (k', v) :: d' => if decide (k = k') then Some v else dict_get k d'
  end.

(** A [ConfigParser]: the options of the DEFAULT section and the other
    sections, each a dict of options.  Option names come in lower case, as
    the parser stores them. *)
Record parser := Parser {
  defaults : list (string * string);
  sections : list (string * list (string * string))
}.

(** [parser.has_section(section)]; DEFAULT is not a section. *)
Definition has_section (p : parser) (section : string) : bool :=
  bool_decide (is_Some (dict_get section (sections p))).

(** [parser.has_option(section, option)] *)
Definition has_option (p : parser) (section opt : string) : bool :=
  if bool_decide (section = "") || bool_decide (section = "DEFAULT")
  then bool_decide (is_Some (dict_get opt (defaults p)))
  else
    match dict_get section (sections p) with
    | None => false
    | Some opts =>
        bool_decide (is_Some (dict_get opt opts)) ||
        bool_decide (is_Some (dict_get opt (defaults p)))
    end.

(** [parser.add_section(section)] for a section that is not there. *)
Definition add_section (p : parser) (section : string) : parser :=
  Parser (defaults p) (sections p ++ [(section, [])]).

(** [parser.set(section, option, value)] for a value without [%], which
    the interpolation accepts as it is; [None] stands for [NoSectionError]. *)
Definition set (p : parser) (section opt value : string) : option parser :=
  if bool_decide (section = "") || bool_decide (section = "DEFAULT")
  then Some (Parser (dict_set opt value (defaults p)) (sections p))
  else
    opts ← dict_get section (sections p);
    Some (Parser (defaults p) (dict_set section (dict_set opt value opts) (sections p))).

(** [parser.get(section, option, raw=True)]: the value stored for the option
    of the section, else for that of DEFAULT; [None] stands for
    [NoSectionError] and [NoOptionError]. *)
Definition get_option (p : parser) (section opt : string) : option string :=
  opts ← dict_get section (sections p);
  match dict_get opt opts with
  | Some v => Some v
  | None => dict_get opt (defaults p)
  end.

(** The interpolation [get] applies to a stored value: a value without [%]
    is returned as it is.  [None] stands for a value with a [%], which the
    interpolation rewrites or rejects. *)
Definition interpolate (v : string) : option string :=
  if existsb (Ascii.eqb "%") (list_ascii_of_string v) then None else Some v.

(** [parser[section].items()]: the options of the section in their order,
    then those DEFAULT adds, each with the value [get] returns; [None]
    stands for [KeyError], and for a value with a [%]. *)
Definition items (p : parser) (section : string) : option (list (string * string)) :=
  opts ← dict_get section (sections p);
  mapM (λ kv : string * string, v ← interpolate kv.2; Some (kv.1, v))
       (opts ++ filter (λ kv : string * string, dict_get kv.1 opts = None) (defaults p)).

(** [_get_default_config]: the sections in the order they are assigned. *)
Definition _get_default_config : list (string * list (string * string)) :=
  [ ("OPC_SERVER", [ ("address", "opc.tcp://localhost:4840/freeopcua/server/") ]);
    ("SETTINGS", [ ("polling_interval_ms", "1000") ]);
    ("TAGS",
     [ ("ph_name", "pH"); ("ph_nodeid", "ns=2;i=2"); ("ph_setpoint_nodeid", "ns=2;i=10");
       ("do_name", "DO"); ("do_nodeid", "ns=2;i=3"); ("do_setpoint_nodeid", "ns=2;i=11");
       ("temp_name", "Temperature"); ("temp_nodeid", "ns=2;i=4");
       ("temp_setpoint_nodeid", "ns=2;i=12");
       ("variable1_name", "Variable 1"); ("variable1_nodeid", "ns=2;i=5");
       ("variable2_name", "Variable 2"); ("variable2_nodeid", "ns=2;i=6");
       ("variable3_name", "Variable 3"); ("variable3_nodeid", "ns=2;i=7");
       ("variable4_name", "Variable 4"); ("variable4_nodeid", "ns=2;i=8");
       ("variable5_name", "Variable 5"); ("variable5_nodeid", "ns=2;i=13");
       ("variable6_name", "Variable 6"); ("variable6_nodeid", "ns=2;i=14");
       ("variable7_name", "Variable 7"); ("variable7_nodeid", "ns=2;i=15");
       ("run_start_nodeid", "ns=2;i=9") ]);
    ("PLOT_COLORS",
     [ ("ph_color", "#1f77b4"); ("ph_setpoint_color", "#aec7e8");
       ("do_color", "#ff7f0e"); ("do_setpoint_color", "#ffbb78");
       ("temp_color", "#d62728"); ("temp_setpoint_color", "#ff9896");
       ("variable1_color", "#2ca02c"); ("variable2_color", "#98df8a");
       ("variable3_color", "#9467bd"); ("variable4_color", "#c5b0d5");
       ("variable5_color", "#8c564b"); ("variable6_color", "#c49c94");
       ("variable7_color", "#e377c2") ]);
    ("AXIS_LIMITS",
     [ ("ph_ymin", "6"); ("ph_ymax", "8"); ("do_ymin", "0"); ("do_ymax", "100");
       ("temp_ymin", "20"); ("temp_ymax", "40");
       ("variable_ymin", "0"); ("variable_ymax", "50") ]);
    ("UI_STATE",
     [ ("variable1", "false"); ("variable2", "false"); ("variable3", "false");
       ("variable4", "false"); ("variable5", "false"); ("variable6", "false");
       ("variable7", "false") ]) ].

(** [_create_default_config]: the parser that holds the defaults. *)
Definition _create_default_config : parser := Parser [] _get_default_config.

(** The inner loop of [_validate_and_update_config] over the options of one
    default section, on the parser and [was_updated]. *)
Fixpoint validate_options (section : string) (opts : list (string * string))
    (acc : parser * bool) : option (parser * bool) :=
  match opts with
  | [] => Some acc
  | (key, value) :: opts' =>
      if has_option acc.1 section key then validate_options section opts' acc
      else p ← set acc.1 section key value; validate_options section opts' (p, true)
  end.

(** The outer loop, over the default sections. *)
Fixpoint validate_sections (dflt : list (string * list (string * string)))
    (acc : parser * bool) : option (parser * bool) :=
  match dflt with
  | [] => Some acc
  | (section, opts) :: dflt' =>
      let acc :=
        if has_section acc.1 section then acc else (add_section acc.1 section, true) in
      acc ← validate_options section opts acc;
      validate_sections dflt' acc
  end.

(** [_validate_and_update_config]: the parser completed and [was_updated];
    [None] stands for an exception of [set]. *)
Definition _validate_and_update_config (p : parser) : option (parser * bool) :=
  validate_sections _get_default_config (p, false).

(** What [OpcClientThread.run] looks up in the parser before it connects:
    [config['OPC_SERVER']['address']], [config['TAGS'].items()] and
    [config.getint('SETTINGS', 'polling_interval_ms')] up to the conversion.
    [None] stands for the [KeyError] and the [NoSectionError] that [run]
    does not catch, and for a value with a [%]. *)
Definition read_config (p : parser) : option config :=
  address ← get_option p "OPC_SERVER" "address" ≫= interpolate;
  tags ← items p "TAGS";
  _ ← dict_get "SETTINGS" (sections p);
  polling ← match get_option p "SETTINGS" "polling_interval_ms" with
            | None => Some None
            | Some v => Some <$> interpolate v
            end;
  Some (Config address polling tags).

End ConfigManager.

(** ** SettingsTab *)

Module SettingsTab.
Import ConfigManager.

(** The keys of [tag_widgets], in the order [_init_tag_settings] creates the
    rows. *)
Definition tag_keys : list string :=
  [ "ph"; "do"; "temp"; "variable1"; "variable2"; "variable3"; "variable4";
    "variable5"; "variable6"; "variable7" ].

(** [_create_tag_row] leaves the field of the SP node enabled for these keys
    and disables it for the others. *)
Definition sp_enabled (k : string) : bool := bool_decide (k ∈ ["ph"; "do"; "temp"]).

(** The keys of [color_buttons], in the order the buttons are created. *)
Definition color_keys : list string :=
  flat_map (λ k, if sp_enabled k then [k; k +:+ "_setpoint"] else [k]) tag_keys.

(** The keys of [axis_widgets]. *)
Definition axis_keys : list string := [ "ph"; "do"; "temp"; "variable" ].

(** [polling_edit.setValue(v)] on the range [setRange(100, 60000)]: the
    spin box bounds the value. *)
Definition setValue (v : Z) : Z := Z.max 100 (Z.min 60000 v).

(** What the widgets hold when [save_settings] runs. *)
Record widgets := Widgets {
  opc_address_edit : string;            (* opc_address_edit.text() *)
  polling_edit : Z;                     (* polling_edit.value() *)
  name_text : string → string;          (* tag_widgets[k]['name'].text() *)
  pv_node : string → string;            (* tag_widgets[k]['pv_node'].text() *)
  sp_node : string → string;            (* tag_widgets[k]['sp_node'].text() *)
  color_name : string → option string;  (* the [n] taken from the style sheet of
                                           color_buttons[k]; None: IndexError *)
  axis_min : string → string;           (* str(axis_widgets[k]['min'].value()) *)
  axis_max : string → string            (* str(axis_widgets[k]['max'].value()) *)
}.

(** The assignments [save_settings] makes on the parser, in program order:
    section, option and the value, where its computation returned.  The
    assignment of the SP node comes after the loop over the tags, for the
    last key of that loop. *)
Definition writes (w : widgets) : list (string * string * option string) :=
  [ ("OPC_SERVER", "address", Some (opc_address_edit w));
    ("SETTINGS", "polling_interval_ms", Some (str (polling_edit w))) ]
  ++ flat_map (λ k, [ ("TAGS", k +:+ "_name", Some (name_text w k));
                      ("TAGS", k +:+ "_nodeid", Some (pv_node w k)) ]) tag_keys
  ++ match last tag_keys with
     | Some k =>
         if sp_enabled k then [ ("TAGS", k +:+ "_setpoint_nodeid", Some (sp_node w k)) ]
         else []
     | None => []
     end
  ++ ((λ k, ("PLOT_COLORS", k +:+ "_color", color_name w k)) <$> color_keys)
  ++ flat_map (λ k, [ ("AXIS_LIMITS", k +:+ "_ymin", Some (axis_min w k));
                      ("AXIS_LIMITS", k +:+ "_ymax", Some (axis_max w k)) ]) axis_keys.

(** One assignment, [c[section][option] = value] or
    [c.set(section, option, value)]: [None] stands for the exception that
    ends [save_settings] (the [KeyError] or [NoSectionError] of a missing
    section, the [IndexError] of the value), and for a value with a [%],
    which [set] rejects or stores as it is. *)
Definition assign (acc : option parser) (a : string * string * option string)
  : option parser :=
  p ← acc; value ← a.2; _ ← interpolate value; set p a.1.1 a.1.2 value.

(** [save_settings(self)] on the parser [get_config()] returns, up to the
    writing of the file. *)
Definition save_settings (w : widgets) (p : parser) : option parser :=
  foldl assign (Some p) (writes w).

End SettingsTab.

(** ** DashboardTab *)

Module DashboardTab.
Import DatabaseManager OpcClientThread.

(** The data the dashboard plots: [fermentation_start_time] ([None] is
    Python's [None]), [time_data], and [plot_data], a dict from the key of a
    line to its series. *)
Record dashboard := Dashboard {
  fermentation_start_time : option pyval;
  time_data : list pyval;
  plot_data : list (string * list pyval)
}.

(** The keys [apply_settings] gives to [_create_or_update_line], which sets
    [plot_data.setdefault(key, [])], in that order. *)
Definition line_keys : list string :=
  flat_map (λ key, [key; key +:+ "_setpoint"]) ["ph"; "temp"; "do"]
  ++ [ "variable1"; "variable2"; "variable3"; "variable4"; "variable5";
       "variable6"; "variable7" ].

(** The data of the tab once [__init__] has called [apply_settings]. *)
Definition init : dashboard := Dashboard None [] ((λ key, (key, [])) <$> line_keys).

(** [_sanitize_value(self, value)] *)
Definition _sanitize_value (value : pyval) : pyval :=
  match value with PNum q => PNum q | _ => PNone end.

(** [update_plot_data(self, data)] *)
Definition update_plot_data (data : reading) (d : dashboard) : dashboard :=
  Dashboard (fermentation_start_time d)
            (time_data d ++ [get "timestamp" data])
            ((λ kl : string * list pyval,
                (kl.1, kl.2 ++ [_sanitize_value (get kl.1 data)])) <$> plot_data d).

(** [clear_all_data(self)] *)
Definition clear_all_data (d : dashboard) : dashboard :=
  Dashboard None [] ((λ kl : string * list pyval, (kl.1, [])) <$> plot_data d).

(** [set_fermentation_start(self, timestamp)] *)
Definition set_fermentation_start (timestamp : pyval) (d : dashboard) : dashboard :=
  match fermentation_start_time d with
  | None => Dashboard (Some timestamp) (time_data d) (plot_data d)
  | Some _ => d
  end.

(** [display_historical_data(self, df)] on the rows of the frame: a series
    is replaced when its key is a column of the frame, which has the columns
    of the table. *)
Definition display_historical_data (df : list row) (d : dashboard) : dashboard :=
  let d := clear_all_data d in
  let start_events := filter (λ r, cell "bioreactor_status" r = PStr "STARTED") df in
  let d :=
    match start_events with
    | r :: _ => set_fermentation_start (ts r) d
    | [] => d
    end in
  Dashboard (fermentation_start_time d)
            (ts <$> df)
            ((λ kl : string * list pyval,
                (kl.1, if bool_decide (kl.1 ∈ columns) then (λ r, cell kl.1 r) <$> df
                       else kl.2)) <$> plot_data d).

(** [eft_data_hours] of [redraw_plot], with [start_time =
    fermentation_start_time or time_data[0]].  [None] stands for an empty
    [time_data], for the [TypeError] of a time that is no number, and for a
    time that is NaN. *)
Definition eft_data_hours (d : dashboard) : option (list Qc) :=
  t0 ← head (time_data d);
  start_time ← match fermentation_start_time d with
                | None => number t0
                | Some (PNum q) => if truthy (PNum q) then Some q else number t0
                | Some _ => None
                end;
  mapM (λ t, x ← number t; Some ((x - start_time) / qz 3600)%Qc) (time_data d).

(** What [redraw_plot] passes to [setData] for the line of [key], when the
    line is visible: the elapsed hours and the series of the key, if they
    are of the same length.  [None]: the line is cleared ([time_data] is
    empty) or left as it was. *)
Definition redraw_line (key : string) (d : dashboard) : option (list Qc * list pyval) :=
  hours ← eft_data_hours d;
  let series := default [] (ConfigManager.dict_get key (plot_data d)) in
  if bool_decide (length series = length hours) then Some (hours, series) else None.

(** [optional_variable_keys] *)
Definition optional_variable_keys : list string :=
  [ "variable1"; "variable2"; "variable3"; "variable4"; "variable5"; "variable6";
    "variable7" ].

(** [checked_optionals], on the state of the check boxes: the key of a box
    to its [isChecked()]. *)
Definition checked_optionals (checkboxes : list (string * bool)) : list string :=
  filter (λ key, ConfigManager.dict_get key checkboxes = Some true) optional_variable_keys.

(** [_on_checkbox_state_changed(self)], run for the box [sender] whose state
    changed: beyond three boxes checked, the sender is unchecked, with its
    signals blocked. *)
Definition _on_checkbox_state_changed (sender : string) (checkboxes : list (string * bool))
  : list (string * bool) :=
  if bool_decide (3 < length (checked_optionals checkboxes))%nat
  then dict_set sender false checkboxes
  else checkboxes.

(** [self.checkboxes[key].setChecked(b)], as a click or [load_ui_state] does
    it: a change of state emits [stateChanged], which runs the slot. *)
Definition setChecked (key : string) (b : bool) (checkboxes : list (string * bool))
  : list (string * bool) :=
  match ConfigManager.dict_get key checkboxes with
  | Some b0 =>
      if bool_decide (b0 = b) then checkboxes
      else _on_checkbox_state_changed key (dict_set key b checkboxes)
  | None => checkboxes
  end.

(** [str(b).lower()] on a bool *)
Definition bool_text (b : bool) : string := if b then "true" else "false".

(** [s.lower()], on ASCII letters. *)
Definition lower (s : string) : string :=
  string_of_list_ascii
    ((λ a, let n := nat_of_ascii a in
           if ((65 <=? n)%nat && (n <=? 90)%nat) then ascii_of_nat (n + 32) else a)
       <$> list_ascii_of_string s).

(** [_convert_to_boolean(value)]; [None] stands for [ValueError]. *)
Definition _convert_to_boolean (value : string) : option bool :=
  let v := lower value in
  if bool_decide (v ∈ ["1"; "yes"; "true"; "on"]) then Some true
  else if bool_decide (v ∈ ["0"; "no"; "false"; "off"]) then Some false
  else None.

(** [config.getboolean(section, option, fallback=False)]: the fallback
    stands in for a missing section or option; [None] stands for the
    [ValueError] of a value that is no boolean, and for a value with a [%]. *)
Definition getboolean (p : ConfigManager.parser) (section opt : string) : option bool :=
  match ConfigManager.get_option p section opt with
  | None => Some false
  | Some value => ConfigManager.interpolate value ≫= _convert_to_boolean
  end.

(** [save_ui_state(self)] on the parser [get_config()] returns, up to the
    writing of the file. *)
Definition save_ui_state (checkboxes : list (string * bool)) (p : ConfigManager.parser)
  : option ConfigManager.parser :=
  let p := if ConfigManager.has_section p "UI_STATE" then p
           else ConfigManager.add_section p "UI_STATE" in
  foldl (λ acc key,
           match ConfigManager.dict_get key checkboxes with
           | Some b => SettingsTab.assign acc ("UI_STATE", key, Some (bool_text b))
           | None => acc
           end)
        (Some p) optional_variable_keys.

(** [load_ui_state(self)] *)
Definition load_ui_state (p : ConfigManager.parser) (checkboxes : list (string * bool))
  : option (list (string * bool)) :=
  if ConfigManager.has_section p "UI_STATE" then
    foldl (λ acc key,
             checkboxes ← acc;
             match ConfigManager.dict_get key checkboxes with
             | Some _ =>
                 is_checked ← getboolean p "UI_STATE" key;
                 Some (setChecked key is_checked checkboxes)
             | None => Some checkboxes
             end)
          (Some checkboxes) optional_variable_keys
  else Some checkboxes.

(** The keys of [view_boxes] and of [axes], in the order [_init_plot] gives
    them. *)
Definition axis_keys : list string := [ "ph"; "temp"; "do"; "opt1"; "opt2"; "opt3" ].

Fixpoint lstrip_chars (chars : list ascii) (s : list ascii) : list ascii :=
  match s with
  | c :: s' => if bool_decide (c ∈ chars) then lstrip_chars chars s' else s
  | [] => []
  end.

(** [s.rstrip(chars)] *)
Definition rstrip (chars s : string) : string :=
  string_of_list_ascii
    (reverse (lstrip_chars (list_ascii_of_string chars) (reverse (list_ascii_of_string s)))).

(** What [_apply_axis_limits] does to [axis_auto_range_state], once it has
    found the section of the limits. *)
Definition _apply_axis_limits (axis_auto_range_state : list (string * bool))
  : list (string * bool) :=
  foldl (λ state key, dict_set (rstrip "123" key) false state)
        axis_auto_range_state axis_keys.

(** What [_enable_auto_range_all] does to [axis_auto_range_state]. *)
Definition _enable_auto_range_all (axis_auto_range_state : list (string * bool))
  : list (string * bool) :=
  foldl (λ state key, dict_set key true state) axis_auto_range_state axis_keys.

(** The axes [redraw_plot] may put back to auto-ranging: the keys of
    [axis_auto_range_state] whose flag is set and that name a view box. *)
Definition auto_ranged (axis_auto_range_state : list (string * bool)) : list string :=
  filter (λ key, ConfigManager.dict_get key axis_auto_range_state = Some true) axis_keys.

(** The slots connected to the signals of the thread by [start_opc_client]:
    [data_received] to [update_plot_data] and [reactor_started] to
    [set_fermentation_start]. *)
Definition slot (d : dashboard) (e : event) : dashboard :=
  match e with
  | EData data => update_plot_data data d
  | EReactorStarted t => set_fermentation_start t d
  | _ => d
  end.

End DashboardTab.

(** ** ExportDialog *)

Module ExportDialog.

(** The value [interval_spinbox] holds after [setValue(v)] or an edit, on
    the range [setRange(1, 3600)]. *)
Definition setValue (v : Z) : Z := Z.max 1 (Z.min 3600 v).

(** [get_values(self)]: the two times in whole seconds since the epoch, and
    the value of the spin box. *)
Definition get_values (start_time end_time : Z) (v : Z) : Qc * Qc * Z :=
  (qz start_time, qz end_time, setValue v).

(** The call [show_export_dialog] makes once the dialog is accepted and a
    path chosen. *)
Definition show_export_dialog (rows : list DatabaseManager.row)
    (start_time end_time : Z) (v : Z)
  : DatabaseManager.export_error + list DatabaseManager.out_row :=
  let '(start_ts, end_ts, interval) := get_values start_time end_time v in
  DatabaseManager.export_to_excel rows start_ts end_ts interval.

End ExportDialog.

(** ** MainWindow *)

Module MainWindow.







(** [load_and_visualize_db(self)] on the rows of the database chosen and the
    data of the dashboard; the second component tells whether the warning
    about an empty database was shown. *)
Definition load_and_visualize_db (rows : list DatabaseManager.row)
    (d : DashboardTab.dashboard) : DashboardTab.dashboard * bool :=
  let historical_df := DatabaseManager.get_all_data_as_dataframe rows in
  match historical_df with
  | [] => (d, true)
  | _ => (DashboardTab.display_historical_data historical_df d, false)
  end.

End MainWindow.

(** * Vocabulary of the properties *)

Module Spec.
Import DatabaseManager OpcClientThread.

(** The row a record becomes under the column list [keys]. *)
Definition project (keys : list string) (r : reading) : row :=
  list_to_map (zip keys ((λ k, get k r) <$> keys)).

(** The non-null timestamps held by a list of rows. *)
Definition timestamps (rows : list row) : list pyval :=
  filter (λ t, t ≠ PNone) (ts <$> rows).

(** No two rows share a timestamp. *)
Definition unique_timestamps (rows : list row) : Prop := NoDup (timestamps rows).

(** The rows stored under a timestamp. *)
Definition rows_at (t : pyval) (rows : list row) : list row :=
  filter (λ r, ts r = t) rows.

(** The parameter tuple of a record. *)
Definition tuple (keys : list string) (r : reading) : list pyval :=
  (λ k, get k r) <$> keys.

(** The statement built from a batch prepares and every value binds. *)
Definition accepted (batch : list reading) : Prop :=
  match batch with
  | [] => True
  | first :: _ =>
      prepare (sorted_keys first) = None ∧
      Forall (λ r, first_unbindable 0 (tuple (sorted_keys first) r) = None) batch
  end.

(** The connection only gains rows: what was visible, or committed, stays in
    place, and timestamps stay unique. *)
Definition grows (d d' : db) : Prop :=
  visible d `prefix_of` visible d' ∧
  committed d `prefix_of` committed d' ∧
  (unique_timestamps (visible d) → unique_timestamps (visible d')).

(** A record was inserted, or ignored for a row that holds its timestamp. *)
Definition inserted_or_ignored (keys : list string) (r : reading) (rows : list row) : Prop :=
  project keys r ∈ rows ∨
  (ts (project keys r) ≠ PNone ∧ ∃ row, row ∈ rows ∧ ts row = ts (project keys r)).

(** The claim that the column set is the union of the keys of the batch, so
    that every field of every record is stored with its row. *)
Definition no_field_dropped (batch : list reading) (d : db) : Prop :=
  ∀ r k v, r ∈ batch → r !! k = Some v →
    ∃ row, row ∈ committed (insert_bulk_data batch d).1 ∧
           ts row = get "timestamp" r ∧ cell k row = v.

(** Sample readings. *)
Definition sample (t : Z) (ph : pyval) : reading :=
  {[ "timestamp" := PNum (qz t); "ph" := ph ]}.

Definition sample_started (t : Z) (ph : pyval) : reading :=
  <["bioreactor_status" := PStr "STARTED"]> (sample t ph).


(** The bulk insert of the cached batch fails. *)
Definition flush_fails (t : thread) : Prop :=
  ∃ e, (insert_bulk_data (data_cache t) (db_manager t)).2 = [LogInsertFailed e].

(** The thread after a flush, the caching of [later] and one more flush. *)
Definition flush_twice (t : thread) (later : list reading) : thread :=
  let t := _flush_cache_to_db t in
  _flush_cache_to_db
    (Thread (reactor_start_time t) (data_cache t ++ later) (db_manager t) (trace t)).

(** The claim that no reading of a batch whose insert failed ever reaches the
    store. *)
Definition failed_batch_never_stored (t : thread) (later : list reading) : Prop :=
  flush_fails t →
  ∀ r row, r ∈ data_cache t → row ∈ committed (db_manager (flush_twice t later)) →
           ts row ≠ get "timestamp" r.

(** Whether [is_connected] gets set. *)
Definition connected (cl : client) : bool :=
  match connect cl with Returns _ => true | Raises _ => false end.

(** The calls that end [run], after the final flush. *)
Definition closing (cl : client) (is_connected : bool) : list event :=
  if is_connected then
    match disconnect cl with
    | Returns _ => [EDisconnect; EStatus "Disconnected"]
    | Raises _ => [EDisconnect]
    end
  else [EStatus "Disconnected"].

(** The events of [run] before its [finally] block: no call of the shutdown
    is among them, and every sleep has the length [p]. *)
Definition body_event (p : Qc) (e : event) : Prop :=
  match e with
  | ESleep s => s = p
  | ELog (LogInvalidPolling _) | EDisconnect | ETimerStop => False
  | EStatus s => s ≠ "Disconnected"
  | _ => True
  end.

(** The lines a bulk insert may log. *)
Definition flush_log (l : log_entry) : Prop :=
  match l with LogFlushed _ | LogInsertFailed _ => True | _ => False end.

(** [t'] continues [t] by events of the body of [run]. *)
Definition extends (p : Qc) (t t' : thread) : Prop :=
  ∃ evs, trace t' = trace t ++ evs ∧ Forall (body_event p) evs.

(** Some event satisfying [a] comes before some event satisfying [b]. *)
Fixpoint happens_before (a b : event → bool) (evs : list event) : bool :=
  match evs with
  | [] => false
  | e :: evs' => (a e && existsb b evs') || happens_before a b evs'
  end.

Definition is_disconnect (e : event) : bool :=
  match e with EDisconnect => true | _ => false end.

Definition is_flush (e : event) : bool :=
  match e with EFlush => true | _ => false end.

(** The claim about the shutdown order: the remote source is disconnected
    before the final flush. *)
Definition disconnects_before_flush (evs : list event) : Prop :=
  happens_before is_disconnect is_flush evs = true.

(** The claim about the cadence: one below 100 ms, like one that is not an
    integer, is reported and replaced by the default. *)
Definition cadence_validated (cfg : config) : Prop :=
  match getint cfg with
  | Some n =>
      if decide (100 ≤ n)%Z then polling_interval cfg = (n, [])
      else polling_interval cfg = (1000, [LogInvalidPolling 1000])
  | None => polling_interval cfg = (1000, [LogInvalidPolling 1000])
  end.

(** The events [run] may add for a cadence of [p] seconds: no sleep of
    another length, and no warning about the cadence. *)
Definition cadence_event (p : Qc) (e : event) : Prop :=
  match e with
  | ESleep s => s = p
  | ELog (LogInvalidPolling _) => False
  | _ => True
  end.


(** A configuration with the tags of two channels and of the start marker,
    a client whose calls succeed, and a pass in which the read of [ph]
    raises and every other node reads 0. *)
Definition sample_config (polling : string) : config :=
  Config "opc.tcp://localhost:4840" (Some polling)
         [ ("ph_name", "pH"); ("ph_nodeid", "ns=2;i=2");
           ("temp_name", "Temperature"); ("temp_nodeid", "ns=2;i=4");
           ("run_start_nodeid", "ns=2;i=9") ].

Definition sample_cycle (t : Z) : cycle :=
  Cycle (qz t)
        (λ name, if bool_decide (name = "ph") then Raises "BadNodeIdUnknown"
                 else Returns (PNum (qz 0)))
        false.

Definition sample_client (cs : list cycle) : client :=
  Client (Returns ()) (λ _, Returns ()) (Returns ()) cs.

(** The bin that starts at [dt] and is [w] wide holds the row. *)
Definition in_bin (dt w : Qc) (r : row) : Prop :=
  (dt ≤ seconds r)%Qc ∧ (seconds r < dt + w)%Qc.

Global Instance in_bin_dec dt w r : Decision (in_bin dt w r).
Proof. unfold in_bin. apply _. Defined.

(** The means of the numeric columns over the rows of a bin. *)
Definition bin_means (df : list row) (dt w : Qc) : row :=
  list_to_map ((λ c, (c, mean c (filter (in_bin dt w) df))) <$> numeric_columns).



(** A stored row with a timestamp, a pH and a status. *)
Definition stored (t : Z) (ph : Z) (status : pyval) : row :=
  {[ "timestamp" := PNum (qz t); "ph" := PNum (qz ph); "bioreactor_status" := status ]}.

(** A sequence of bulk inserts on one connection. *)
Definition insert_all (batches : list (list reading)) (d : db) : db :=
  foldl (λ d batch, (insert_bulk_data batch d).1) d batches.

End Spec.

(** * Vocabulary of further properties *)

Module Props.
Import DatabaseManager OpcClientThread ConfigManager.

(** A section name other than the two that mean DEFAULT. *)
Definition named (section : string) : Prop := section ≠ "" ∧ section ≠ "DEFAULT".

(** [p'] keeps what [p] defines: the options of DEFAULT, the sections, and
    the value of every option that can be read. *)
Definition keeps (p p' : parser) : Prop :=
  defaults p' = defaults p ∧
  (∀ s, has_section p s = true → has_section p' s = true) ∧
  (∀ s o v, get_option p s o = Some v → get_option p' s o = Some v).

(** The parser has every section and every option of [dflt]. *)
Definition complete (dflt : list (string * list (string * string))) (p : parser) : Prop :=
  ∀ s opts, (s, opts) ∈ dflt →
    has_section p s = true ∧ ∀ k v, (k, v) ∈ opts → has_option p s k = true.

(** No stored value holds a [%]: the interpolation leaves every value as it
    is. *)
Definition plain (p : parser) : Prop :=
  Forall (λ kv : string * string, interpolate kv.2 = Some kv.2) (defaults p) ∧
  Forall (λ so : string * list (string * string),
            Forall (λ kv : string * string, interpolate kv.2 = Some kv.2) so.2)
         (sections p).

(** The arguments [reactor_started], [status_changed] and [data_received]
    were emitted with, in order. *)
Definition started_signals (evs : list event) : list pyval :=
  omap (λ e, match e with EReactorStarted t => Some t | _ => None end) evs.

Definition status_signals (evs : list event) : list string :=
  omap (λ e, match e with EStatus s => Some s | _ => None end) evs.

Definition data_signals (evs : list event) : list reading :=
  omap (λ e, match e with EData d => Some d | _ => None end) evs.


(** The pass detects the start: the marker is not set, a channel is called
    [run_start], and its node reads 1. *)
Definition starts (nodes : list string) (c : cycle) (t : thread) : bool :=
  bool_decide ("run_start" ∈ nodes) && negb (truthy (reactor_start_time t)) &&
  match get_value c "run_start" with Returns v => equals_one v | Raises _ => false end.

(** The value of a decimal numeral read digit by digit from [acc]. *)
Fixpoint uint_value (d : Decimal.uint) (acc : Z) : Z :=
  match d with
  | Decimal.Nil => acc
  | Decimal.D0 l => uint_value l (10 * acc + 0)
  | Decimal.D1 l => uint_value l (10 * acc + 1)
  | Decimal.D2 l => uint_value l (10 * acc + 2)
  | Decimal.D3 l => uint_value l (10 * acc + 3)
  | Decimal.D4 l => uint_value l (10 * acc + 4)
  | Decimal.D5 l => uint_value l (10 * acc + 5)
  | Decimal.D6 l => uint_value l (10 * acc + 6)
  | Decimal.D7 l => uint_value l (10 * acc + 7)
  | Decimal.D8 l => uint_value l (10 * acc + 8)
  | Decimal.D9 l => uint_value l (10 * acc + 9)
  end.

(** The value last assigned to an option by a list of assignments. *)
Definition last_write (section opt : string) (ws : list (string * string * option string))
  : option (option string) :=
  foldl (λ acc a, if decide (a.1 = (section, opt)) then Some a.2 else acc) None ws.

(** A reading the table takes as it is: it has a timestamp, its keys are
    columns and its values bind. *)
Definition storable (r : reading) : Prop :=
  is_Some (r !! "timestamp") ∧
  (∀ k, is_Some (r !! k) → k ∈ columns) ∧
  (∀ k v, r !! k = Some v → bindable v = true).

(** The store has a committed row of the timestamp of the reading. *)
Definition has_row (r : reading) (d : db) : Prop :=
  ∃ row, row ∈ committed d ∧ ts row = get "timestamp" r.

(** What a run keeps true on channels the table has: no transaction is left
    open, the cache can be stored, the rows committed at the start [d0] are
    kept, and every reading emitted is cached or has its row. *)
Definition kept (d0 : db) (t : thread) : Prop :=
  pending (db_manager t) = [] ∧
  Forall storable (data_cache t) ∧
  committed d0 `prefix_of` committed (db_manager t) ∧
  ∀ r, r ∈ data_signals (trace t) → r ∈ data_cache t ∨ has_row r (db_manager t).

(** Every cached reading has the key [k]. *)
Definition cache_keyed (k : string) (t : thread) : Prop :=
  Forall (λ r : reading, is_Some (r !! k)) (data_cache t).

(** From [t] on, every pass records the channel [k]: it is not the start
    marker's channel, or the marker is set. *)
Definition recorded (k : string) (t : thread) : Prop :=
  k ≠ "run_start" ∨ truthy (reactor_start_time t) = true.

End Props.

Import DatabaseManager OpcClientThread Spec.

(** * Properties of the bulk insert *)

Lemma elem_of_sorted_keys (d : reading) k : k ∈ sorted_keys d ↔ is_Some (d !! k).
Proof.
  unfold sorted_keys. rewrite merge_sort_Permutation, elem_of_elements.
  apply elem_of_dom.
Qed.

Lemma NoDup_sorted_keys (d : reading) : NoDup (sorted_keys d).
Proof.
  unfold sorted_keys. rewrite merge_sort_Permutation. apply NoDup_elements.
Qed.

Lemma lookup_project keys r k :
  project keys r !! k = if decide (k ∈ keys) then Some (get k r) else None.
Proof.
  unfold project. induction keys as [|k0 keys IH].
  - change ((∅ : row) !! k = if decide (k ∈ []) then Some (get k r) else None).
    rewrite lookup_empty. by rewrite decide_False by apply not_elem_of_nil.
  - rewrite fmap_cons.
    change (zip (k0 :: keys) (get k0 r :: ((λ k, get k r) <$> keys)))
      with ((k0, get k0 r) :: zip keys ((λ k, get k r) <$> keys)).
    rewrite list_to_map_cons, lookup_insert.
    destruct (decide (k0 = k)) as [->|Hne].
    + by rewrite decide_True by apply list_elem_of_here.
    + rewrite IH. destruct (decide (k ∈ keys)) as [Hin|Hnin].
      * by rewrite decide_True by (by apply list_elem_of_further).
      * rewrite decide_False; [done|]. rewrite elem_of_cons. naive_solver.
Qed.

Lemma cell_project keys r k :
  cell k (project keys r) = if decide (k ∈ keys) then get k r else PNone.
Proof. unfold cell. rewrite lookup_project. by destruct (decide _). Qed.

Lemma insert_or_ignore_project keys r d :
  insert_or_ignore keys ((λ k, get k r) <$> keys) d =
  if conflicts (project keys r) (visible d) then d
  else Db (committed d) (pending d ++ [project keys r]).
Proof. reflexivity. Qed.

Lemma conflicts_true r rows :
  conflicts r rows = true ↔ ts r ≠ PNone ∧ ∃ r', r' ∈ rows ∧ ts r' = ts r.
Proof.
  unfold conflicts. rewrite <- (Exists_exists (λ r', ts r' = ts r)).
  destruct (ts r) eqn:E; rewrite ?bool_decide_eq_true; naive_solver.
Qed.

Lemma timestamps_app rows1 rows2 :
  timestamps (rows1 ++ rows2) = timestamps rows1 ++ timestamps rows2.
Proof. unfold timestamps. by rewrite fmap_app, filter_app. Qed.

Lemma elem_of_timestamps t rows :
  t ∈ timestamps rows ↔ t ≠ PNone ∧ ∃ r, r ∈ rows ∧ ts r = t.
Proof.
  unfold timestamps. rewrite list_elem_of_filter, list_elem_of_fmap. naive_solver.
Qed.

Lemma timestamps_singleton r :
  timestamps [r] = if decide (ts r = PNone) then [] else [ts r].
Proof.
  unfold timestamps. simpl. rewrite filter_cons, filter_nil.
  repeat case_decide; naive_solver.
Qed.

Lemma grows_refl d : grows d d.
Proof. by repeat split. Qed.

Lemma grows_trans d1 d2 d3 : grows d1 d2 → grows d2 d3 → grows d1 d3.
Proof.
  intros (?&?&?) (?&?&?). repeat split; [by etrans..|auto].
Qed.

Lemma unique_timestamps_prefix rows rows' :
  rows `prefix_of` rows' → unique_timestamps rows' → unique_timestamps rows.
Proof.
  intros [k ->]. unfold unique_timestamps. rewrite timestamps_app, NoDup_app.
  tauto.
Qed.

Lemma insert_or_ignore_grows keys vals d : grows d (insert_or_ignore keys vals d).
Proof.
  unfold insert_or_ignore.
  destruct (conflicts _ (visible d)) eqn:Hc; [apply grows_refl|].
  unfold grows, visible; simpl. rewrite app_assoc.
  split; [by apply prefix_app_r|]. split; [done|].
  unfold unique_timestamps. intros Hnd.
  rewrite timestamps_app, timestamps_singleton.
  case_decide; [by rewrite app_nil_r|].
  apply NoDup_app. split; [done|]. split; [|apply NoDup_singleton].
  intros t Ht ->%list_elem_of_singleton.
  apply elem_of_timestamps in Ht as [_ (r' & Hr' & Hts)].
  assert (conflicts (list_to_map (zip keys vals)) (committed d ++ pending d) = true)
    as Hc'; [|unfold visible in Hc; congruence].
  apply conflicts_true. eauto.
Qed.

Lemma step_all_grows keys tuples d : grows d (step_all keys tuples d).1.
Proof.
  revert d. induction tuples as [|vals tuples IH]; intros d; simpl.
  - apply grows_refl.
  - destruct (first_unbindable 0 vals); [apply grows_refl|].
    eapply grows_trans; [apply insert_or_ignore_grows|apply IH].
Qed.

Lemma commit_grows d : grows d (commit d).
Proof.
  unfold grows, commit, visible; simpl. rewrite app_nil_r.
  repeat split; [done|by apply prefix_app_r|done].
Qed.

Lemma insert_bulk_data_grows batch d : grows d (insert_bulk_data batch d).1.
Proof.
  unfold insert_bulk_data. destruct batch as [|first rest]; [apply grows_refl|].
  unfold executemany. destruct (prepare _); [apply grows_refl|].
  pose proof (step_all_grows (sorted_keys first)
    ((λ row : reading, (λ k, get k row) <$> sorted_keys first) <$> first :: rest) d) as Hg.
  destruct (step_all _ _ d) as [d' [e|]]; simpl in *; [done|].
  eapply grows_trans; [exact Hg|apply commit_grows].
Qed.

Lemma insert_all_grows batches d : grows d (insert_all batches d).
Proof.
  revert d. induction batches as [|b batches IH]; intros d; simpl.
  - apply grows_refl.
  - eapply grows_trans; [apply insert_bulk_data_grows|apply IH].
Qed.

(** Without an error, [step_all] leaves the committed rows alone and appends
    to the open transaction rows of the batch only; every record of the batch
    is inserted or ignored. *)
Lemma step_all_accepted keys (rs : list reading) d :
  Forall (λ r, first_unbindable 0 (tuple keys r) = None) rs →
  ∃ new,
    step_all keys (tuple keys <$> rs) d = (Db (committed d) (pending d ++ new), None) ∧
    (∀ row, row ∈ new → ∃ r, r ∈ rs ∧ row = project keys r) ∧
    (∀ r, r ∈ rs → inserted_or_ignored keys r (visible d ++ new)).
Proof.
  revert d. induction rs as [|r rs IH]; intros d Hb.
  - exists []. rewrite app_nil_r. destruct d. split; [done|].
    split; intros ? []%not_elem_of_nil.
  - apply Forall_cons in Hb as [Hr Hrs]. rewrite fmap_cons. simpl.
    rewrite Hr.
    destruct (IH (insert_or_ignore keys (tuple keys r) d) Hrs) as (new & Hstep & Hnew & Hall).
    rewrite Hstep. clear Hstep IH.
    unfold tuple in *. rewrite insert_or_ignore_project in *.
    destruct (conflicts (project keys r) (visible d)) eqn:Hc.
    + exists new. split; [done|]. split.
      * intros row Hrow. destruct (Hnew row Hrow) as (r' & ? & ?).
        exists r'. split; [by apply list_elem_of_further|done].
      * intros r' [->|Hr']%elem_of_cons; [|by apply Hall].
        apply conflicts_true in Hc as [Hts (row & Hrow & Heq)].
        right. split; [done|]. exists row. split; [|done].
        apply elem_of_app. by left.
    + simpl in *. exists (project keys r :: new).
      unfold visible in *; simpl in *.
      replace (pending d ++ project keys r :: new)
        with ((pending d ++ [project keys r]) ++ new) by by rewrite <- app_assoc.
      split; [done|]. split.
      * intros row [->|Hrow]%elem_of_cons.
        -- exists r. split; [apply list_elem_of_here|done].
        -- destruct (Hnew row Hrow) as (r' & ? & ?).
           exists r'. split; [by apply list_elem_of_further|done].
      * replace ((committed d ++ pending d) ++ project keys r :: new)
          with ((committed d ++ pending d ++ [project keys r]) ++ new)
          by by rewrite <- !app_assoc.
        intros r' [->|Hr']%elem_of_cons; [|by apply Hall].
        left. rewrite !elem_of_app, list_elem_of_singleton. auto.
Qed.

Lemma insert_bulk_data_rejected first rest d e :
  prepare (sorted_keys first) = Some e →
  insert_bulk_data (first :: rest) d = (d, [LogInsertFailed e]).
Proof. intros He. unfold insert_bulk_data, executemany. by rewrite He. Qed.

Lemma insert_bulk_data_accepted first rest d :
  accepted (first :: rest) →
  ∃ new,
    insert_bulk_data (first :: rest) d
      = (Db (visible d ++ new) [], [LogFlushed (length (first :: rest))]) ∧
    (∀ row, row ∈ new → ∃ r, r ∈ first :: rest ∧ row = project (sorted_keys first) r) ∧
    (∀ r, r ∈ first :: rest → inserted_or_ignored (sorted_keys first) r (visible d ++ new)).
Proof.
  intros [Hp Hb].
  destruct (step_all_accepted (sorted_keys first) (first :: rest) d Hb)
    as (new & Hstep & Hnew & Hall).
  exists new. split; [|done].
  unfold insert_bulk_data, executemany. rewrite Hp.
  unfold tuple in Hstep. rewrite Hstep.
  unfold commit, visible; simpl. by rewrite length_fmap, app_assoc.
Qed.

Lemma inserted_or_ignored_timestamp keys r rows :
  inserted_or_ignored keys r rows →
  ∃ row, row ∈ rows ∧ ts row = ts (project keys r).
Proof. intros [?|[_ ?]]; eauto. Qed.

Lemma rows_at_nil t rows : t ≠ PNone → t ∉ timestamps rows → rows_at t rows = [].
Proof.
  intros Ht Hnin. unfold rows_at. induction rows as [|r rows IH]; [done|].
  rewrite filter_cons. destruct (decide (ts r = t)) as [Hr|Hr].
  - destruct Hnin. apply elem_of_timestamps. split; [done|].
    exists r. split; [apply list_elem_of_here|done].
  - apply IH. intros Hin. apply Hnin.
    apply elem_of_timestamps in Hin as [_ (r' & ? & ?)].
    apply elem_of_timestamps. split; [done|].
    exists r'. split; [by apply list_elem_of_further|done].
Qed.

Lemma rows_at_unique t rows row :
  unique_timestamps rows → t ≠ PNone → row ∈ rows → ts row = t →
  length (rows_at t rows) = 1%nat.
Proof.
  intros Hnd Ht Hin Hts. unfold unique_timestamps in Hnd.
  induction rows as [|r rows IH]; [by apply not_elem_of_nil in Hin|].
  change (r :: rows) with ([r] ++ rows) in Hnd.
  rewrite timestamps_app, timestamps_singleton in Hnd.
  unfold rows_at. rewrite filter_cons.
  destruct (decide (ts r = t)) as [Hr|Hr].
  - rewrite decide_False in Hnd by congruence.
    apply NoDup_cons in Hnd as [Hnin _]. rewrite Hr in Hnin.
    fold (rows_at t rows). by rewrite rows_at_nil.
  - apply elem_of_cons in Hin as [->|Hin]; [done|].
    apply IH; [|done]. apply NoDup_app in Hnd. tauto.
Qed.

Lemma insert_all_stores batches d batch first r t :
  batch ∈ batches → accepted batch → head batch = Some first →
  is_Some (first !! "timestamp") → r ∈ batch → r !! "timestamp" = Some t →
  ∃ row, row ∈ committed (insert_all batches d) ∧ ts row = t.
Proof.
  intros Hin Hacc Hhd Hkey Hr Ht. revert d.
  induction batches as [|b batches IH]; intros d; [by apply not_elem_of_nil in Hin|].
  apply elem_of_cons in Hin as [<-|Hin]; [|by apply IH].
  destruct batch as [|first' rest]; [done|]. injection Hhd as ->.
  destruct (insert_bulk_data_accepted first rest d Hacc) as (new & Heq & _ & Hall).
  destruct (inserted_or_ignored_timestamp _ _ _ (Hall r Hr)) as (row & Hrow & Hts).
  exists row. split.
  - destruct (insert_all_grows batches (insert_bulk_data (first :: rest) d).1)
      as (_ & [k Hk] & _).
    change (insert_all ((first :: rest) :: batches) d)
      with (insert_all batches (insert_bulk_data (first :: rest) d).1).
    rewrite Hk, Heq. simpl. apply elem_of_app. by left.
  - rewrite Hts. unfold ts. rewrite cell_project.
    rewrite decide_True by by apply elem_of_sorted_keys.
    unfold get. by rewrite Ht.
Qed.

(** A batch whose records all conflict with visible rows changes nothing. *)
Lemma step_all_ignored keys (rs : list reading) d :
  Forall (λ r, first_unbindable 0 (tuple keys r) = None) rs →
  Forall (λ r, conflicts (project keys r) (visible d) = true) rs →
  step_all keys (tuple keys <$> rs) d = (d, None).
Proof.
  induction rs as [|r rs IH]; intros Hb Hc; [done|].
  apply Forall_cons in Hb as [Hr Hb]. apply Forall_cons in Hc as [Hcr Hc].
  rewrite fmap_cons. cbn [step_all]. rewrite Hr.
  unfold tuple in *. rewrite insert_or_ignore_project, Hcr. by apply IH.
Qed.

(** Replaying an accepted batch of timestamped readings is a no-op. *)
Lemma insert_bulk_data_replay first rest d :
  accepted (first :: rest) → is_Some (first !! "timestamp") →
  Forall (λ r, get "timestamp" r ≠ PNone) (first :: rest) →
  insert_bulk_data (first :: rest) (insert_bulk_data (first :: rest) d).1
  = ((insert_bulk_data (first :: rest) d).1, [LogFlushed (length (first :: rest))]).
Proof.
  intros Hacc Hkey Hts.
  destruct (insert_bulk_data_accepted first rest d Hacc) as (new & -> & _ & Hall).
  cbn [fst]. destruct Hacc as [Hp Hb].
  unfold insert_bulk_data, executemany. rewrite Hp.
  change ((λ row : reading, (λ k, get k row) <$> sorted_keys first) <$> first :: rest)
    with (tuple (sorted_keys first) <$> first :: rest).
  rewrite step_all_ignored; [|done|].
  - unfold commit, visible. cbn [committed pending]. by rewrite length_fmap, !app_nil_r.
  - apply Forall_forall. intros r Hr. apply conflicts_true.
    assert (ts (project (sorted_keys first) r) = get "timestamp" r) as Heq.
    { unfold ts. rewrite cell_project.
      by rewrite decide_True by by apply elem_of_sorted_keys. }
    split.
    + rewrite Heq. by eapply Forall_forall in Hts.
    + destruct (inserted_or_ignored_timestamp _ _ _ (Hall r Hr)) as (row & Hrow & Hrts).
      exists row. split; [|done].
      unfold visible. cbn [committed pending]. by rewrite app_nil_r.
Qed.

(** C1 (at-most-once persistence).  Whatever batches a sequence of bulk
    inserts is given, overlapping or repeated, the table never holds two rows
    with one timestamp; every row that was there stays at its place,
    unchanged; a timestamp of a batch whose statement was accepted is held by
    exactly one committed row; and inserting such a batch once more leaves
    the table as it is. *)
Theorem insert_bulk_data_at_most_once (batches : list (list reading)) (d : db) :
  unique_timestamps (visible d) →
  unique_timestamps (visible (insert_all batches d)) ∧
  unique_timestamps (committed (insert_all batches d)) ∧
  (∀ i row, visible d !! i = Some row → visible (insert_all batches d) !! i = Some row) ∧
  (∀ batch first r t,
     batch ∈ batches → accepted batch → head batch = Some first →
     is_Some (first !! "timestamp") → r ∈ batch →
     r !! "timestamp" = Some t → t ≠ PNone →
     length (rows_at t (committed (insert_all batches d))) = 1%nat) ∧
  (∀ first rest,
     accepted (first :: rest) → is_Some (first !! "timestamp") →
     Forall (λ r, get "timestamp" r ≠ PNone) (first :: rest) →
     insert_bulk_data (first :: rest) (insert_bulk_data (first :: rest) d).1
     = ((insert_bulk_data (first :: rest) d).1, [LogFlushed (length (first :: rest))])).
Proof.
  intros Hu. destruct (insert_all_grows batches d) as (Hvis & _ & Huniq).
  assert (unique_timestamps (committed (insert_all batches d))) as Hc.
  { eapply unique_timestamps_prefix; [|by apply Huniq].
    by apply prefix_app_r. }
  split; [by apply Huniq|]. split; [done|]. split; [|split].
  - intros i row Hi. by eapply prefix_lookup_Some.
  - intros batch first r t Hin Hacc Hhd Hkey Hr Ht Hnn.
    destruct (insert_all_stores batches d batch first r t) as (row & Hrow & Hts);
      [done..|].
    by eapply rows_at_unique.
  - intros first rest. apply insert_bulk_data_replay.
Qed.

(** C3, the amended claim.  The column set of the statement is the key set
    of the first record of the batch: a record's value under such a key is
    written, null when the record lacks the key, and nothing else of the
    record is.  A statement that does not prepare writes nothing; an accepted
    one inserts every record, or ignores it for a row with its timestamp, and
    commits once. *)
Theorem insert_bulk_data_first_record_columns (first : reading) (rest : list reading) (d : db) :
  (∀ k, k ∈ sorted_keys first ↔ is_Some (first !! k)) ∧
  (∀ r k, cell k (project (sorted_keys first) r)
          = if decide (is_Some (first !! k)) then get k r else PNone) ∧
  (∀ e, prepare (sorted_keys first) = Some e →
        insert_bulk_data (first :: rest) d = (d, [LogInsertFailed e])) ∧
  (accepted (first :: rest) →
   ∃ new,
     insert_bulk_data (first :: rest) d
       = (Db (visible d ++ new) [], [LogFlushed (length (first :: rest))]) ∧
     (∀ row, row ∈ new → ∃ r, r ∈ first :: rest ∧ row = project (sorted_keys first) r) ∧
     (∀ r, r ∈ first :: rest →
           inserted_or_ignored (sorted_keys first) r (visible d ++ new))).
Proof.
  split; [apply elem_of_sorted_keys|]. split; [|split].
  - intros r k. rewrite cell_project.
    destruct (decide (k ∈ sorted_keys first)) as [Hk|Hk];
      rewrite elem_of_sorted_keys in Hk; [by rewrite decide_True|by rewrite decide_False].
  - intros e. apply insert_bulk_data_rejected.
  - apply insert_bulk_data_accepted.
Qed.

Lemma insert_bulk_data_at_most_once_witness :
  unique_timestamps (visible empty_db) ∧
  length (rows_at (PNum (qz 2))
            (committed (insert_all [ [sample 1 (PNum (qz 7)); sample 2 (PNum (qz 7))];
                                     [sample 2 (PNum (qz 8)); sample 3 (PNum (qz 8))] ]
                                   empty_db))) = 1%nat.
Proof.
  assert (unique_timestamps (visible empty_db)) as H0 by apply NoDup_nil_2.
  split; [exact H0|].
  destruct (insert_bulk_data_at_most_once
              [ [sample 1 (PNum (qz 7)); sample 2 (PNum (qz 7))];
                [sample 2 (PNum (qz 8)); sample 3 (PNum (qz 8))] ] empty_db H0)
    as (_ & _ & _ & H & _).
  apply (H [sample 2 (PNum (qz 8)); sample 3 (PNum (qz 8))]
           (sample 2 (PNum (qz 8))) (sample 2 (PNum (qz 8)))).
  - apply list_elem_of_further, list_elem_of_here.
  - split; [vm_compute; reflexivity|].
    repeat (constructor; [vm_compute; reflexivity|]). constructor.
  - reflexivity.
  - eexists. vm_compute. reflexivity.
  - apply list_elem_of_here.
  - vm_compute. reflexivity.
  - discriminate.
Defined.

(** C3, as stated, fails: in a batch whose first record has no
    [bioreactor_status], the status of a later record is not stored. *)
Lemma insert_bulk_data_drops_field :
  ¬ no_field_dropped [sample 1 (PNum (qz 7)); sample_started 2 (PNum (qz 7))] empty_db.
Proof.
  intros H.
  destruct (H (sample_started 2 (PNum (qz 7))) "bioreactor_status" (PStr "STARTED"))
    as (row & Hrow & _ & Hcell).
  - apply list_elem_of_further, list_elem_of_here.
  - vm_compute. reflexivity.
  - destruct (insert_bulk_data_accepted (sample 1 (PNum (qz 7)))
                [sample_started 2 (PNum (qz 7))] empty_db) as (new & Heq & Hnew & _).
    { split; [vm_compute; reflexivity|].
      repeat (constructor; [vm_compute; reflexivity|]). constructor. }
    rewrite Heq in Hrow. clear Heq H. simpl in Hrow.
    destruct (Hnew row Hrow) as (r & _ & ->).
    rewrite cell_project in Hcell.
    destruct (decide ("bioreactor_status" ∈ sorted_keys (sample 1 (PNum (qz 7)))))
      as [Hk|_]; [|discriminate Hcell].
    apply elem_of_sorted_keys in Hk. vm_compute in Hk.
    destruct Hk as [? Hk]. discriminate Hk.
Qed.

(** * Properties of the flush and of the shutdown *)

Lemma flush_cons t first rest :
  data_cache t = first :: rest →
  _flush_cache_to_db t =
  Thread (reactor_start_time t) [] (insert_bulk_data (first :: rest) (db_manager t)).1
         ((trace t ++ [EFlush]) ++ (ELog <$> (insert_bulk_data (first :: rest) (db_manager t)).2)).
Proof.
  intros Hc. unfold _flush_cache_to_db, emit.
  cbn [data_cache db_manager trace reactor_start_time]. rewrite Hc.
  by destruct (insert_bulk_data (first :: rest) (db_manager t)).
Qed.

Lemma flush_nil t : data_cache t = [] → _flush_cache_to_db t = emit EFlush t.
Proof.
  intros Hc. unfold _flush_cache_to_db, emit.
  cbn [data_cache db_manager trace reactor_start_time]. by rewrite Hc.
Qed.

Lemma flush_clears t : data_cache (_flush_cache_to_db t) = [].
Proof.
  destruct (data_cache t) as [|first rest] eqn:Hc.
  - rewrite flush_nil by done. exact Hc.
  - by rewrite (flush_cons t first rest).
Qed.

Lemma step_all_committed keys tuples d :
  committed (step_all keys tuples d).1 = committed d.
Proof.
  revert d. induction tuples as [|vals tuples IH]; intros d; simpl; [done|].
  destruct (first_unbindable 0 vals); [done|].
  rewrite IH. unfold insert_or_ignore. by destruct (conflicts _ _).
Qed.

Lemma insert_bulk_data_failed_committed batch d e :
  (insert_bulk_data batch d).2 = [LogInsertFailed e] →
  committed (insert_bulk_data batch d).1 = committed d.
Proof.
  unfold insert_bulk_data. destruct batch as [|first rest]; [done|].
  unfold executemany. destruct (prepare _); [done|].
  pose proof (step_all_committed (sorted_keys first)
    ((λ row : reading, (λ k, get k row) <$> sorted_keys first) <$> first :: rest) d) as Hc.
  destruct (step_all _ _ d) as [d' [e'|]]; simpl in *; [done|discriminate].
Qed.

(** C9, the amended claim.  The flush clears the cache before the bulk
    insert and the bulk insert only logs its failure: whatever makes it fail,
    the cache is empty afterwards, the committed rows are the same, and
    nothing is queued again.  When the statement is rejected at preparation
    (a key of the first record is not a column), the connection is left as it
    was, so the readings of the batch are gone for good. *)
Theorem flush_discards_failed_batch (t : thread) (first : reading) (rest : list reading) :
  data_cache t = first :: rest →
  (∀ e, (insert_bulk_data (first :: rest) (db_manager t)).2 = [LogInsertFailed e] →
        data_cache (_flush_cache_to_db t) = [] ∧
        committed (db_manager (_flush_cache_to_db t)) = committed (db_manager t) ∧
        trace (_flush_cache_to_db t) = trace t ++ [EFlush; ELog (LogInsertFailed e)]) ∧
  (∀ e, prepare (sorted_keys first) = Some e →
        _flush_cache_to_db t =
        Thread (reactor_start_time t) [] (db_manager t)
               (trace t ++ [EFlush; ELog (LogInsertFailed e)])).
Proof.
  intros Hc. split.
  - intros e He. rewrite (flush_cons t first rest Hc).
    cbn [data_cache db_manager trace]. rewrite He. split; [done|]. split.
    + by apply insert_bulk_data_failed_committed with e.
    + by rewrite <- app_assoc.
  - intros e He. rewrite (flush_cons t first rest Hc).
    rewrite (insert_bulk_data_rejected first rest _ e He).
    cbn [fst snd fmap list_fmap]. by rewrite <- app_assoc.
Qed.

Lemma flush_discards_failed_batch_witness :
  data_cache (Thread PNone [ {[ "timestamp" := PNum (qz 1); "temp" := PNum (qz 37) ]} ]
                     empty_db [])
    = [ {[ "timestamp" := PNum (qz 1); "temp" := PNum (qz 37) ]} ] ∧
  _flush_cache_to_db
    (Thread PNone [ {[ "timestamp" := PNum (qz 1); "temp" := PNum (qz 37) ]} ] empty_db [])
    = Thread PNone [] empty_db [EFlush; ELog (LogInsertFailed (NoSuchColumn "temp"))].
Proof.
  split; [reflexivity|].
  apply (flush_discards_failed_batch
           (Thread PNone [ {[ "timestamp" := PNum (qz 1); "temp" := PNum (qz 37) ]} ]
                   empty_db [])
           {[ "timestamp" := PNum (qz 1); "temp" := PNum (qz 37) ]} []).
  - reflexivity.
  - vm_compute. reflexivity.
Defined.

(** C9, as stated, fails: a batch whose insert fails while binding its
    second record leaves its first row in the open transaction, and the next
    flush that succeeds commits it. *)
Lemma failed_batch_reaches_store :
  ¬ failed_batch_never_stored
      (Thread PNone [sample 1 (PNum (qz 7)); sample 2 PObj] empty_db [])
      [sample 3 (PNum (qz 7))].
Proof.
  intros H.
  apply (H (ltac:(eexists; vm_compute; reflexivity))
           (sample 1 (PNum (qz 7))) (project ["ph"; "timestamp"] (sample 1 (PNum (qz 7))))).
  - apply list_elem_of_here.
  - clear H. apply (bool_decide_unpack _). vm_compute. exact I.
  - clear H. apply (bool_decide_unpack _). vm_compute. exact I.
Qed.

Lemma finally_state cl is_connected t :
  (finally cl is_connected t).1 =
  let t1 := _flush_cache_to_db (emit ETimerStop t) in
  Thread (reactor_start_time t1) (data_cache t1) (db_manager t1)
         (trace t1 ++ closing cl is_connected).
Proof.
  unfold finally, closing. destruct is_connected; [destruct (disconnect cl)|];
    unfold emit; cbn [fst reactor_start_time data_cache db_manager trace];
    by rewrite <- ?app_assoc.
Qed.




(** * Properties of the acquisition loop *)

Lemma extends_refl p t : extends p t t.
Proof. exists []. by rewrite app_nil_r. Qed.

Lemma extends_trans p t1 t2 t3 : extends p t1 t2 → extends p t2 t3 → extends p t1 t3.
Proof.
  intros (evs1 & H1 & F1) (evs2 & H2 & F2). exists (evs1 ++ evs2).
  rewrite H2, H1, app_assoc. split; [done|]. by apply Forall_app.
Qed.

Lemma extends_emit p e t : body_event p e → extends p t (emit e t).
Proof. intros He. exists [e]. split; [done|]. by apply Forall_singleton. Qed.

Lemma insert_bulk_data_logs batch d :
  Forall flush_log (insert_bulk_data batch d).2.
Proof.
  unfold insert_bulk_data. destruct batch as [|first rest]; [constructor|].
  destruct (executemany _ _ d) as [d' [e|]]; by apply Forall_singleton.
Qed.

Lemma flush_trace t :
  ∃ logs, trace (_flush_cache_to_db t) = trace t ++ EFlush :: (ELog <$> logs) ∧
          Forall flush_log logs.
Proof.
  destruct (data_cache t) as [|first rest] eqn:Hc.
  - exists []. rewrite flush_nil by done. split; [done|constructor].
  - exists (insert_bulk_data (first :: rest) (db_manager t)).2.
    rewrite (flush_cons t first rest Hc). cbn [trace].
    split; [by rewrite <- app_assoc|apply insert_bulk_data_logs].
Qed.

Lemma extends_flush p t : extends p t (_flush_cache_to_db t).
Proof.
  destruct (flush_trace t) as (logs & Ht & Hlogs).
  exists (EFlush :: (ELog <$> logs)). split; [done|].
  constructor; [done|]. apply Forall_fmap. eapply Forall_impl; [exact Hlogs|].
  by intros [].
Qed.

Lemma extends_poll_node p c acc name :
  extends p acc.1.1 (poll_node c acc name).1.1.
Proof.
  destruct acc as [[t data] note]. unfold poll_node.
  destruct (_ && _); destruct (get_value c name) as [v|e];
    try destruct (equals_one v); cbn [fst]; try apply extends_refl.
  by apply (extends_emit p (EReactorStarted _)
              (Thread (get "timestamp" data) (data_cache t) (db_manager t) (trace t))).
Qed.

Lemma extends_poll_nodes p nodes c t : extends p t (poll_nodes nodes c t).1.1.
Proof.
  unfold poll_nodes.
  generalize ({[ "timestamp" := PNum (now c) ]} : reading) (@None string).
  revert t. induction nodes as [|name nodes IH]; intros t data note; cbn [foldl].
  - apply extends_refl.
  - pose proof (extends_poll_node p c (t, data, note) name) as H.
    destruct (poll_node c (t, data, note) name) as [[t' data'] note'].
    eapply extends_trans; [exact H|apply IH].
Qed.

Lemma extends_poll_cycle p nodes c t : extends p t (poll_cycle nodes c t).
Proof.
  unfold poll_cycle.
  eapply extends_trans; [apply extends_poll_nodes|].
  by apply (extends_emit p (EData _)).
Qed.

Lemma extends_loop p nodes cs t : extends p t (loop p nodes cs t).1.
Proof.
  revert t. induction cs as [|c cs IH]; intros t; simpl; [apply extends_refl|].
  assert (extends p t
            (emit (ESleep p)
               (poll_cycle nodes c (if timer_fired c then _flush_cache_to_db t else t))))
    as Hstep.
  { eapply extends_trans; [|by apply extends_emit].
    eapply extends_trans; [|apply extends_poll_cycle].
    destruct (timer_fired c); [apply extends_flush|apply extends_refl]. }
  case_bool_decide; [exact Hstep|].
  eapply extends_trans; [exact Hstep|apply IH].
Qed.

Lemma connected_status_ne a : "Connected to " +:+ a ≠ "Disconnected".
Proof. discriminate. Qed.

Lemma failed_status_ne e : "Connection Failed: " +:+ e ≠ "Disconnected".
Proof. discriminate. Qed.

Lemma try_block_spec cfg cl p ids t :
  extends p t (try_block cfg cl p ids t).1.1 ∧
  (try_block cfg cl p ids t).1.2 = connected cl.
Proof.
  unfold try_block, connected. destruct (connect cl) as [[]|e]; cbn [fst snd].
  - assert (extends p t
              (emit (ELog (LogConnected (address cfg)))
                 (emit (EStatus ("Connected to " +:+ address cfg)) (emit EConnect t))))
      as H0.
    { eapply extends_trans; [|by apply extends_emit].
      eapply extends_trans; [by apply (extends_emit p EConnect)|].
      apply (extends_emit p (EStatus ("Connected to " +:+ address cfg))).
      apply connected_status_ne. }
    destruct (get_nodes cl ids); [done|].
    pose proof (extends_loop p ids.*1 (cycles cl)
      (emit ETimerStart
        (emit (ELog (LogConnected (address cfg)))
           (emit (EStatus ("Connected to " +:+ address cfg)) (emit EConnect t))))) as H1.
    destruct (loop _ _ _ _) as [t' e']. cbn [fst snd] in *. split; [|done].
    eapply extends_trans; [exact H0|].
    eapply extends_trans; [|exact H1]. by apply extends_emit.
  - split; [|done]. by apply (extends_emit p EConnect).
Qed.

Lemma finally_trace cl is_connected t :
  ∃ logs, trace (finally cl is_connected t).1
          = trace t ++ [ETimerStop; EFlush] ++ (ELog <$> logs) ++ closing cl is_connected ∧
          Forall flush_log logs.
Proof.
  rewrite finally_state. cbn [trace].
  destruct (flush_trace (emit ETimerStop t)) as (logs & -> & Hlogs).
  exists logs. unfold emit; cbn [trace]. by rewrite <- !app_assoc.
Qed.

(** The trace of [run]: the warning about the cadence, if any; the events of
    the connection and of the polling; then the shutdown. *)
Lemma run_trace cfg cl t :
  ∃ body logs,
    trace (run cfg cl t).1
      = trace t ++ (ELog <$> (polling_interval cfg).2) ++ body
          ++ [ETimerStop; EFlush] ++ (ELog <$> logs) ++ closing cl (connected cl) ∧
    Forall (body_event (qz (polling_interval cfg).1 / qz 1000)%Qc) body ∧
    Forall flush_log logs.
Proof.
  unfold run. destruct (polling_interval cfg) as [poll_ms warning]. cbn [fst snd].
  set (p := (qz poll_ms / qz 1000)%Qc).
  set (t1 := Thread _ _ _ (trace t ++ (ELog <$> warning))).
  destruct (try_block_spec cfg cl p (node_ids_to_poll (tags cfg)) t1) as [Hext Hconn].
  destruct (try_block cfg cl p _ t1) as [[t2 c] e]. cbn [fst snd] in *. subst c.
  match goal with |- context [finally cl _ ?t3] => set (t3' := t3) end.
  assert (extends p t1 t3') as (body & Hbody & HF).
  { subst t3'. destruct e as [e|]; [|done].
    eapply extends_trans; [exact Hext|].
    eapply extends_trans;
      [apply (extends_emit p (EStatus ("Connection Failed: " +:+ e))),
         failed_status_ne|].
    by apply (extends_emit p (ELog (LogClientFailed e))). }
  destruct (finally_trace cl (connected cl) t3') as (logs & -> & Hlogs).
  exists body, logs. split; [|done].
  rewrite Hbody. subst t1. cbn [trace]. by rewrite <- !app_assoc.
Qed.

Lemma happens_before_spec a b evs :
  happens_before a b evs = true ↔
  ∃ i j x y, evs !! i = Some x ∧ evs !! j = Some y ∧
             a x = true ∧ b y = true ∧ (i < j)%nat.
Proof.
  induction evs as [|e evs IH]; simpl.
  - split; [done|]. by intros (i & j & x & y & Hi & _).
  - rewrite orb_true_iff, andb_true_iff, IH, existsb_exists. split.
    + intros [[Ha (y & Hy & Hb)]|(i & j & x & y & Hi & Hj & Ha & Hb & Hlt)].
      * apply list_elem_of_In, list_elem_of_lookup in Hy as [j Hj].
        exists 0%nat, (S j), e, y. repeat split; [done..|lia].
      * exists (S i), (S j), x, y. repeat split; [done..|lia].
    + intros (i & j & x & y & Hi & Hj & Ha & Hb & Hlt).
      destruct j as [|j]; [lia|]. simpl in Hj. destruct i as [|i].
      * injection Hi as <-. left. split; [done|]. exists y. split; [|done].
        apply list_elem_of_In, list_elem_of_lookup. eauto.
      * right. exists i, j, x, y. repeat split; [done..|lia].
Qed.

(** With the tags [ph], [temp] and [run_start], every reading of a run has
    the key [temp]; the table has no such column, so the final flush stores
    nothing. *)
Example run_with_temp_tag_stores_nothing :
  let t := (run (sample_config "1000") (sample_client [sample_cycle 1; sample_cycle 2])
                (init empty_db)).1 in
  db_manager t = empty_db ∧ data_cache t = [] ∧
  List.filter (λ e, match e with ELog _ => true | _ => false end) (trace t)
  = [ELog (LogConnected "opc.tcp://localhost:4840");
     ELog (LogInsertFailed (NoSuchColumn "temp"))].
Proof. vm_compute. repeat split; reflexivity. Qed.

(** C7, the amended claim.  [run] ends with: the stop of the flush timer,
    once the loop is left; the final flush; then the disconnection, when the
    connection had been made; then the status [Disconnected], unless the
    disconnection raised.  Nothing before belongs to the shutdown. *)
Theorem run_shutdown_order (cfg : config) (cl : client) (t : thread) :
  ∃ body logs,
    trace (run cfg cl t).1
      = trace t ++ body ++ [ETimerStop; EFlush] ++ (ELog <$> logs)
          ++ closing cl (connected cl) ∧
    Forall (λ e, e ≠ ETimerStop ∧ e ≠ EDisconnect ∧ e ≠ EStatus "Disconnected") body.
Proof.
  destruct (run_trace cfg cl t) as (body & logs & Ht & HF & _).
  exists ((ELog <$> (polling_interval cfg).2) ++ body), logs.
  split; [by rewrite Ht, <- !app_assoc|].
  apply Forall_app. split.
  - apply Forall_fmap, Forall_true. by intros l.
  - eapply Forall_impl; [exact HF|].
    intros [] He; repeat split; try done; simpl in He; congruence.
Qed.

(** C7, as stated, fails: in a run of one pass the disconnection does not
    come before the flush. *)
Lemma run_flushes_before_disconnect :
  ¬ disconnects_before_flush
      (trace (run (sample_config "1000") (sample_client [sample_cycle 1])
                  (init empty_db)).1).
Proof. unfold disconnects_before_flush. vm_compute. discriminate. Qed.

(** C8, the amended claim.  When the option is missing or is not an integer
    literal, [run] logs the warning and sleeps the default 1000 ms between
    passes.  Every integer is used as given, without a warning, whether or
    not it is below 100. *)
Theorem run_polling_cadence (cfg : config) (cl : client) (t : thread) :
  (getint cfg = None →
   ∃ evs, trace (run cfg cl t).1 = trace t ++ ELog (LogInvalidPolling 1000) :: evs ∧
          Forall (cadence_event (qz 1000 / qz 1000)%Qc) evs) ∧
  (∀ n, getint cfg = Some n →
   ∃ evs, trace (run cfg cl t).1 = trace t ++ evs ∧
          Forall (cadence_event (qz n / qz 1000)%Qc) evs).
Proof.
  destruct (run_trace cfg cl t) as (body & logs & Ht & HF & Hlogs).
  assert (Forall (cadence_event (qz (polling_interval cfg).1 / qz 1000)%Qc)
            (body ++ [ETimerStop; EFlush] ++ (ELog <$> logs) ++ closing cl (connected cl)))
    as Hall.
  { apply Forall_app. split.
    { eapply Forall_impl; [exact HF|]. by intros [| | |[]| | | | | |]. }
    repeat (apply Forall_cons; split; [done|]).
    apply Forall_app. split.
    - apply Forall_fmap. eapply Forall_impl; [exact Hlogs|]. by intros [].
    - unfold closing. destruct (connected cl); [destruct (disconnect cl)|];
        by repeat constructor. }
  unfold polling_interval in *. split.
  - intros Hg. rewrite Hg in *. cbn [fst snd] in *.
    eexists. split; [exact Ht|exact Hall].
  - intros n Hg. rewrite Hg in *. cbn [fst snd] in *.
    eexists. split; [exact Ht|exact Hall].
Qed.

(** C8, as stated, fails: a cadence of 50 ms is used as given. *)
Lemma cadence_below_minimum_is_used : ¬ cadence_validated (sample_config "50").
Proof. vm_compute. intros H. discriminate H. Qed.

Example getint_examples :
  getint (sample_config " 250 ") = Some 250 ∧
  getint (sample_config "1_000") = Some 1000 ∧
  getint (sample_config "50") = Some 50 ∧
  getint (sample_config "-5") = Some (-5) ∧
  getint (sample_config "fast") = None ∧
  getint (sample_config "0.5") = None ∧
  getint (sample_config "") = None ∧
  getint (Config "opc.tcp://localhost:4840" None []) = None.
Proof. by vm_compute. Qed.

(** A cadence of 50 ms makes the loop sleep 1/20 s after each pass. *)
Example run_sleeps_configured_cadence :
  List.filter (λ e, match e with ESleep _ => true | _ => false end)
    (trace (run (sample_config "50") (sample_client [sample_cycle 1; sample_cycle 2])
                (init empty_db)).1)
  = [ESleep (qz 50 / qz 1000)%Qc; ESleep (qz 50 / qz 1000)%Qc].
Proof. vm_compute. reflexivity. Qed.

(** A negative cadence is used as given too: [time.sleep] raises after the
    first pass, and the loop ends with a failure status. *)
Example run_negative_cadence :
  List.filter (λ e, match e with EStatus _ => true | _ => false end)
    (trace (run (sample_config "-5") (sample_client [sample_cycle 1; sample_cycle 2])
                (init empty_db)).1)
  = [EStatus "Connected to opc.tcp://localhost:4840";
     EStatus "Connection Failed: sleep length must be non-negative";
     EStatus "Disconnected"].
Proof. vm_compute. reflexivity. Qed.



Lemma poll_node_lookup c acc name :
  (poll_node c acc name).1.2 !! name =
  match get_value c name with
  | Raises _ => Some PNone
  | Returns v =>
      if bool_decide (name = "run_start") && negb (truthy (reactor_start_time acc.1.1))
      then acc.1.2 !! name
      else Some v
  end.
Proof.
  destruct acc as [[t data] note]. unfold poll_node. cbn [fst snd].
  destruct (_ && _); destruct (get_value c name) as [v|e];
    try destruct (equals_one v); cbn [fst snd]; by rewrite ?lookup_insert_eq.
Qed.






(** * Properties of the export *)

(** Goals on [Qc] are moved to [Q], where [lra], [ring] and [field] work. *)
Ltac to_Q :=
  unfold Qcle, Qclt, qz in *;
  repeat (unfold Qcplus, Qcmult, Qcminus, Qcdiv, Qcinv, Qcopp, Q2Qc in *;
          cbn [this] in *);
  rewrite ?Qred_correct in *.

Lemma Qfloor_unique (x : Q) (i : Z) :
  (inject_Z i <= x)%Q → (x < inject_Z (i + 1))%Q → Qfloor x = i.
Proof.
  intros H1 H2.
  pose proof (Qfloor_le x) as H3. pose proof (Qlt_floor x) as H4.
  assert (inject_Z i < inject_Z (Qfloor x + 1))%Q as H5 by (eapply Qle_lt_trans; eauto).
  assert (inject_Z (Qfloor x) < inject_Z (i + 1))%Q as H6 by (eapply Qle_lt_trans; eauto).
  rewrite <- Zlt_Qlt in H5, H6. lia.
Qed.

Lemma Q_bin (o w t : Q) (i : Z) :
  (0 < w)%Q →
  Qfloor ((t + - o) * / w) = i
  ↔ (o + w * inject_Z i <= t < o + w * inject_Z i + w)%Q.
Proof.
  intros Hw.
  assert ((t + - o) * / w * w == t + - o)%Q as Hx.
  { field. intros H0. rewrite H0 in Hw. by apply Qlt_irrefl in Hw. }
  set (x := ((t + - o) * / w)%Q) in *.
  split.
  - intros <-.
    pose proof (Qfloor_le x) as H3. pose proof (Qlt_floor x) as H4.
    rewrite inject_Z_plus in H4. change (inject_Z 1) with 1%Q in H4.
    apply (Qmult_le_r _ _ w Hw) in H3. apply (Qmult_lt_r _ _ w Hw) in H4.
    set (f := inject_Z (Qfloor x)) in *. clearbody f. clearbody x.
    split; lra.
  - intros [H1 H2]. apply Qfloor_unique.
    + apply (Qmult_le_r _ _ w Hw). set (f := inject_Z i) in *. clearbody f x. lra.
    + rewrite inject_Z_plus. change (inject_Z 1) with 1%Q.
      apply (Qmult_lt_r _ _ w Hw). set (f := inject_Z i) in *. clearbody f x. lra.
Qed.

(** A bin is closed on the left, open on the right, and [w] wide. *)
Lemma bin_index_spec (origin w t : Qc) (i : Z) :
  (0 < w)%Qc →
  bin_index origin w t = i ↔ (bin_start origin w i ≤ t < bin_start origin w i + w)%Qc.
Proof.
  intros Hw. unfold bin_index, bin_start, qfloor.
  destruct origin as [o Ho], w as [w Hwc], t as [t Ht].
  to_Q. by apply Q_bin.
Qed.

Lemma bin_index_mono (origin w t t' : Qc) :
  (0 < w)%Qc → (t ≤ t')%Qc → (bin_index origin w t ≤ bin_index origin w t')%Z.
Proof.
  intros Hw Ht. unfold bin_index, qfloor.
  destruct origin as [o Ho], w as [w Hwc], t as [t Htc], t' as [t' Htc'].
  to_Q. apply Qfloor_resp_le.
  apply Qmult_le_compat_r; [lra|]. apply Qlt_le_weak, Qinv_lt_0_compat, Hw.
Qed.

Lemma qz_pos z : (0 < z)%Z → (0 < qz z)%Qc.
Proof. intros Hz. to_Q. change 0%Q with (inject_Z 0). by rewrite <- Zlt_Qlt. Qed.


Lemma string_leb_trans a b c :
  String.leb a b = true → String.leb b c = true → String.leb a c = true.
Proof.
  unfold String.leb.
  assert (∀ a b c, String.compare a b ≠ Gt → String.compare b c ≠ Gt →
                   String.compare a c ≠ Gt) as H.
  { clear. induction a as [|x a IH]; intros [|y b] [|z c]; simpl; try done.
    unfold Ascii.compare.
    destruct (N.compare_spec (N_of_ascii x) (N_of_ascii y)) as [Hxy|Hxy|Hxy];
    destruct (N.compare_spec (N_of_ascii y) (N_of_ascii z)) as [Hyz|Hyz|Hyz];
    destruct (N.compare_spec (N_of_ascii x) (N_of_ascii z)) as [Hxz|Hxz|Hxz];
      try done; try lia; try (intros; by eapply IH). }
  intros H1 H2. specialize (H a b c).
  destruct (String.compare a b), (String.compare b c), (String.compare a c);
    try done; by destruct H.
Qed.

Lemma sql_le_total a b : sql_le a b = true ∨ sql_le b a = true.
Proof.
  destruct a as [|x|x|], b as [|y|y|]; simpl; auto.
  - rewrite !bool_decide_eq_true. apply Qc_le_total.
  - apply String.leb_total.
Qed.

Lemma sql_le_trans a b c : sql_le a b = true → sql_le b c = true → sql_le a c = true.
Proof.
  destruct a as [|x|x|], b as [|y|y|], c as [|z|z|]; simpl; try done.
  - rewrite !bool_decide_eq_true. apply Qcle_trans.
  - apply string_leb_trans.
Qed.

Global Instance row_le_total : Total row_le.
Proof. intros r1 r2. apply sql_le_total. Qed.

Global Instance row_le_trans : Transitive row_le.
Proof. intros r1 r2 r3. apply sql_le_trans. Qed.

Global Instance row_le_refl : Reflexive row_le.
Proof. intros r. by destruct (sql_le_total (ts r) (ts r)). Qed.

Lemma between_seconds start_ts end_ts r :
  between start_ts end_ts r = true →
  ts r = PNum (seconds r) ∧ (start_ts ≤ seconds r)%Qc ∧ (seconds r ≤ end_ts)%Qc.
Proof.
  unfold between, seconds. destruct (ts r); try done. simpl.
  rewrite andb_true_iff, !bool_decide_eq_true. tauto.
Qed.

Lemma row_le_seconds r1 r2 :
  ts r1 = PNum (seconds r1) → ts r2 = PNum (seconds r2) →
  row_le r1 r2 → (seconds r1 ≤ seconds r2)%Qc.
Proof.
  unfold row_le. intros -> ->. simpl. by rewrite bool_decide_eq_true.
Qed.

Lemma query_range_Permutation start_ts end_ts rows :
  query_range start_ts end_ts rows ≡ₚ filter (λ r, between start_ts end_ts r = true) rows.
Proof. apply merge_sort_Permutation. Qed.

Lemma query_range_sorted start_ts end_ts rows :
  StronglySorted row_le (query_range start_ts end_ts rows).
Proof. apply StronglySorted_merge_sort; apply _. Qed.

Lemma query_range_between start_ts end_ts rows r :
  r ∈ query_range start_ts end_ts rows → between start_ts end_ts r = true ∧ r ∈ rows.
Proof.
  rewrite query_range_Permutation, list_elem_of_filter. tauto.
Qed.

(** In a sorted list the head is the least row and the last the greatest. *)
Lemma sorted_head_le (first : row) rest r :
  StronglySorted row_le (first :: rest) → r ∈ first :: rest → row_le first r.
Proof.
  intros [_ Hall]%StronglySorted_inv [->|Hin]%elem_of_cons; [reflexivity|].
  by eapply Forall_forall in Hall.
Qed.

Lemma sorted_le_last (df : list row) (d r : row) :
  StronglySorted row_le df → r ∈ df → row_le r (default d (last df)).
Proof.
  intros Hs Hin. destruct (last df) as [l|] eqn:Hl.
  - apply last_Some in Hl as [df' ->]. simpl.
    apply elem_of_app in Hin as [Hin| ->%list_elem_of_singleton]; [|reflexivity].
    eapply StronglySorted_app_1_elem_of; [exact Hs|exact Hin|apply list_elem_of_here].
  - apply last_None in Hl as ->. by apply not_elem_of_nil in Hin.
Qed.


(** What [export_to_excel] returns when it succeeds: the raw rows of the
    range when [interval_s] is not positive, the resampled rows otherwise,
    each with an elapsed time that depends on its label only. *)
Lemma export_to_excel_rows rows start_ts end_ts interval_s out :
  export_to_excel rows start_ts end_ts interval_s = inr out →
  query_range start_ts end_ts rows ≠ [] ∧
  if bool_decide (interval_s > 0)%Z
  then ∃ E : Qc → eft,
         out = (λ p, OutRow (Some p.1) p.2 (E p.1))
                 <$> resample interval_s (query_range start_ts end_ts rows)
  else out = (λ r, OutRow None r EftNotStarted) <$> query_range start_ts end_ts rows.
Proof.
  unfold export_to_excel.
  destruct (query_range start_ts end_ts rows) as [|first rest];
    intros H; [discriminate H|].
  split; [discriminate|].
  destruct (bool_decide (interval_s > 0)%Z).
  - destruct (truthy _).
    + destruct (default PNone _) as [|anchor| |];
        [discriminate H| |discriminate H|discriminate H].
      apply (inj inr) in H. subst out.
      exists (λ dt, EftSeconds (dt - anchor)%Qc). reflexivity.
    + apply (inj inr) in H. subst out. exists (λ _, EftNotStarted). reflexivity.
  - destruct (truthy _); [discriminate H|]. apply (inj inr) in H. by subst out.
Qed.

(** The bins of a resampled range, row by row. *)
Lemma resample_bins interval_s (first : row) (rest : list row) :
  (0 < interval_s)%Z →
  StronglySorted row_le (first :: rest) →
  Forall (λ r, ts r = PNum (seconds r)) (first :: rest) →
  ∃ i0 n,
    (0 < n)%Z ∧
    resample interval_s (first :: rest) =
      (λ i, (bin_start (start_day (seconds first)) (qz interval_s) i,
             bin_means (first :: rest)
               (bin_start (start_day (seconds first)) (qz interval_s) i) (qz interval_s)))
      <$> seqZ i0 n ∧
    ∀ r, r ∈ first :: rest →
         bin_index (start_day (seconds first)) (qz interval_s) (seconds r) ∈ seqZ i0 n.
Proof.
  intros Hpos Hs Hnum.
  set (origin := start_day (seconds first)). set (w := qz interval_s).
  pose proof (qz_pos interval_s Hpos) as Hw. fold w in Hw.
  set (df := first :: rest) in *.
  set (i0 := bin_index origin w (seconds first)).
  set (i1 := bin_index origin w (seconds (default first (last df)))).
  assert (∀ r, r ∈ df → (i0 ≤ bin_index origin w (seconds r) ≤ i1)%Z) as Hrange.
  { intros r Hr. rewrite Forall_forall in Hnum.
    assert (first ∈ df) as Hfirst by apply list_elem_of_here.
    assert (default first (last df) ∈ df) as Hlast.
    { destruct (last df) as [l|] eqn:Hl; [|done]. by apply last_Some_elem_of. }
    split; apply bin_index_mono; try done; apply row_le_seconds; auto.
    - by apply (sorted_head_le first rest).
    - by apply sorted_le_last. }
  exists i0, (i1 - i0 + 1)%Z. split.
  { destruct (Hrange first (list_elem_of_here _ _)). lia. }
  split.
  - unfold resample, bin_means. fold df origin w i0 i1.
    apply list_fmap_ext. intros _ i _. f_equal. f_equal.
    apply list_fmap_ext. intros _ c _. f_equal. f_equal.
    apply list_filter_iff. intros r.
    exact (bin_index_spec origin w (seconds r) i Hw).
  - intros r Hr. apply elem_of_seqZ. specialize (Hrange r Hr). lia.
Qed.

Lemma query_range_numeric start_ts end_ts rows :
  Forall (λ r, ts r = PNum (seconds r)) (query_range start_ts end_ts rows).
Proof.
  apply Forall_forall. intros r [Hb _]%query_range_between.
  by apply between_seconds in Hb as [? _].
Qed.

(** The sheet of a resampled export: one row for every bin from the bin of
    the first row of the range to the bin of its last row. *)
Lemma export_resampled rows start_ts end_ts interval_s out first rest :
  (0 < interval_s)%Z →
  export_to_excel rows start_ts end_ts interval_s = inr out →
  query_range start_ts end_ts rows = first :: rest →
  ∃ (E : Qc → eft) i0 n,
    (0 < n)%Z ∧
    out = (λ i, let dt := bin_start (start_day (seconds first)) (qz interval_s) i in
                OutRow (Some dt) (bin_means (first :: rest) dt (qz interval_s)) (E dt))
            <$> seqZ i0 n ∧
    (∀ r, r ∈ first :: rest →
          bin_index (start_day (seconds first)) (qz interval_s) (seconds r) ∈ seqZ i0 n) ∧
    ((∃ anchor, head (query_start_event rows) = Some (PNum anchor) ∧
                anchor ≠ Q2Qc 0 ∧ E = λ dt, EftSeconds (dt - anchor)%Qc) ∨
     (truthy (default PNone (head (query_start_event rows))) = false ∧
      E = λ _, EftNotStarted)).
Proof.
  intros Hpos H Hdf.
  pose proof (query_range_sorted start_ts end_ts rows) as Hs.
  pose proof (query_range_numeric start_ts end_ts rows) as Hnum.
  rewrite Hdf in Hs, Hnum.
  destruct (resample_bins interval_s first rest Hpos Hs Hnum) as (i0 & n & Hn & Hres & Hidx).
  unfold export_to_excel in H. rewrite Hdf in H.
  rewrite bool_decide_eq_true_2 in H by lia. rewrite Hres in H. clear Hres.
  destruct (truthy _) eqn:Htruthy.
  - destruct (head (query_start_event rows)) as [[|anchor| |]|] eqn:Hq;
      cbn [default] in *; try discriminate H.
    apply (inj inr) in H. subst out.
    exists (λ dt, EftSeconds (dt - anchor)%Qc), i0, n.
    split; [done|]. split; [by rewrite <- list_fmap_compose|]. split; [done|].
    left. exists anchor. split; [done|]. split; [|done].
    intros ->. discriminate Htruthy.
  - apply (inj inr) in H. subst out.
    exists (λ _, EftNotStarted), i0, n.
    split; [done|]. split; [by rewrite <- list_fmap_compose|]. split; [done|].
    by right.
Qed.




(** Bins of 7 s are laid from midnight, not from the epoch: the second day
    starts at 86400 s, which 7 does not divide, and that is the first label. *)
Example export_bins_from_midnight :
  ∃ out, export_to_excel [stored 86400 7 PNone; stored 86405 8 PNone]
           (qz 0) (qz 90000) 7 = inr out ∧
         o_datetime <$> out = [Some (qz 86400)].
Proof.
  eexists. split; [reflexivity|]. apply (bool_decide_unpack _). vm_compute. exact I.
Qed.

(** The anchor query returns at most one timestamp: that of a STARTED row of
    the whole table which no STARTED row precedes. *)
Lemma query_start_event_spec rows :
  match query_start_event rows with
  | [] => ∀ r, r ∈ rows → cell "bioreactor_status" r ≠ PStr "STARTED"
  | [t] =>
      ∃ r, r ∈ rows ∧ cell "bioreactor_status" r = PStr "STARTED" ∧ ts r = t ∧
           ∀ r', r' ∈ rows → cell "bioreactor_status" r' = PStr "STARTED" →
                 sql_le t (ts r') = true
  | _ => False
  end.
Proof.
  unfold query_start_event.
  pose proof (merge_sort_Permutation row_le
    (filter (λ r, cell "bioreactor_status" r = PStr "STARTED") rows)) as Hperm.
  pose proof (StronglySorted_merge_sort row_le
    (filter (λ r, cell "bioreactor_status" r = PStr "STARTED") rows)) as Hs.
  destruct (merge_sort row_le _) as [|a l]; cbn [take fmap list_fmap].
  - intros r Hr Hst. symmetry in Hperm. apply Permutation_nil_r in Hperm.
    assert (r ∈ filter (λ r, cell "bioreactor_status" r = PStr "STARTED") rows) as Hin
      by by apply list_elem_of_filter.
    rewrite Hperm in Hin. by apply not_elem_of_nil in Hin.
  - assert (a ∈ a :: l) as Ha by apply list_elem_of_here.
    rewrite Hperm in Ha. apply list_elem_of_filter in Ha as [Hst Ha].
    exists a. repeat split; [done..|].
    intros r' Hr' Hst'. apply (sorted_head_le a l); [done|].
    rewrite Hperm. by apply list_elem_of_filter.
Qed.





(** Without resampling, a usable anchor makes the export fail on the
    [datetime] column, which is the index then. *)
Example export_raw_with_anchor_fails :
  export_to_excel [stored 1000 7 (PStr "STARTED"); stored 1090 8 PNone]
    (qz 0) (qz 2000) 0 = inl KeyErrorDatetime.
Proof. vm_compute. reflexivity. Qed.

(** The example of the specification holds when 1090 s starts a bin, as
    with bins of 10 s: the exported row of the data row has 90 s. *)
Example export_elapsed_at_bin_boundary :
  ∃ out, export_to_excel [stored 1000 7 (PStr "STARTED"); stored 1090 8 PNone]
           (qz 1090) (qz 2000) 10 = inr out ∧
         o_eft <$> out = [EftSeconds (qz 90)].
Proof.
  eexists. split; [reflexivity|]. apply (bool_decide_unpack _). vm_compute. exact I.
Qed.




(** * Further properties: the configuration *)

Import Props.

Lemma dict_get_set_eq {A} k (v : A) d : ConfigManager.dict_get k (dict_set k v d) = Some v.
Proof.
  induction d as [|[k' v'] d IH]; simpl.
  - by rewrite decide_True.
  - destruct (decide (k = k')) as [->|Hne]; simpl.
    + by rewrite decide_True.
    + by rewrite decide_False.
Qed.

Lemma dict_get_set_ne {A} k k' (v : A) d :
  k ≠ k' → ConfigManager.dict_get k' (dict_set k v d) = ConfigManager.dict_get k' d.
Proof.
  intros Hne. induction d as [|[k0 v0] d IH]; simpl.
  - by rewrite decide_False by done.
  - destruct (decide (k = k0)) as [->|Hne0]; simpl.
    + by rewrite !decide_False by done.
    + destruct (decide (k' = k0)); [done|apply IH].
Qed.

Lemma dict_get_snoc_None {A} k (v : A) d :
  ConfigManager.dict_get k d = None → ConfigManager.dict_get k (d ++ [(k, v)]) = Some v.
Proof.
  induction d as [|[k0 v0] d IH]; simpl.
  - by rewrite decide_True.
  - destruct (decide (k = k0)); [done|apply IH].
Qed.

Lemma dict_get_snoc_ne {A} k k' (v : A) d :
  k ≠ k' → ConfigManager.dict_get k' (d ++ [(k, v)]) = ConfigManager.dict_get k' d.
Proof.
  intros Hne. induction d as [|[k0 v0] d IH]; simpl.
  - by rewrite decide_False by done.
  - destruct (decide (k' = k0)); [done|apply IH].
Qed.

Lemma keeps_refl p : keeps p p.
Proof. by repeat split. Qed.

Lemma keeps_trans p1 p2 p3 : keeps p1 p2 → keeps p2 p3 → keeps p1 p3.
Proof.
  intros (Hd1 & Hs1 & Hg1) (Hd2 & Hs2 & Hg2). repeat split; [congruence|auto..].
Qed.

Lemma has_option_get_option p s o :
  named s →
  ConfigManager.has_option p s o = true ↔ is_Some (ConfigManager.get_option p s o).
Proof.
  intros [H1 H2]. unfold ConfigManager.has_option, ConfigManager.get_option.
  rewrite !bool_decide_eq_false_2 by done. cbn [orb].
  destruct (ConfigManager.dict_get s (ConfigManager.sections p)) as [opts|]; simpl.
  - rewrite orb_true_iff, !bool_decide_eq_true.
    destruct (ConfigManager.dict_get o opts).
    + split; [eauto|]. intros _. left. eauto.
    + split; [|by right]. by intros [[? ?]|?].
  - split; [done|]. by intros [? ?].
Qed.

Lemma has_section_add p s :
  ConfigManager.has_section p s = false →
  ConfigManager.has_section (ConfigManager.add_section p s) s = true ∧
  keeps p (ConfigManager.add_section p s).
Proof.
  unfold ConfigManager.has_section. intros Hnone.
  apply bool_decide_eq_false in Hnone. rewrite <- eq_None_not_Some in Hnone.
  split.
  { apply bool_decide_eq_true. unfold ConfigManager.add_section.
    cbn [ConfigManager.sections]. rewrite dict_get_snoc_None; eauto. }
  unfold ConfigManager.add_section.
  split; [done|]. split.
  - intros s'. unfold ConfigManager.has_section.
    rewrite !bool_decide_eq_true. cbn [ConfigManager.sections].
    intros Hs'. rewrite dict_get_snoc_ne; [done|]. intros ->.
    rewrite Hnone in Hs'. by destruct Hs'.
  - intros s' o v. unfold ConfigManager.get_option.
    cbn [ConfigManager.sections ConfigManager.defaults].
    destruct (decide (s = s')) as [<-|Hne]; [by rewrite Hnone|].
    by rewrite dict_get_snoc_ne.
Qed.

(** A missing option is set without touching any other. *)
Lemma set_missing p s o v :
  named s → ConfigManager.has_section p s = true →
  ConfigManager.has_option p s o = false →
  ∃ p', ConfigManager.set p s o v = Some p' ∧
        ConfigManager.get_option p' s o = Some v ∧
        (∀ s' o', (s', o') ≠ (s, o) →
                  ConfigManager.get_option p' s' o' = ConfigManager.get_option p s' o') ∧
        keeps p p'.
Proof.
  intros [H1 H2] Hsec Hopt.
  assert (ConfigManager.get_option p s o = None) as Hget.
  { apply eq_None_not_Some. rewrite <- has_option_get_option by done. by rewrite Hopt. }
  unfold ConfigManager.set, ConfigManager.has_section in *.
  rewrite !bool_decide_eq_false_2 by done. cbn [orb].
  apply bool_decide_eq_true in Hsec as [opts Hopts]. rewrite Hopts. cbn.
  eexists. split; [done|].
  assert (∀ s' o', (s', o') ≠ (s, o) →
    ConfigManager.get_option
      (ConfigManager.Parser (ConfigManager.defaults p)
         (dict_set s (dict_set o v opts) (ConfigManager.sections p))) s' o'
    = ConfigManager.get_option p s' o') as Hother.
  { intros s' o' Hne. unfold ConfigManager.get_option.
    cbn [ConfigManager.sections ConfigManager.defaults].
    destruct (decide (s = s')) as [<-|Hs].
    - rewrite dict_get_set_eq, Hopts. cbn.
      rewrite dict_get_set_ne; [done|]. intros ->. by apply Hne.
    - by rewrite dict_get_set_ne. }
  split; [|split; [done|]].
  - unfold ConfigManager.get_option. cbn [ConfigManager.sections].
    rewrite dict_get_set_eq. cbn. by rewrite dict_get_set_eq.
  - split; [done|]. split.
    + intros s'. unfold ConfigManager.has_section.
      rewrite !bool_decide_eq_true. cbn [ConfigManager.sections].
      destruct (decide (s = s')) as [<-|Hs]; [rewrite dict_get_set_eq; eauto|].
      by rewrite dict_get_set_ne.
    + intros s' o' v' Hv. rewrite Hother; [done|].
      intros [= -> ->]. congruence.
Qed.

Lemma keeps_has_option p p' s o :
  named s → keeps p p' →
  ConfigManager.has_option p s o = true → ConfigManager.has_option p' s o = true.
Proof.
  intros Hs (_ & _ & Hget). rewrite !has_option_get_option by done.
  intros [v Hv]. exists v. by apply Hget.
Qed.

Lemma get_option_add_ne p s s' o :
  s ≠ s' →
  ConfigManager.get_option (ConfigManager.add_section p s) s' o
  = ConfigManager.get_option p s' o.
Proof.
  intros Hne. unfold ConfigManager.get_option, ConfigManager.add_section.
  cbn [ConfigManager.sections ConfigManager.defaults]. by rewrite dict_get_snoc_ne.
Qed.

Lemma has_option_false_eq p p' s o :
  named s →
  ConfigManager.get_option p' s o = ConfigManager.get_option p s o →
  ConfigManager.has_option p s o = false → ConfigManager.has_option p' s o = false.
Proof.
  intros Hs Heq Hf. apply not_true_is_false. rewrite has_option_get_option, Heq by done.
  rewrite <- has_option_get_option by done. by rewrite Hf.
Qed.

(** The inner loop of the validation, on a section that exists. *)
Lemma validate_options_spec s opts p b :
  named s → ConfigManager.has_section p s = true →
  ∃ p' b',
    ConfigManager.validate_options s opts (p, b) = Some (p', b') ∧
    keeps p p' ∧
    (∀ k v, (k, v) ∈ opts → ConfigManager.has_option p' s k = true) ∧
    (∀ s' o', s' ≠ s →
              ConfigManager.get_option p' s' o' = ConfigManager.get_option p s' o') ∧
    (b = true → b' = true) ∧
    (b' = false → p' = p) ∧
    ((∀ k v, (k, v) ∈ opts → ConfigManager.has_option p s k = true) → p' = p ∧ b' = b) ∧
    (NoDup opts.*1 → ∀ k v, (k, v) ∈ opts → ConfigManager.has_option p s k = false →
                     ConfigManager.get_option p' s k = Some v).
Proof.
  intros Hs. revert p b. induction opts as [|[k0 v0] opts IH]; intros p b Hsec.
  { exists p, b. split; [done|]. split; [apply keeps_refl|].
    split; [intros k v Hin; by apply not_elem_of_nil in Hin|].
    split; [done|]. split; [done|]. split; [done|]. split; [done|].
    intros _ k v Hin. by apply not_elem_of_nil in Hin. }
  cbn [ConfigManager.validate_options fst snd].
  destruct (ConfigManager.has_option p s k0) eqn:Hk0.
  - destruct (IH p b Hsec) as (p' & b' & Heq & Hk & Hall & Hoth & Hb & Hb' & Hc & Hnd).
    exists p', b'. split; [done|]. split; [done|]. split; [|split; [done|]].
    { intros k v [[= -> ->]|Hin]%elem_of_cons; [|by eapply Hall].
      by apply (keeps_has_option p). }
    split; [done|]. split; [done|]. split.
    + intros Hcomp. apply Hc. intros k v Hin. apply (Hcomp k v).
      by apply list_elem_of_further.
    + intros Hnodup k v [[= -> ->]|Hin]%elem_of_cons Hf; [congruence|].
      cbn in Hnodup. apply NoDup_cons in Hnodup as [_ Hnodup]. by apply (Hnd Hnodup k v).
  - destruct (set_missing p s k0 v0 Hs Hsec Hk0) as (p1 & -> & Hget1 & Hoth1 & Hk1).
    cbn.
    assert (ConfigManager.has_section p1 s = true) as Hsec1 by by apply Hk1.
    destruct (IH p1 true Hsec1) as (p' & b' & Heq & Hk & Hall & Hoth & Hb & Hb' & Hc & Hnd).
    exists p', b'. split; [done|]. split; [by eapply keeps_trans|].
    split; [|split; [|split; [|split; [|split]]]].
    + intros k v [[= -> ->]|Hin]%elem_of_cons; [|by eapply Hall].
      apply has_option_get_option; [done|]. exists v0. by apply Hk.
    + intros s' o' Hne. rewrite Hoth by done. apply Hoth1. intros [= -> ->]. done.
    + intros _. by apply Hb.
    + intros Hf. rewrite Hb in Hf by done. discriminate Hf.
    + intros Hcomp. rewrite (Hcomp k0 v0) in Hk0 by apply list_elem_of_here.
      discriminate Hk0.
    + intros Hnodup k v [[= -> ->]|Hin]%elem_of_cons Hf.
      * by apply Hk.
      * cbn in Hnodup. apply NoDup_cons in Hnodup as [Hnin Hnodup].
        apply (Hnd Hnodup k v Hin). apply (has_option_false_eq p); [done| |done].
        apply Hoth1. intros [= ->]. apply Hnin. apply list_elem_of_fmap.
        by exists (k0, v).
Qed.

Lemma has_option_add_fresh p s k :
  named s → ConfigManager.has_section p s = false →
  ConfigManager.dict_get k (ConfigManager.defaults p) = None →
  ConfigManager.has_option (ConfigManager.add_section p s) s k = false.
Proof.
  intros Hs Hsec Hd. apply not_true_is_false. rewrite has_option_get_option by done.
  unfold ConfigManager.get_option, ConfigManager.add_section.
  cbn [ConfigManager.sections ConfigManager.defaults].
  apply bool_decide_eq_false in Hsec. rewrite dict_get_snoc_None.
  - cbn. rewrite Hd. by intros [? [=]].
  - by apply eq_None_not_Some.
Qed.

(** The outer loop of the validation. *)
Lemma validate_sections_spec dflt p b :
  Forall (λ so, named so.1) dflt →
  ∃ p' b',
    ConfigManager.validate_sections dflt (p, b) = Some (p', b') ∧
    keeps p p' ∧
    complete dflt p' ∧
    (b = true → b' = true) ∧
    (b' = false → p' = p) ∧
    (complete dflt p → p' = p ∧ b' = b) ∧
    (NoDup dflt.*1 → Forall (λ so, NoDup so.2.*1) dflt →
     ∀ s opts k v, (s, opts) ∈ dflt → (k, v) ∈ opts →
       ConfigManager.has_option p s k = false →
       ConfigManager.dict_get k (ConfigManager.defaults p) = None →
       ConfigManager.get_option p' s k = Some v).
Proof.
  intros Hnamed. revert p b.
  induction Hnamed as [|[s0 opts0] dflt Hs0 Hnamed IH]; intros p b.
  { exists p, b. split; [done|]. split; [apply keeps_refl|].
    split; [intros s opts Hin; by apply not_elem_of_nil in Hin|].
    split; [done|]. split; [done|]. split; [done|].
    intros _ _ s opts k v Hin. by apply not_elem_of_nil in Hin. }
  cbn [fst] in Hs0. cbn [ConfigManager.validate_sections fst snd].
  set (acc0 := if ConfigManager.has_section p s0 then (p, b)
               else (ConfigManager.add_section p s0, true)).
  assert (keeps p acc0.1 ∧ ConfigManager.has_section acc0.1 s0 = true ∧
          (b = true → acc0.2 = true) ∧
          (ConfigManager.has_section p s0 = true → acc0 = (p, b)) ∧
          (acc0.2 = false → acc0.1 = p) ∧
          (∀ s' o', s' ≠ s0 →
             ConfigManager.get_option acc0.1 s' o' = ConfigManager.get_option p s' o') ∧
          (∀ k, ConfigManager.has_option p s0 k = false →
                ConfigManager.dict_get k (ConfigManager.defaults p) = None →
                ConfigManager.has_option acc0.1 s0 k = false)) as Hacc0.
  { subst acc0. destruct (ConfigManager.has_section p s0) eqn:Hsec; cbn [fst snd].
    - split; [apply keeps_refl|]. repeat split; done.
    - destruct (has_section_add p s0 Hsec) as [Hk Hh].
      split; [done|]. split; [done|]. split; [done|]. split; [done|].
      split; [done|]. split.
      + intros s' o' Hne. by apply get_option_add_ne.
      + intros k _ Hd. by apply has_option_add_fresh. }
  destruct acc0 as [p0 b0]. cbn [fst snd] in Hacc0.
  destruct Hacc0 as (Hk0 & Hsec0 & Hb0 & Hsame0 & Hflag0 & Hoth0 & Hfresh0).
  destruct (validate_options_spec s0 opts0 p0 b0 Hs0 Hsec0)
    as (p1 & b1 & -> & Hk1 & Hall1 & Hoth1 & Hb1 & Hflag1 & Hc1 & Hnd1).
  cbn. destruct (IH p1 b1) as (p' & b' & Heq & Hk & Hcomp & Hb & Hflag & Hc & Hnd).
  exists p', b'. split; [done|].
  split; [eapply keeps_trans; [|done]; by eapply keeps_trans|].
  split; [|split; [|split; [|split]]].
  - intros s opts [[= -> ->]|Hin]%elem_of_cons; [|by apply Hcomp].
    split.
    + apply Hk. by apply Hk1.
    + intros k v Hin. apply (keeps_has_option p1); [done|done|]. by eapply Hall1.
  - intros Hbt. apply Hb, Hb1, Hb0, Hbt.
  - intros Hf. specialize (Hflag Hf). subst p'.
    destruct b1; [by rewrite Hb in Hf|]. rewrite Hflag1 by done.
    destruct b0; [discriminate (Hb1 eq_refl)|]. by apply Hflag0.
  - intros Hcp. destruct (Hcp s0 opts0) as [Hsec Hopts]; [apply list_elem_of_here|].
    apply Hsame0 in Hsec as [= -> ->].
    destruct (Hc1 Hopts) as [-> ->]. apply Hc.
    intros s opts Hin. apply Hcp. by apply list_elem_of_further.
  - intros Hnodup Hnodups s opts k v Hin Hkv Hf Hd.
    cbn in Hnodup. apply NoDup_cons in Hnodup as [Hnin Hnodup].
    apply Forall_cons in Hnodups as [Hnd0 Hnodups]. cbn [snd] in Hnd0.
    apply elem_of_cons in Hin as [[= -> ->]|Hin].
    + apply Hk. apply (Hnd1 Hnd0 k v Hkv). by apply Hfresh0.
    + assert (s ≠ s0) as Hne.
      { intros ->. apply Hnin. apply list_elem_of_fmap. by exists (s0, opts). }
      assert (named s) as Hs.
      { rewrite Forall_forall in Hnamed. by apply (Hnamed (s, opts)). }
      apply (Hnd Hnodup Hnodups s opts k v Hin Hkv).
      * apply (has_option_false_eq p); [done| |done].
        rewrite Hoth1 by done. by apply Hoth0.
      * destruct Hk1 as [-> _]. destruct Hk0 as [-> _]. done.
Qed.

Lemma default_sections_named :
  Forall (λ so, named so.1) ConfigManager._get_default_config.
Proof. unfold named. apply (bool_decide_unpack _). vm_compute. exact I. Qed.

Lemma default_sections_NoDup : NoDup ConfigManager._get_default_config.*1.
Proof. apply (bool_decide_unpack _). vm_compute. exact I. Qed.

Lemma default_options_NoDup :
  Forall (λ so, NoDup so.2.*1) ConfigManager._get_default_config.
Proof. apply (bool_decide_unpack _). vm_compute. exact I. Qed.

(** X1.  [_validate_and_update_config] never raises, whatever the file held;
    afterwards the parser has every section and every option of the
    defaults, and every option that could be read before reads the same. *)
Theorem validate_completes_and_keeps (p : ConfigManager.parser) :
  ∃ p' was_updated,
    ConfigManager._validate_and_update_config p = Some (p', was_updated) ∧
    complete ConfigManager._get_default_config p' ∧
    keeps p p'.
Proof.
  destruct (validate_sections_spec ConfigManager._get_default_config p false
              default_sections_named) as (p' & b' & Heq & Hk & Hc & _).
  by exists p', b'.
Qed.

(** X2.  An option of the defaults that the file gives neither in its section
    nor in DEFAULT reads as its default value after the validation. *)
Theorem validate_fills_missing_option
    (p p' : ConfigManager.parser) (was_updated : bool) (s k v : string)
    (opts : list (string * string)) :
  ConfigManager._validate_and_update_config p = Some (p', was_updated) →
  (s, opts) ∈ ConfigManager._get_default_config → (k, v) ∈ opts →
  ConfigManager.has_option p s k = false →
  ConfigManager.dict_get k (ConfigManager.defaults p) = None →
  ConfigManager.get_option p' s k = Some v ∧ was_updated = true.
Proof.
  intros Hval Hs Hk Hmiss Hd.
  destruct (validate_sections_spec ConfigManager._get_default_config p false
              default_sections_named) as (p1 & b1 & Heq & _ & _ & _ & _ & Hc & Hfill).
  unfold ConfigManager._validate_and_update_config in Hval.
  rewrite Heq in Hval. apply (inj Some) in Hval. apply pair_equal_spec in Hval as [-> ->].
  split.
  - by apply (Hfill default_sections_NoDup default_options_NoDup s opts k v).
  - destruct was_updated; [done|].
    destruct (validate_sections_spec ConfigManager._get_default_config p false
                default_sections_named) as (p2 & b2 & Heq2 & _ & Hcomp & _ & Hflag & _).
    rewrite Heq in Heq2. apply (inj Some) in Heq2.
    apply pair_equal_spec in Heq2 as [<- <-]. rewrite Hflag in Hcomp by done.
    destruct (Hcomp s opts Hs) as [_ Hall]. rewrite (Hall k v Hk) in Hmiss.
    discriminate Hmiss.
Qed.

Lemma validate_fills_missing_option_witness :
  ConfigManager.get_option
    (ConfigManager.Parser [] ConfigManager._get_default_config)
    "SETTINGS" "polling_interval_ms" = Some "1000" ∧ true = true.
Proof.
  apply (validate_fills_missing_option (ConfigManager.Parser [] [])
           (ConfigManager.Parser [] ConfigManager._get_default_config) true
           "SETTINGS" "polling_interval_ms" "1000" [("polling_interval_ms", "1000")]).
  - vm_compute. reflexivity.
  - apply (bool_decide_unpack _). vm_compute. exact I.
  - apply (bool_decide_unpack _). vm_compute. exact I.
  - vm_compute. reflexivity.
  - vm_compute. reflexivity.
Defined.

(** X3.  [was_updated] is [False] exactly when the file already had every
    section and option of the defaults, and then the parser is left as it
    was: the file is rewritten only when something was added. *)
Theorem validate_flag_iff_complete (p : ConfigManager.parser) :
  ∃ p' was_updated,
    ConfigManager._validate_and_update_config p = Some (p', was_updated) ∧
    (was_updated = false ↔ complete ConfigManager._get_default_config p) ∧
    (was_updated = false → p' = p).
Proof.
  destruct (validate_sections_spec ConfigManager._get_default_config p false
              default_sections_named) as (p' & b' & Heq & _ & Hcomp & _ & Hflag & Hc & _).
  exists p', b'. split; [done|]. split; [|done]. split.
  - intros Hf. by rewrite <- (Hflag Hf).
  - intros Hcp. by destruct (Hc Hcp) as [_ ->].
Qed.

(** X4.  Validating twice is validating once: on the parser it returns,
    [_validate_and_update_config] changes nothing and reports no update. *)
Theorem validate_idempotent (p p' : ConfigManager.parser) (was_updated : bool) :
  ConfigManager._validate_and_update_config p = Some (p', was_updated) →
  ConfigManager._validate_and_update_config p' = Some (p', false).
Proof.
  intros Hval.
  destruct (validate_sections_spec ConfigManager._get_default_config p false
              default_sections_named) as (p1 & b1 & Heq & _ & Hcomp & _).
  unfold ConfigManager._validate_and_update_config in Hval.
  rewrite Heq in Hval. apply (inj Some) in Hval. apply pair_equal_spec in Hval as [-> ->].
  destruct (validate_sections_spec ConfigManager._get_default_config p' false
              default_sections_named) as (p2 & b2 & Heq2 & _ & _ & _ & _ & Hc & _).
  destruct (Hc Hcomp) as [-> ->]. done.
Qed.

Lemma validate_idempotent_witness :
  ConfigManager._validate_and_update_config
    (ConfigManager.Parser [] ConfigManager._get_default_config)
  = Some (ConfigManager.Parser [] ConfigManager._get_default_config, false).
Proof.
  apply (validate_idempotent (ConfigManager.Parser [] []) _ true).
  vm_compute. reflexivity.
Defined.

(** ** What [run] reads of a validated configuration *)

Lemma dict_get_Some_elem_of {A} k (v : A) d :
  ConfigManager.dict_get k d = Some v → (k, v) ∈ d.
Proof.
  induction d as [|[k0 v0] d IH]; cbn [ConfigManager.dict_get]; [done|].
  destruct (decide (k = k0)) as [->|Hne].
  - intros [= ->]. apply list_elem_of_here.
  - intros Hd. apply list_elem_of_further. by apply IH.
Qed.

Lemma dict_get_app {A} k (d1 d2 : list (string * A)) :
  ConfigManager.dict_get k (d1 ++ d2)
  = match ConfigManager.dict_get k d1 with
    | Some v => Some v
    | None => ConfigManager.dict_get k d2
    end.
Proof.
  induction d1 as [|[k0 v0] d1 IH]; cbn [app ConfigManager.dict_get]; [done|].
  by destruct (decide (k = k0)).
Qed.

Lemma dict_get_filter_key {A} (P : string * A → Prop) `{!∀ x, Decision (P x)} k
    (d : list (string * A)) :
  (∀ v, P (k, v)) →
  ConfigManager.dict_get k (filter P d) = ConfigManager.dict_get k d.
Proof.
  intros HP. induction d as [|[k0 v0] d IH]; [done|].
  rewrite filter_cons. cbn [ConfigManager.dict_get].
  destruct (decide (P (k0, v0))) as [HP0|HP0]; cbn [ConfigManager.dict_get].
  - by destruct (decide (k = k0)).
  - destruct (decide (k = k0)) as [->|Hne]; [|exact IH]. destruct HP0. apply HP.
Qed.

Lemma plain_get_option p s o v :
  plain p → ConfigManager.get_option p s o = Some v →
  ConfigManager.interpolate v = Some v.
Proof.
  intros [Hd Hs]. unfold ConfigManager.get_option.
  destruct (ConfigManager.dict_get s (ConfigManager.sections p)) as [opts|] eqn:Hopts;
    [|done].
  cbn. apply dict_get_Some_elem_of in Hopts.
  rewrite Forall_forall in Hs. specialize (Hs _ Hopts). cbn [snd] in Hs.
  destruct (ConfigManager.dict_get o opts) as [v'|] eqn:Ho.
  - intros [= ->]. apply dict_get_Some_elem_of in Ho.
    rewrite Forall_forall in Hs. by apply (Hs (o, v)).
  - intros Ho'. apply dict_get_Some_elem_of in Ho'.
    rewrite Forall_forall in Hd. by apply (Hd (o, v)).
Qed.

Lemma mapM_plain (l : list (string * string)) :
  Forall (λ kv : string * string, ConfigManager.interpolate kv.2 = Some kv.2) l →
  mapM (λ kv : string * string, v ← ConfigManager.interpolate kv.2; Some (kv.1, v)) l
  = Some l.
Proof.
  induction 1 as [|[k v] l Hv _ IH]; [done|].
  cbn [mapM]. cbn [snd fst] in *. rewrite Hv. cbn. rewrite IH. done.
Qed.

(** X5.  On a parser that has every section and option of the defaults, as
    [_validate_and_update_config] leaves it, and whose values hold no [%],
    the lookups [run] makes before it connects raise nothing: [run] reads
    the address and the polling option as stored, so the cadence is never
    defaulted for a missing option, and the tag dict gives every option of
    [TAGS] the value [get] gives it. *)
Theorem read_config_of_complete (p : ConfigManager.parser) :
  complete ConfigManager._get_default_config p → plain p →
  ∃ cfg,
    ConfigManager.read_config p = Some cfg ∧
    ConfigManager.get_option p "OPC_SERVER" "address" = Some (address cfg) ∧
    is_Some (polling_interval_ms cfg) ∧
    polling_interval_ms cfg = ConfigManager.get_option p "SETTINGS" "polling_interval_ms" ∧
    ∀ k, ConfigManager.dict_get k (tags cfg) = ConfigManager.get_option p "TAGS" k.
Proof.
  intros Hc Hp.
  assert (named "OPC_SERVER" ∧ named "SETTINGS" ∧ named "TAGS") as (N1 & N2 & N3).
  { unfold named. repeat split; intros [=]. }
  destruct (Hc "OPC_SERVER" [("address", "opc.tcp://localhost:4840/freeopcua/server/")])
    as [_ Haddr].
  { apply (bool_decide_unpack _). vm_compute. exact I. }
  specialize (Haddr "address" _ (list_elem_of_here _ _)).
  apply has_option_get_option in Haddr as [a Ha]; [|done].
  destruct (Hc "SETTINGS" [("polling_interval_ms", "1000")]) as [Hset Hpoll].
  { apply (bool_decide_unpack _). vm_compute. exact I. }
  specialize (Hpoll "polling_interval_ms" _ (list_elem_of_here _ _)).
  apply has_option_get_option in Hpoll as [ms Hms]; [|done].
  apply bool_decide_eq_true in Hset as [settings Hsettings].
  assert (ConfigManager.has_section p "TAGS" = true) as Htags.
  { pose proof default_sections_named as Hn. clear Hn.
    assert (∃ opts, ("TAGS", opts) ∈ ConfigManager._get_default_config) as [opts Hin].
    { eexists. unfold ConfigManager._get_default_config.
      do 2 apply list_elem_of_further. apply list_elem_of_here. }
    by destruct (Hc _ _ Hin). }
  apply bool_decide_eq_true in Htags as [topts Htags].
  unfold ConfigManager.read_config, ConfigManager.items.
  rewrite Ha, Htags, Hsettings, Hms. cbn [mbind option_bind].
  rewrite (plain_get_option p _ _ _ Hp Ha), (plain_get_option p _ _ _ Hp Hms).
  rewrite mapM_plain.
  - cbn. eexists. split; [done|]. cbn [address polling_interval_ms tags].
    split; [done|]. split; [eauto|]. split; [done|].
    intros k. unfold ConfigManager.get_option. rewrite Htags. cbn.
    rewrite dict_get_app. destruct (ConfigManager.dict_get k topts) eqn:Hk; [done|].
    by apply dict_get_filter_key.
  - destruct Hp as [Hd Hs]. apply Forall_app. split.
    + apply dict_get_Some_elem_of in Htags. rewrite Forall_forall in Hs.
      apply (Hs _ Htags).
    + rewrite Forall_forall in Hd |- *. intros x [_ Hx]%list_elem_of_filter.
      by apply Hd.
Qed.

Lemma read_config_of_complete_witness :
  ∃ cfg,
    ConfigManager.read_config ConfigManager._create_default_config = Some cfg ∧
    ConfigManager.get_option ConfigManager._create_default_config "OPC_SERVER" "address"
    = Some (address cfg) ∧
    is_Some (polling_interval_ms cfg) ∧
    polling_interval_ms cfg
    = ConfigManager.get_option ConfigManager._create_default_config
        "SETTINGS" "polling_interval_ms" ∧
    ∀ k, ConfigManager.dict_get k (tags cfg)
         = ConfigManager.get_option ConfigManager._create_default_config "TAGS" k.
Proof.
  apply (read_config_of_complete ConfigManager._create_default_config).
  - pose proof (validate_sections_spec ConfigManager._get_default_config
                  ConfigManager._create_default_config false default_sections_named)
      as (p' & b' & Heq & _ & Hc & _).
    assert (ConfigManager.validate_sections ConfigManager._get_default_config
              (ConfigManager._create_default_config, false)
            = Some (ConfigManager._create_default_config, false)) as Heq'.
    { vm_compute. reflexivity. }
    rewrite Heq' in Heq. apply (inj Some) in Heq.
    apply pair_equal_spec in Heq as [<- _]. exact Hc.
  - unfold plain. split; apply (bool_decide_unpack _); vm_compute; exact I.
Defined.

(** * Further properties: the acquisition thread *)

Lemma dict_set_keys {A} k (v : A) d k' :
  k' ∈ (dict_set k v d).*1 ↔ k' = k ∨ k' ∈ d.*1.
Proof.
  induction d as [|[k0 v0] d IH]; cbn [dict_set].
  - cbn. rewrite list_elem_of_singleton. split; [by left|]. intros [?|H]; [done|].
    by apply not_elem_of_nil in H.
  - destruct (decide (k = k0)) as [->|Hne]; cbn [fmap list_fmap fst];
      rewrite !elem_of_cons; [tauto|]. rewrite IH. tauto.
Qed.

Lemma dict_set_NoDup {A} k (v : A) d : NoDup d.*1 → NoDup (dict_set k v d).*1.
Proof.
  induction d as [|[k0 v0] d IH]; cbn [dict_set]; intros Hnd.
  - cbn. apply NoDup_singleton.
  - cbn in Hnd. apply NoDup_cons in Hnd as [Hk0 Hnd].
    destruct (decide (k = k0)) as [->|Hne]; cbn [fmap list_fmap fst].
    + by apply NoDup_cons.
    + apply NoDup_cons. split; [|by apply IH].
      rewrite dict_set_keys. intros [?|?]; [by subst|done].
Qed.

Lemma dict_set_elem_of {A} k (v : A) d k' v' :
  (k', v') ∈ dict_set k v d → (k', v') = (k, v) ∨ (k', v') ∈ d.
Proof.
  induction d as [|[k0 v0] d IH]; cbn [dict_set].
  - rewrite list_elem_of_singleton. by left.
  - destruct (decide (k = k0)) as [->|Hne]; rewrite !elem_of_cons; [tauto|].
    intros [?|?]; [tauto|]. destruct IH; tauto.
Qed.

Lemma node_ids_to_poll_spec (tags_config : list (string * string)) :
  NoDup (node_ids_to_poll tags_config).*1 ∧
  (∀ name nid, (name, nid) ∈ node_ids_to_poll tags_config →
     nid ≠ "" ∧
     ∃ key, (key, nid) ∈ tags_config ∧ endswith "_nodeid" key = true ∧
            name = replace "_name" "" (replace "_nodeid" "" key)) ∧
  (∀ key nid, (key, nid) ∈ tags_config → nid ≠ "" → endswith "_nodeid" key = true →
     replace "_name" "" (replace "_nodeid" "" key) ∈ (node_ids_to_poll tags_config).*1).
Proof.
  unfold node_ids_to_poll.
  set (f := λ (acc : list (string * string)) '(name, nid), _).
  assert (∀ tg acc,
    NoDup acc.*1 →
    NoDup (foldl f acc tg).*1 ∧
    (∀ name nid, (name, nid) ∈ foldl f acc tg →
       (name, nid) ∈ acc ∨
       nid ≠ "" ∧
       ∃ key, (key, nid) ∈ tg ∧ endswith "_nodeid" key = true ∧
              name = replace "_name" "" (replace "_nodeid" "" key)) ∧
    (∀ name, name ∈ acc.*1 → name ∈ (foldl f acc tg).*1) ∧
    (∀ key nid, (key, nid) ∈ tg → nid ≠ "" → endswith "_nodeid" key = true →
       replace "_name" "" (replace "_nodeid" "" key) ∈ (foldl f acc tg).*1)) as H.
  { intros tg. induction tg as [|[key nid] tg IH]; intros acc Hnd; cbn [foldl].
    - split; [done|]. split; [by left|]. split; [done|].
      intros key nid Hin. by apply not_elem_of_nil in Hin.
    - assert (NoDup (f acc (key, nid)).*1 ∧
              (∀ name, name ∈ acc.*1 → name ∈ (f acc (key, nid)).*1) ∧
              (∀ name nid', (name, nid') ∈ f acc (key, nid) →
                 (name, nid') ∈ acc ∨
                 nid' = nid ∧ nid ≠ "" ∧ endswith "_nodeid" key = true ∧
                 name = replace "_name" "" (replace "_nodeid" "" key)) ∧
              (nid ≠ "" → endswith "_nodeid" key = true →
               replace "_name" "" (replace "_nodeid" "" key) ∈ (f acc (key, nid)).*1))
        as (Hnd1 & Hkeep1 & Hfrom1 & Hin1).
      { subst f. cbn beta iota. case_bool_decide as Hnid; cbn [negb andb].
        { split; [done|]. split; [done|]. split; [by left|]. done. }
        destruct (endswith "_nodeid" key) eqn:Hend.
        - split; [by apply dict_set_NoDup|].
          split; [intros name Hn; apply dict_set_keys; by right|].
          split.
          + intros name nid' [[= -> ->]|Hin]%dict_set_elem_of; [by right|by left].
          + intros _ _. apply dict_set_keys. by left.
        - split; [done|]. split; [done|]. split; [by left|]. done. }
      destruct (IH _ Hnd1) as (Hnd2 & Hfrom2 & Hkeep2 & Hin2).
      split; [done|]. split; [|split].
      + intros name nid' Hin. destruct (Hfrom2 _ _ Hin) as [Hacc|(Hne & k & Hk & He & Hn)].
        * destruct (Hfrom1 _ _ Hacc) as [?|(-> & Hne & He & Hn)]; [by left|].
          right. split; [done|]. exists key. split; [apply list_elem_of_here|done].
        * right. split; [done|]. exists k. split; [by apply list_elem_of_further|done].
      + intros name Hn. by apply Hkeep2, Hkeep1.
      + intros k n [[= -> ->]|Hin]%elem_of_cons Hne He.
        * by apply Hkeep2, Hin1.
        * by apply (Hin2 k n). }
  destruct (H tags_config [] (NoDup_nil_2)) as (Hnd & Hfrom & _ & Hin).
  split; [done|]. split; [|done].
  intros name nid Hn. destruct (Hfrom _ _ Hn) as [Habs|?]; [|done].
  by apply not_elem_of_nil in Habs.
Qed.

(** X6.  The channels [run] polls: no name comes twice; every channel comes
    from an option of [TAGS] that ends in [_nodeid] and has a node id, which
    is not empty, and is named after it; and every such option gives a
    channel. *)
Theorem node_ids_to_poll_channels (tags_config : list (string * string)) :
  NoDup (node_ids_to_poll tags_config).*1 ∧
  (∀ name nid, (name, nid) ∈ node_ids_to_poll tags_config →
     nid ≠ "" ∧
     ∃ key, (key, nid) ∈ tags_config ∧ endswith "_nodeid" key = true ∧
            name = replace "_name" "" (replace "_nodeid" "" key)) ∧
  (∀ key nid, (key, nid) ∈ tags_config → nid ≠ "" → endswith "_nodeid" key = true →
     replace "_name" "" (replace "_nodeid" "" key) ∈ (node_ids_to_poll tags_config).*1).
Proof. apply node_ids_to_poll_spec. Qed.

(** ** A channel that is no column *)

Lemma prepare_no_column (keys : list string) k :
  k ∈ keys → k ∉ columns → is_Some (prepare keys).
Proof.
  intros Hin Hcol. unfold prepare. destruct keys as [|k0 keys]; [eauto|].
  destruct (filter _ _) as [|c l] eqn:Hf; [|eauto].
  assert (k ∈ filter (λ k, k ∉ columns) (k0 :: keys)) as Hk
    by by apply list_elem_of_filter.
  rewrite Hf in Hk. by apply not_elem_of_nil in Hk.
Qed.

Lemma insert_bulk_data_no_column first rest d k :
  is_Some (first !! k) → k ∉ columns → (insert_bulk_data (first :: rest) d).1 = d.
Proof.
  intros Hk Hcol.
  destruct (prepare_no_column (sorted_keys first) k) as [e He]; [|done|].
  { by apply elem_of_sorted_keys. }
  by rewrite (insert_bulk_data_rejected first rest d e He).
Qed.

Lemma flush_no_column t k :
  k ∉ columns → cache_keyed k t →
  db_manager (_flush_cache_to_db t) = db_manager t ∧
  reactor_start_time (_flush_cache_to_db t) = reactor_start_time t.
Proof.
  intros Hcol Hkeyed. destruct (data_cache t) as [|first rest] eqn:Hc.
  - by rewrite flush_nil.
  - rewrite (flush_cons t first rest Hc). cbn [db_manager reactor_start_time].
    split; [|done]. apply (insert_bulk_data_no_column first rest _ k); [|done].
    unfold cache_keyed in Hkeyed. rewrite Hc in Hkeyed.
    by apply Forall_cons in Hkeyed as [? _].
Qed.

Lemma poll_node_db c acc name :
  db_manager (poll_node c acc name).1.1 = db_manager acc.1.1 ∧
  data_cache (poll_node c acc name).1.1 = data_cache acc.1.1.
Proof.
  destruct acc as [[t data] note]. unfold poll_node.
  destruct (_ && _); destruct (get_value c name) as [v|e];
    try destruct (equals_one v); done.
Qed.

Lemma poll_node_truthy c acc name :
  truthy (reactor_start_time acc.1.1) = true →
  reactor_start_time (poll_node c acc name).1.1 = reactor_start_time acc.1.1.
Proof.
  destruct acc as [[t data] note]. cbn [fst snd]. intros Ht. unfold poll_node.
  rewrite Ht. cbn [negb]. rewrite andb_false_r. by destruct (get_value c name).
Qed.

Lemma poll_node_keeps_key c acc name k :
  is_Some (acc.1.2 !! k) → is_Some ((poll_node c acc name).1.2 !! k).
Proof.
  destruct acc as [[t data] note]. cbn [fst snd]. intros Hk. unfold poll_node.
  destruct (_ && _); destruct (get_value c name) as [v|e];
    try destruct (equals_one v); cbn [fst snd]; try done;
    (destruct (decide (name = k)) as [->|Hne];
     [rewrite lookup_insert_eq; eauto | by rewrite lookup_insert_ne]).
Qed.

Lemma poll_node_records c acc name :
  name ≠ "run_start" ∨ truthy (reactor_start_time acc.1.1) = true →
  is_Some ((poll_node c acc name).1.2 !! name).
Proof.
  intros Hrec. rewrite poll_node_lookup.
  destruct (get_value c name) as [v|e]; [|eauto].
  destruct Hrec as [Hne|Ht].
  - rewrite bool_decide_eq_false_2 by done. eauto.
  - rewrite Ht, andb_false_r. eauto.
Qed.

Lemma poll_nodes_no_column c nodes acc k :
  k ∈ nodes →
  k ≠ "run_start" ∨ truthy (reactor_start_time acc.1.1) = true →
  is_Some ((foldl (poll_node c) acc nodes).1.2 !! k).
Proof.
  assert (∀ nodes acc, is_Some (acc.1.2 !! k) →
            is_Some ((foldl (poll_node c) acc nodes).1.2 !! k)) as Hkeep.
  { clear. intros nodes. induction nodes as [|n nodes IH]; intros acc Hk; [done|].
    cbn [foldl]. by apply IH, poll_node_keeps_key. }
  revert acc. induction nodes as [|n nodes IH]; intros acc Hin Hrec.
  { by apply not_elem_of_nil in Hin. }
  cbn [foldl]. apply elem_of_cons in Hin as [->|Hin].
  - by apply Hkeep, poll_node_records.
  - apply IH; [done|]. destruct Hrec as [Hne|Ht]; [by left|right].
    by rewrite poll_node_truthy.
Qed.

Lemma poll_nodes_db c nodes acc :
  db_manager (foldl (poll_node c) acc nodes).1.1 = db_manager acc.1.1 ∧
  data_cache (foldl (poll_node c) acc nodes).1.1 = data_cache acc.1.1 ∧
  (truthy (reactor_start_time acc.1.1) = true →
   reactor_start_time (foldl (poll_node c) acc nodes).1.1 = reactor_start_time acc.1.1).
Proof.
  revert acc. induction nodes as [|n nodes IH]; intros acc; [done|].
  cbn [foldl]. destruct (IH (poll_node c acc n)) as (-> & -> & Ht).
  destruct (poll_node_db c acc n) as [-> ->]. split; [done|]. split; [done|].
  intros Hacc. rewrite Ht; rewrite poll_node_truthy; done.
Qed.

(** A pass keeps the store, and the properties that make the next flush
    fail. *)
Lemma poll_cycle_no_column nodes c t k :
  k ∈ nodes → recorded k t → cache_keyed k t →
  db_manager (poll_cycle nodes c t) = db_manager t ∧
  recorded k (poll_cycle nodes c t) ∧
  cache_keyed k (poll_cycle nodes c t).
Proof.
  intros Hin Hrec Hkeyed. unfold poll_cycle, emit, poll_reading, poll_nodes.
  set (acc0 := (t, ({[ "timestamp" := PNum (now c) ]} : reading), @None string)).
  pose proof (poll_nodes_no_column c nodes acc0 k Hin Hrec) as Hk.
  destruct (poll_nodes_db c nodes acc0) as (Hdb & Hcache & Hstart).
  destruct (foldl (poll_node c) acc0 nodes) as [[t' data] note].
  cbn [fst snd db_manager data_cache reactor_start_time] in *.
  split; [done|]. split.
  - destruct Hrec as [Hne|Ht]; [by left|right]. by rewrite Hstart.
  - unfold cache_keyed. cbn [data_cache]. rewrite Hcache. apply Forall_app.
    split; [done|]. apply Forall_singleton.
    destruct note as [note|]; [|done].
    destruct (decide (k = "bioreactor_status")) as [->|Hne].
    + rewrite lookup_insert_eq. eauto.
    + by rewrite lookup_insert_ne.
Qed.

Lemma loop_no_column p nodes cs t k :
  k ∈ nodes → k ∉ columns → recorded k t → cache_keyed k t →
  db_manager (loop p nodes cs t).1 = db_manager t ∧
  cache_keyed k (loop p nodes cs t).1.
Proof.
  intros Hin Hcol. revert t. induction cs as [|c cs IH]; intros t Hrec Hkeyed; [done|].
  cbn [loop].
  set (t1 := if timer_fired c then _flush_cache_to_db t else t).
  assert (db_manager t1 = db_manager t ∧ recorded k t1 ∧ cache_keyed k t1)
    as (Hdb1 & Hrec1 & Hkeyed1).
  { subst t1. destruct (timer_fired c); [|done].
    destruct (flush_no_column t k Hcol Hkeyed) as [Hdb Hstart].
    split; [done|]. split.
    - unfold recorded. by rewrite Hstart.
    - unfold cache_keyed. rewrite flush_clears. apply Forall_nil_2. }
  destruct (poll_cycle_no_column nodes c t1 k Hin Hrec1 Hkeyed1)
    as (Hdb2 & Hrec2 & Hkeyed2).
  case_bool_decide.
  - cbn [fst]. unfold emit. cbn [db_manager]. split; [congruence|done].
  - destruct (IH (emit (ESleep p) (poll_cycle nodes c t1))) as [Hdb3 Hkeyed3];
      [done|done|].
    split; [|done]. rewrite Hdb3. unfold emit. cbn [db_manager]. congruence.
Qed.

Lemma finally_no_column cl is_connected t k :
  k ∉ columns → cache_keyed k t →
  db_manager (finally cl is_connected t).1 = db_manager t.
Proof.
  intros Hcol Hkeyed. rewrite finally_state. cbn [db_manager].
  by destruct (flush_no_column (emit ETimerStop t) k Hcol).
Qed.

Lemma run_no_column (cfg : config) (cl : client) (t : thread) (k : string) :
  k ∈ (node_ids_to_poll (tags cfg)).*1 → k ≠ "run_start" → k ∉ columns →
  data_cache t = [] →
  db_manager (run cfg cl t).1 = db_manager t.
Proof.
  intros Hin Hne Hcol Hcache. unfold run.
  destruct (polling_interval cfg) as [poll_ms warning].
  set (p := (qz poll_ms / qz 1000)%Qc).
  set (t1 := Thread _ _ _ (trace t ++ (ELog <$> warning))).
  assert (∃ t2 c e, try_block cfg cl p (node_ids_to_poll (tags cfg)) t1 = (t2, c, e) ∧
                    db_manager t2 = db_manager t ∧ cache_keyed k t2)
    as (t2 & c & e & -> & Hdb & Hkeyed).
  { assert (data_cache t1 = [] ∧ db_manager t1 = db_manager t) as [Hc1 Hd1] by done.
    clearbody t1. unfold try_block. destruct (connect cl) as [[]|e0].
    - destruct (get_nodes cl _) as [e1|].
      + eexists _, _, _. split; [done|]. unfold emit, cache_keyed.
        cbn [db_manager data_cache]. rewrite Hc1. split; [done|apply Forall_nil_2].
      + match goal with |- context [loop p ?n ?cs ?t0] =>
          destruct (loop_no_column p n cs t0 k Hin Hcol) as [Hdb Hkeyed];
          [by left| |destruct (loop p n cs t0) as [t2 e2]] end.
        { unfold emit, cache_keyed. cbn [data_cache]. rewrite Hc1.
          apply Forall_nil_2. }
        eexists _, _, _. split; [done|]. cbn [fst] in *. rewrite Hdb. done.
    - eexists _, _, _. split; [done|]. unfold emit, cache_keyed.
      cbn [db_manager data_cache]. rewrite Hc1. split; [done|apply Forall_nil_2]. }
  rewrite (finally_no_column cl c _ k Hcol).
  - by destruct e.
  - by destruct e.
Qed.



(** X8.  With the configuration the program creates by default, [run] never
    stores anything: the default tag [temp_nodeid] names the channel [temp],
    and the table calls that column [temperature]. *)
Theorem run_default_config_stores_nothing (cfg : config) (cl : client) (t : thread) :
  ConfigManager.read_config ConfigManager._create_default_config = Some cfg →
  data_cache t = [] →
  db_manager (run cfg cl t).1 = db_manager t.
Proof.
  intros Hread Hcache. apply (run_no_column cfg cl t "temp"); [| | |done].
  - vm_compute in Hread. apply (inj Some) in Hread. subst cfg.
    apply (bool_decide_unpack _). vm_compute. exact I.
  - apply (bool_decide_unpack _). vm_compute. exact I.
  - apply (bool_decide_unpack _). vm_compute. exact I.
Qed.

Lemma run_default_config_stores_nothing_witness :
  ∃ cfg,
    ConfigManager.read_config ConfigManager._create_default_config = Some cfg ∧
    db_manager (run cfg (sample_client [sample_cycle 1; sample_cycle 2])
                    (init empty_db)).1 = empty_db.
Proof.
  destruct (ConfigManager.read_config ConfigManager._create_default_config)
    as [cfg|] eqn:Hread; [|vm_compute in Hread; discriminate Hread].
  exists cfg. split; [reflexivity|].
  apply (run_default_config_stores_nothing cfg _ (init empty_db)); [|reflexivity].
  exact Hread.
Defined.

(** X9.  Once the start marker is set, every reading polled with a
    [run_start] channel carries the key [run_start], which is no column of
    the table: from a state whose cache holds only such readings (an empty
    cache, after a flush), neither the timer's flushes nor the final flush
    store anything, whatever is read afterwards. *)
Theorem started_run_stores_nothing
    (p : Qc) (nodes : list string) (cs : list cycle) (cl : client)
    (is_connected : bool) (t : thread) :
  "run_start" ∈ nodes → truthy (reactor_start_time t) = true →
  cache_keyed "run_start" t →
  db_manager (finally cl is_connected (loop p nodes cs t).1).1 = db_manager t.
Proof.
  intros Hin Hstart Hkeyed.
  assert ("run_start" ∉ columns) as Hcol.
  { apply (bool_decide_unpack _). vm_compute. exact I. }
  destruct (loop_no_column p nodes cs t "run_start" Hin Hcol) as [Hdb Hk];
    [by right|done|].
  by rewrite (finally_no_column cl is_connected _ "run_start" Hcol Hk).
Qed.

Lemma started_run_stores_nothing_witness :
  db_manager
    (finally (sample_client []) true
       (loop (qz 1) ["ph"; "run_start"] [sample_cycle 5; sample_cycle 6]
          (Thread (PNum (qz 4)) [] empty_db [])).1).1 = empty_db.
Proof.
  apply (started_run_stores_nothing (qz 1) ["ph"; "run_start"]
           [sample_cycle 5; sample_cycle 6] (sample_client []) true
           (Thread (PNum (qz 4)) [] empty_db [])).
  - apply (bool_decide_unpack _). vm_compute. exact I.
  - vm_compute. reflexivity.
  - apply Forall_nil_2.
Defined.

(** ** The start marker *)

Lemma poll_nodes_other c names t data note :
  "run_start" ∉ names →
  ∃ data', foldl (poll_node c) (t, data, note) names = (t, data', note) ∧
           ∀ k, k ∉ names → data' !! k = data !! k.
Proof.
  revert data. induction names as [|n names IH]; intros data Hnot; cbn [foldl].
  { by exists data. }
  apply not_elem_of_cons in Hnot as [Hne Hnot].
  assert (∃ v, poll_node c (t, data, note) n = (t, <[n := v]> data, note)) as [v ->].
  { unfold poll_node. rewrite bool_decide_eq_false_2 by done. cbn [andb].
    destruct (get_value c n) as [v|e]; eauto. }
  destruct (IH (<[n := v]> data) Hnot) as (data' & -> & Hd).
  exists data'. split; [done|]. intros k [Hk1 Hk2]%not_elem_of_cons.
  rewrite Hd by done. by rewrite lookup_insert_ne.
Qed.

(** The thread and [status_note] after the [for] loop of one pass. *)
Lemma poll_nodes_starts c nodes t data note :
  NoDup nodes → "timestamp" ∉ nodes → data !! "timestamp" = Some (PNum (now c)) →
  ∃ data',
    foldl (poll_node c) (t, data, note) nodes
    = if starts nodes c t
      then (emit (EReactorStarted (PNum (now c)))
              (Thread (PNum (now c)) (data_cache t) (db_manager t) (trace t)),
            data', Some "STARTED")
      else (t, data', note).
Proof.
  revert data. induction nodes as [|n nodes IH]; intros data Hnd Hts Hdata.
  { exists data. unfold starts. rewrite bool_decide_eq_false_2; [done|].
    apply not_elem_of_nil. }
  apply NoDup_cons in Hnd as [Hn Hnd]. apply not_elem_of_cons in Hts as [Hts1 Hts].
  cbn [foldl]. destruct (decide (n = "run_start")) as [->|Hne].
  - assert (starts ("run_start" :: nodes) c t
            = negb (truthy (reactor_start_time t)) &&
              match get_value c "run_start" with
              | Returns v => equals_one v
              | Raises _ => false
              end) as ->.
    { unfold starts. rewrite bool_decide_eq_true_2; [done|apply list_elem_of_here]. }
    unfold poll_node at 2. rewrite bool_decide_eq_true_2 by done. cbn [andb].
    destruct (truthy (reactor_start_time t)); cbn [negb andb].
    + destruct (get_value c "run_start") as [v|e];
        match goal with |- context [foldl _ (t, ?d, note) nodes] =>
          destruct (poll_nodes_other c nodes t d note Hn) as (data' & -> & _) end;
        by exists data'.
    + destruct (get_value c "run_start") as [v|e].
      * destruct (equals_one v).
        -- unfold get. rewrite Hdata. cbn [default].
           match goal with |- context [foldl _ (?t1, data, ?n1) nodes] =>
             destruct (poll_nodes_other c nodes t1 data n1 Hn) as (data' & -> & _) end.
           by exists data'.
        -- destruct (poll_nodes_other c nodes t data note Hn) as (data' & -> & _).
           by exists data'.
      * match goal with |- context [foldl _ (t, ?d, note) nodes] =>
          destruct (poll_nodes_other c nodes t d note Hn) as (data' & -> & _) end.
        by exists data'.
  - assert (starts (n :: nodes) c t = starts nodes c t) as ->.
    { unfold starts. f_equal. f_equal. apply bool_decide_ext.
      rewrite elem_of_cons. split; [|by right]. intros [?|?]; [by subst|done]. }
    assert (∃ v, poll_node c (t, data, note) n = (t, <[n := v]> data, note)) as [v ->].
    { unfold poll_node. rewrite bool_decide_eq_false_2 by done. cbn [andb].
      destruct (get_value c n) as [v|e]; eauto. }
    apply IH; [done|done|]. by rewrite lookup_insert_ne.
Qed.

(** What a pass does to the thread, apart from the reading it appends. *)
Lemma poll_cycle_starts nodes c t :
  NoDup nodes → "timestamp" ∉ nodes →
  poll_cycle nodes c t
  = let data := poll_reading nodes c t in
    if starts nodes c t
    then Thread (PNum (now c)) (data_cache t ++ [data]) (db_manager t)
                (trace t ++ [EReactorStarted (PNum (now c)); EData data])
    else Thread (reactor_start_time t) (data_cache t ++ [data]) (db_manager t)
                (trace t ++ [EData data]).
Proof.
  intros Hnd Hts. unfold poll_cycle, poll_reading, poll_nodes.
  destruct (poll_nodes_starts c nodes t {[ "timestamp" := PNum (now c) ]} None Hnd Hts)
    as [data' ->]; [apply lookup_singleton_eq|].
  destruct (starts nodes c t); unfold emit;
    cbn [fst snd reactor_start_time data_cache db_manager trace];
    [by rewrite <- app_assoc|done].
Qed.

Lemma poll_reading_starts nodes c t :
  NoDup nodes → "timestamp" ∉ nodes → starts nodes c t = true →
  poll_reading nodes c t !! "bioreactor_status" = Some (PStr "STARTED").
Proof.
  intros Hnd Hts Hst. unfold poll_reading, poll_nodes.
  destruct (poll_nodes_starts c nodes t {[ "timestamp" := PNum (now c) ]} None Hnd Hts)
    as [data' ->]; [apply lookup_singleton_eq|].
  rewrite Hst. apply lookup_insert_eq.
Qed.

(** X10.  Detection of the start.  In a pass over distinct channels, none
    called [timestamp]: when the marker is not set and the node of the
    channel [run_start] reads 1, the marker becomes the time of the pass,
    [reactor_started] is emitted with it before the reading is, and the
    reading is marked STARTED; in every other pass the marker stays as it is
    and only the reading is emitted. *)
Theorem poll_cycle_start_detection (nodes : list string) (c : cycle) (t : thread) :
  NoDup nodes → "timestamp" ∉ nodes →
  if starts nodes c t
  then reactor_start_time (poll_cycle nodes c t) = PNum (now c) ∧
       trace (poll_cycle nodes c t)
       = trace t ++ [EReactorStarted (PNum (now c)); EData (poll_reading nodes c t)] ∧
       poll_reading nodes c t !! "bioreactor_status" = Some (PStr "STARTED")
  else reactor_start_time (poll_cycle nodes c t) = reactor_start_time t ∧
       trace (poll_cycle nodes c t) = trace t ++ [EData (poll_reading nodes c t)].
Proof.
  intros Hnd Hts. rewrite (poll_cycle_starts nodes c t Hnd Hts). cbn zeta.
  destruct (starts nodes c t) eqn:Hst; cbn [reactor_start_time trace]; [|done].
  split; [done|]. split; [done|]. by apply poll_reading_starts.
Qed.

Lemma poll_cycle_start_detection_witness :
  reactor_start_time
    (poll_cycle ["ph"; "run_start"]
       (Cycle (qz 7) (λ _, Returns (PNum (qz 1))) false) (init empty_db))
  = PNum (qz 7).
Proof.
  pose proof (poll_cycle_start_detection ["ph"; "run_start"]
                (Cycle (qz 7) (λ _, Returns (PNum (qz 1))) false) (init empty_db)) as H.
  assert (starts ["ph"; "run_start"]
            (Cycle (qz 7) (λ _, Returns (PNum (qz 1))) false) (init empty_db) = true)
    as Hst by (vm_compute; reflexivity).
  rewrite Hst in H. apply H.
  - apply (bool_decide_unpack _). vm_compute. exact I.
  - apply (bool_decide_unpack _). vm_compute. exact I.
Defined.

Lemma started_signals_app evs1 evs2 :
  started_signals (evs1 ++ evs2) = started_signals evs1 ++ started_signals evs2.
Proof. apply omap_app. Qed.

Lemma started_signals_logs (logs : list log_entry) : started_signals (ELog <$> logs) = [].
Proof. induction logs as [|l logs IH]; [done|exact IH]. Qed.

Lemma flush_started t :
  started_signals (trace (_flush_cache_to_db t)) = started_signals (trace t) ∧
  reactor_start_time (_flush_cache_to_db t) = reactor_start_time t.
Proof.
  destruct (flush_trace t) as (logs & -> & _). split.
  - rewrite started_signals_app. cbn. rewrite started_signals_logs. apply app_nil_r.
  - destruct (data_cache t) as [|first rest] eqn:Hc.
    + by rewrite flush_nil.
    + by rewrite (flush_cons t first rest Hc).
Qed.

(** Over a whole loop the start is signalled at most once, as long as the
    clock never reads 0. *)
Lemma loop_started p nodes cs t :
  NoDup nodes → "timestamp" ∉ nodes → Forall (λ c, now c ≠ Q2Qc 0) cs →
  let t' := (loop p nodes cs t).1 in
  (started_signals (trace t') = started_signals (trace t) ∧
   reactor_start_time t' = reactor_start_time t) ∨
  (truthy (reactor_start_time t) = false ∧
   ∃ c, c ∈ cs ∧
        started_signals (trace t') = started_signals (trace t) ++ [PNum (now c)] ∧
        reactor_start_time t' = PNum (now c)).
Proof.
  intros Hnd Hts Hclock. revert t.
  induction Hclock as [|c cs Hc Hclock IH]; intros t; cbn zeta; [by left|].
  cbn [loop].
  set (t1 := if timer_fired c then _flush_cache_to_db t else t).
  assert (started_signals (trace t1) = started_signals (trace t) ∧
          reactor_start_time t1 = reactor_start_time t) as [Hs1 Hm1].
  { subst t1. destruct (timer_fired c); [apply flush_started|done]. }
  set (t2 := emit (ESleep p) (poll_cycle nodes c t1)).
  assert (if starts nodes c t1
          then truthy (reactor_start_time t) = false ∧
               started_signals (trace t2) = started_signals (trace t) ++ [PNum (now c)] ∧
               reactor_start_time t2 = PNum (now c)
          else started_signals (trace t2) = started_signals (trace t) ∧
               reactor_start_time t2 = reactor_start_time t) as Hstep.
  { subst t2. rewrite (poll_cycle_starts nodes c t1 Hnd Hts). cbn zeta.
    destruct (starts nodes c t1) eqn:Hst; unfold emit;
      cbn [trace reactor_start_time]; rewrite !started_signals_app, Hs1; cbn.
    - split; [|by rewrite app_nil_r].
      unfold starts in Hst. rewrite Hm1 in Hst.
      destruct (truthy (reactor_start_time t)); [|done].
      by rewrite andb_false_r in Hst.
    - by rewrite !app_nil_r. }
  assert (∀ r : thread * option string,
            r = (if bool_decide (p < 0)%Qc
                 then (t2, Some "sleep length must be non-negative")
                 else loop p nodes cs t2) →
            (started_signals (trace r.1) = started_signals (trace t2) ∧
             reactor_start_time r.1 = reactor_start_time t2) ∨
            (truthy (reactor_start_time t2) = false ∧
             ∃ c', c' ∈ cs ∧
                   started_signals (trace r.1) = started_signals (trace t2) ++ [PNum (now c')] ∧
                   reactor_start_time r.1 = PNum (now c'))) as Hrest.
  { intros r ->. case_bool_decide; [by left|]. apply IH. }
  specialize (Hrest _ eq_refl).
  destruct (starts nodes c t1).
  - destruct Hstep as (Hfalse & Hs2 & Hm2). right. split; [done|].
    exists c. split; [apply list_elem_of_here|].
    destruct Hrest as [[Hs3 Hm3]|[Habs _]].
    + rewrite Hs3, Hm3. done.
    + rewrite Hm2 in Habs. cbn in Habs. by rewrite bool_decide_eq_false_2 in Habs.
  - destruct Hstep as [Hs2 Hm2].
    destruct Hrest as [[Hs3 Hm3]|(Hfalse & c' & Hc' & Hs3 & Hm3)].
    + left. split; congruence.
    + right. split; [congruence|]. exists c'.
      split; [by apply list_elem_of_further|]. split; congruence.
Qed.

(** X11.  The start is signalled at most once per run.  When no channel is
    called [timestamp] and the clock never reads 0, a run from a fresh
    thread either emits no [reactor_started] and leaves the marker unset,
    or emits it exactly once, with the time of one of its passes, which is
    the marker it ends with. *)
Theorem run_signals_start_at_most_once (cfg : config) (cl : client) (d : db) :
  "timestamp" ∉ (node_ids_to_poll (tags cfg)).*1 →
  Forall (λ c, now c ≠ Q2Qc 0) (cycles cl) →
  let t' := (run cfg cl (init d)).1 in
  (started_signals (trace t') = [] ∧ reactor_start_time t' = PNone) ∨
  (∃ c, c ∈ cycles cl ∧ started_signals (trace t') = [PNum (now c)] ∧
        reactor_start_time t' = PNum (now c)).
Proof.
  intros Hts Hclock. cbn zeta. unfold run.
  destruct (polling_interval cfg) as [poll_ms warning].
  set (p := (qz poll_ms / qz 1000)%Qc).
  set (t1 := Thread _ _ _ _).
  assert (started_signals (trace t1) = [] ∧ reactor_start_time t1 = PNone) as [Hs1 Hm1].
  { subst t1. cbn. by rewrite started_signals_logs. }
  clearbody t1.
  pose proof (node_ids_to_poll_spec (tags cfg)) as [Hnd _].
  set (Q := λ t' : thread,
         (started_signals (trace t') = [] ∧ reactor_start_time t' = PNone) ∨
         (∃ c, c ∈ cycles cl ∧ started_signals (trace t') = [PNum (now c)] ∧
               reactor_start_time t' = PNum (now c))).
  assert (∀ t e, Q t → Q (emit e t) ∨ ∃ s, e = EReactorStarted s) as Hemit.
  { intros t e HQ. destruct e; eauto; left; unfold Q, emit in *;
      cbn [trace reactor_start_time]; rewrite started_signals_app; cbn;
      by rewrite app_nil_r. }
  assert (∀ t e, Q t → (∀ s, e ≠ EReactorStarted s) → Q (emit e t)) as Hemit'.
  { intros t e HQ Hne. destruct (Hemit t e HQ) as [?|[s ->]]; [done|]. by destruct (Hne s). }
  assert (Q t1) as HQ1 by by left.
  assert (∃ t2 c e, try_block cfg cl p (node_ids_to_poll (tags cfg)) t1 = (t2, c, e) ∧ Q t2)
    as (t2 & c & e & -> & HQ2).
  { unfold try_block. destruct (connect cl) as [[]|e0].
    - destruct (get_nodes cl _) as [e1|].
      + eexists _, _, _. split; [done|]. by repeat apply Hemit'.
      + match goal with |- context [loop p ?n ?cs ?t0] =>
          pose proof (loop_started p n cs t0 Hnd Hts Hclock) as Hl;
          assert (Q t0) as HQ0 by (by repeat apply Hemit');
          assert (started_signals (trace t0) = [] ∧ reactor_start_time t0 = PNone)
            as [Hs0 Hm0] by (unfold emit; cbn [trace reactor_start_time];
                             rewrite !started_signals_app, Hs1; done);
          destruct (loop p n cs t0) as [t2 e2] end.
        eexists _, _, _. split; [done|]. cbn zeta in Hl. cbn [fst] in Hl.
        destruct Hl as [[Hs Hm]|(_ & c' & Hc' & Hs & Hm)].
        * left. split; congruence.
        * right. exists c'. rewrite Hs0 in Hs. done.
    - eexists _, _, _. split; [done|]. by apply Hemit'. }
  assert (∀ t, Q t → Q (finally cl c t).1) as Hfin.
  { intros t HQ. rewrite finally_state. cbn zeta.
    destruct (flush_started (emit ETimerStop t)) as [Hs Hm].
    assert (Q (emit ETimerStop t)) as HQ' by by apply Hemit'.
    unfold Q in *. cbn [trace reactor_start_time].
    rewrite started_signals_app, Hs, Hm.
    assert (started_signals (closing cl c) = []) as ->.
    { unfold closing. destruct c; [destruct (disconnect cl)|]; done. }
    by rewrite app_nil_r. }
  apply Hfin. destruct e as [e|]; [|done]. by repeat apply Hemit'.
Qed.

Lemma run_signals_start_at_most_once_witness :
  let t' := (run (sample_config "1000")
                 (sample_client [Cycle (qz 7) (λ _, Returns (PNum (qz 1))) false;
                                 Cycle (qz 8) (λ _, Returns (PNum (qz 1))) false])
                 (init empty_db)).1 in
  (started_signals (trace t') = [] ∧ reactor_start_time t' = PNone) ∨
  (∃ c, c ∈ [Cycle (qz 7) (λ _, Returns (PNum (qz 1))) false;
             Cycle (qz 8) (λ _, Returns (PNum (qz 1))) false] ∧
        started_signals (trace t') = [PNum (now c)] ∧
        reactor_start_time t' = PNum (now c)).
Proof.
  apply (run_signals_start_at_most_once (sample_config "1000")
           (sample_client [Cycle (qz 7) (λ _, Returns (PNum (qz 1))) false;
                           Cycle (qz 8) (λ _, Returns (PNum (qz 1))) false]) empty_db).
  - apply (bool_decide_unpack _). vm_compute. exact I.
  - repeat constructor; apply (bool_decide_unpack _); vm_compute; exact I.
Defined.

(** ** Connection failures and their notification *)

(** X12.  When [client.connect()] raises, [run] fails fast: with nothing
    cached it resolves no node, polls nothing, never calls
    [client.disconnect()], leaves the store and the marker as they were, and
    its calls are exactly the connection attempt, the failure status and its
    log line, the timer's stop, the final flush and the terminal status. *)
Theorem run_connect_failure (cfg : config) (cl : client) (t : thread) (e : string) :
  connect cl = Raises e → data_cache t = [] →
  run cfg cl t =
  (Thread (reactor_start_time t) [] (db_manager t)
     (trace t ++ (ELog <$> (polling_interval cfg).2) ++
      [EConnect; EStatus ("Connection Failed: " +:+ e); ELog (LogClientFailed e);
       ETimerStop; EFlush; EStatus "Disconnected"]), None).
Proof.
  intros Hconn Hcache. unfold run. destruct (polling_interval cfg) as [poll_ms warning].
  unfold try_block. rewrite Hconn. unfold finally.
  rewrite flush_nil by (unfold emit; cbn [data_cache]; exact Hcache).
  unfold emit. cbn [reactor_start_time data_cache db_manager trace snd].
  rewrite Hcache. by rewrite <- !app_assoc.
Qed.

Lemma run_connect_failure_witness :
  run (sample_config "1000")
      (Client (Raises "timed out") (λ _, Returns ()) (Returns ()) [sample_cycle 1])
      (init empty_db) =
  (Thread PNone [] empty_db
     ([] ++ (ELog <$> (polling_interval (sample_config "1000")).2) ++
      [EConnect; EStatus ("Connection Failed: " +:+ "timed out");
       ELog (LogClientFailed "timed out");
       ETimerStop; EFlush; EStatus "Disconnected"]), None).
Proof.
  apply (run_connect_failure (sample_config "1000")
           (Client (Raises "timed out") (λ _, Returns ()) (Returns ()) [sample_cycle 1])
           (init empty_db) "timed out"); reflexivity.
Defined.

Lemma status_signals_app evs1 evs2 :
  status_signals (evs1 ++ evs2) = status_signals evs1 ++ status_signals evs2.
Proof. apply omap_app. Qed.






(** * Further properties: the settings tab *)

Lemma int_digits_uint d acc :
  int_digits acc true (list_ascii_of_string (DecimalString.NilEmpty.string_of_uint d))
  = Some (uint_value d acc).
Proof.
  revert acc.
  induction d; intros acc;
    cbn [DecimalString.NilEmpty.string_of_uint list_ascii_of_string];
    [done|..]; apply IHd.
Qed.

Lemma int_digits_digit_first acc c l :
  is_Some (digit_value c) → int_digits acc false (c :: l) = int_digits acc true (c :: l).
Proof. intros [v Hv]. cbn [int_digits]. by rewrite Hv. Qed.

Lemma int_digits_uint_false d acc :
  d ≠ Decimal.Nil →
  int_digits acc false (list_ascii_of_string (DecimalString.NilEmpty.string_of_uint d))
  = Some (uint_value d acc).
Proof.
  intros Hd. rewrite <- int_digits_uint.
  destruct d; [done|..];
    cbn [DecimalString.NilEmpty.string_of_uint list_ascii_of_string];
    apply int_digits_digit_first; by eexists.
Qed.

Lemma uint_value_acc d acc : uint_value d (Z.pos acc) = Z.pos (Pos.of_uint_acc d acc).
Proof.
  revert acc. induction d; intros acc; cbn [uint_value Pos.of_uint_acc]; [done|..];
    rewrite <- IHd; f_equal; lia.
Qed.

Lemma uint_value_0 d : uint_value d 0 = Z.of_N (Pos.of_uint d).
Proof.
  induction d; cbn [uint_value Pos.of_uint]; [done|exact IHd|..];
    apply (uint_value_acc d).
Qed.

Lemma digits_no_space d :
  Forall (λ a, is_space a = false)
         (list_ascii_of_string (DecimalString.NilEmpty.string_of_uint d)).
Proof.
  induction d; cbn [DecimalString.NilEmpty.string_of_uint list_ascii_of_string];
    constructor; done.
Qed.

Lemma lstrip_no_space l : Forall (λ a, is_space a = false) l → lstrip l = l.
Proof. destruct 1 as [|a l Ha _]; [done|]. cbn [lstrip]. by rewrite Ha. Qed.

Lemma strip_no_space l : Forall (λ a, is_space a = false) l → strip l = l.
Proof.
  intros Hl. unfold strip. rewrite (lstrip_no_space l Hl).
  rewrite lstrip_no_space by by apply Forall_reverse.
  apply reverse_involutive.
Qed.

Lemma py_int_uint d :
  d ≠ Decimal.Nil →
  py_int (DecimalString.NilEmpty.string_of_uint d) = Some (Z.of_N (Pos.of_uint d)).
Proof.
  intros Hd. unfold py_int. rewrite strip_no_space by apply digits_no_space.
  rewrite <- uint_value_0, <- (int_digits_uint_false d 0 Hd).
  destruct d; done.
Qed.

(** [int(str(n)) == n] *)
Lemma py_int_str n : py_int (str n) = Some n.
Proof.
  unfold str. destruct n as [|p|p]; [done|..];
    cbn [Z.to_int DecimalString.NilZero.string_of_int];
    unfold DecimalString.NilZero.string_of_uint;
    pose proof (DecimalPos.Unsigned.to_uint_nonnil p) as Hnil;
    pose proof (DecimalPos.Unsigned.of_to p) as Hof.
  - destruct (Pos.to_uint p) eqn:E; [done|..];
      rewrite py_int_uint by done; by rewrite Hof.
  - assert (py_int (String "-" (DecimalString.NilEmpty.string_of_uint (Pos.to_uint p)))
            = Some (Z.neg p)) as Hneg.
    { unfold py_int. cbn [list_ascii_of_string].
      rewrite strip_no_space by (constructor; [done|apply digits_no_space]).
      rewrite int_digits_uint_false by done. rewrite uint_value_0, Hof. done. }
    destruct (Pos.to_uint p) eqn:E; [done|..]; exact Hneg.
Qed.



(** X14.  The cadence of the settings tab.  Whatever value is given to the
    spin box of the polling interval, the value it holds lies between 100
    and 60000, and the text [save_settings] stores for it is read back by
    [run] as that same number of milliseconds, with no warning: the minimum
    the loop itself does not enforce is enforced where the cadence is
    edited. *)
Theorem settings_cadence_round_trip (v : Z) (a : string) (tg : list (string * string)) :
  (100 ≤ SettingsTab.setValue v ≤ 60000)%Z ∧
  polling_interval (Config a (Some (str (SettingsTab.setValue v))) tg)
  = (SettingsTab.setValue v, []).
Proof.
  split; [unfold SettingsTab.setValue; lia|].
  unfold polling_interval, getint. cbn [polling_interval_ms mbind option_bind].
  by rewrite py_int_str.
Qed.

Lemma set_spec p s o v p' :
  named s → ConfigManager.set p s o v = Some p' →
  ConfigManager.get_option p' s o = Some v ∧
  ∀ s' o', (s', o') ≠ (s, o) →
           ConfigManager.get_option p' s' o' = ConfigManager.get_option p s' o'.
Proof.
  intros [H1 H2]. unfold ConfigManager.set.
  rewrite !bool_decide_eq_false_2 by done. cbn [orb].
  destruct (ConfigManager.dict_get s (ConfigManager.sections p)) as [opts|] eqn:Hopts;
    [|done].
  cbn. intros [= <-]. unfold ConfigManager.get_option.
  cbn [ConfigManager.sections ConfigManager.defaults]. split.
  - rewrite dict_get_set_eq. cbn. by rewrite dict_get_set_eq.
  - intros s' o' Hne. destruct (decide (s = s')) as [<-|Hs].
    + rewrite dict_get_set_eq, Hopts. cbn.
      rewrite dict_get_set_ne; [done|]. intros ->. by apply Hne.
    + by rewrite dict_get_set_ne.
Qed.

(** After a list of assignments an option reads as the value last assigned
    to it, and as before when none was. *)
Lemma assign_all ws p p' :
  Forall (λ a : string * string * option string, named a.1.1) ws →
  foldl SettingsTab.assign (Some p) ws = Some p' →
  ∀ s o, ConfigManager.get_option p' s o
         = match last_write s o ws with
           | Some value => value
           | None => ConfigManager.get_option p s o
           end.
Proof.
  revert p'. induction ws as [|[[s0 o0] v0] ws IH] using rev_ind; intros p' Hn Hf s o.
  { cbn in Hf. by injection Hf as <-. }
  apply Forall_app in Hn as [Hn Hn0]. apply Forall_cons in Hn0 as [Hn0 _].
  cbn [fst] in Hn0.
  rewrite foldl_app in Hf. cbn [foldl] in Hf.
  unfold last_write. rewrite foldl_app. cbn [foldl fst snd].
  fold (last_write s o ws).
  destruct (foldl SettingsTab.assign (Some p) ws) as [p1|] eqn:Hp1; [|done].
  unfold SettingsTab.assign in Hf. cbn [fst snd mbind option_bind] in Hf.
  destruct v0 as [v|]; [|done]. cbn [mbind option_bind] in Hf.
  destruct (ConfigManager.interpolate v); [|done]. cbn [mbind option_bind] in Hf.
  destruct (set_spec p1 s0 o0 v p' Hn0 Hf) as [Hget Hother].
  destruct (decide ((s0, o0) = (s, o))) as [[= -> ->]|Hne]; [done|].
  rewrite Hother by congruence. by apply IH.
Qed.

Lemma writes_named w :
  Forall (λ a : string * string * option string, named a.1.1) (SettingsTab.writes w).
Proof.
  unfold SettingsTab.writes, SettingsTab.tag_keys, SettingsTab.color_keys,
    SettingsTab.axis_keys.
  cbn [flat_map fmap list_fmap app last]. cbn.
  repeat (apply Forall_cons; split; [split; intros [=]|]). apply Forall_nil_2.
Qed.

(** X15.  What [save_settings] saves.  When it runs to its end, the parser
    holds the address, the polling interval and, for every tag, the display
    name and the node id as the widgets give them; the node id of a set
    point is never written, for any tag, whatever its field holds: the
    option reads as it did before. *)
Theorem save_settings_never_saves_setpoint_nodes
    (w : SettingsTab.widgets) (p p' : ConfigManager.parser) :
  SettingsTab.save_settings w p = Some p' →
  ConfigManager.get_option p' "OPC_SERVER" "address"
  = Some (SettingsTab.opc_address_edit w) ∧
  ConfigManager.get_option p' "SETTINGS" "polling_interval_ms"
  = Some (str (SettingsTab.polling_edit w)) ∧
  ∀ k, k ∈ SettingsTab.tag_keys →
    ConfigManager.get_option p' "TAGS" (k +:+ "_name") = Some (SettingsTab.name_text w k) ∧
    ConfigManager.get_option p' "TAGS" (k +:+ "_nodeid") = Some (SettingsTab.pv_node w k) ∧
    ConfigManager.get_option p' "TAGS" (k +:+ "_setpoint_nodeid")
    = ConfigManager.get_option p "TAGS" (k +:+ "_setpoint_nodeid").
Proof.
  intros Hsave. pose proof (assign_all _ p p' (writes_named w) Hsave) as Hget.
  split; [|split].
  - rewrite Hget. reflexivity.
  - rewrite Hget. reflexivity.
  - intros k Hk. unfold SettingsTab.tag_keys in Hk.
    repeat (apply elem_of_cons in Hk as [->|Hk]);
      [..|by apply not_elem_of_nil in Hk];
      (split; [|split]); rewrite Hget; reflexivity.
Qed.

Lemma save_settings_never_saves_setpoint_nodes_witness :
  ∃ p',
    SettingsTab.save_settings
      (SettingsTab.Widgets "opc.tcp://10.0.0.5:4840" 250 (λ k, k) (λ _, "ns=3;i=1")
         (λ _, "ns=3;i=99") (λ _, Some "#000000") (λ _, "0.0") (λ _, "1.0"))
      ConfigManager._create_default_config = Some p' ∧
    ConfigManager.get_option p' "TAGS" "ph_nodeid" = Some "ns=3;i=1" ∧
    ConfigManager.get_option p' "TAGS" "ph_setpoint_nodeid" = Some "ns=2;i=10".
Proof.
  destruct (SettingsTab.save_settings
              (SettingsTab.Widgets "opc.tcp://10.0.0.5:4840" 250 (λ k, k) (λ _, "ns=3;i=1")
                 (λ _, "ns=3;i=99") (λ _, Some "#000000") (λ _, "0.0") (λ _, "1.0"))
              ConfigManager._create_default_config) as [p'|] eqn:Hsave;
    [|vm_compute in Hsave; discriminate Hsave].
  exists p'. split; [reflexivity|].
  destruct (save_settings_never_saves_setpoint_nodes _ _ p' Hsave) as (_ & _ & Hk).
  destruct (Hk "ph") as (_ & Hpv & Hsp).
  { apply (bool_decide_unpack _). vm_compute. exact I. }
  split; [exact Hpv|].
  transitivity (ConfigManager.get_option ConfigManager._create_default_config "TAGS"
                  ("ph" +:+ "_setpoint_nodeid")); [exact Hsp|].
  vm_compute. reflexivity.
Defined.

(** * Further properties: the export *)

Lemma query_range_nil start_ts end_ts rows :
  query_range start_ts end_ts rows = [] ↔
  ∀ r, r ∈ rows → between start_ts end_ts r = false.
Proof.
  split.
  - intros Hnil r Hr. apply not_true_is_false. intros Hb.
    assert (r ∈ query_range start_ts end_ts rows) as Hin.
    { rewrite query_range_Permutation. by apply list_elem_of_filter. }
    rewrite Hnil in Hin. by apply not_elem_of_nil in Hin.
  - intros Hall. destruct (query_range start_ts end_ts rows) as [|r l] eqn:Hq; [done|].
    assert (r ∈ query_range start_ts end_ts rows) as Hin
      by (rewrite Hq; apply list_elem_of_here).
    apply query_range_between in Hin as [Hb Hr]. rewrite (Hall r Hr) in Hb.
    discriminate Hb.
Qed.

Lemma export_no_data_nil rows start_ts end_ts interval_s :
  export_to_excel rows start_ts end_ts interval_s = inl NoData ↔
  query_range start_ts end_ts rows = [].
Proof.
  unfold export_to_excel.
  destruct (query_range start_ts end_ts rows) as [|r l]; [done|].
  split; [|done].
  destruct (bool_decide _); destruct (truthy _); try done.
  by destruct (default PNone _).
Qed.

(** X16.  The export reports that there is no data exactly when no stored
    row has a numeric timestamp in the inclusive range, whatever the
    interval and the start marker; in particular for a range whose end lies
    before its start.  No other failure hides an empty range, and an empty
    range is never exported as an empty sheet. *)
Theorem export_no_data (rows : list row) (start_ts end_ts : Qc) (interval_s : Z) :
  (export_to_excel rows start_ts end_ts interval_s = inl NoData ↔
   ∀ r, r ∈ rows → between start_ts end_ts r = false) ∧
  ((end_ts < start_ts)%Qc →
   export_to_excel rows start_ts end_ts interval_s = inl NoData).
Proof.
  split.
  - by rewrite export_no_data_nil, query_range_nil.
  - intros Hlt. apply export_no_data_nil, query_range_nil. intros r _.
    unfold between. destruct (ts r) as [|t| |]; try done.
    apply andb_false_iff.
    destruct (decide (start_ts ≤ t)%Qc) as [Hle|Hle].
    + right. apply bool_decide_eq_false. intros Hle'.
      apply (Qclt_not_le _ _ Hlt). by apply (Qcle_trans _ t).
    + left. by apply bool_decide_eq_false.
Qed.

(** X17.  The export without resampling fails once the reactor has
    started.  With [interval_s] not positive, a row in the range, and a
    STARTED row in the table, where the timestamps of the STARTED rows are
    not 0 nor NULL, the export returns the error on the key [datetime]: it
    computes the elapsed time from a column that exists only after
    resampling. *)
Theorem export_raw_fails_once_started (rows : list row) (start_ts end_ts : Qc)
    (interval_s : Z) (r0 r1 : row) :
  (interval_s ≤ 0)%Z →
  r0 ∈ rows → between start_ts end_ts r0 = true →
  r1 ∈ rows → cell "bioreactor_status" r1 = PStr "STARTED" →
  (∀ r, r ∈ rows → cell "bioreactor_status" r = PStr "STARTED" → truthy (ts r) = true) →
  export_to_excel rows start_ts end_ts interval_s = inl KeyErrorDatetime.
Proof.
  intros Hraw Hr0 Hb0 Hr1 Hst1 Htruthy. unfold export_to_excel.
  destruct (query_range start_ts end_ts rows) as [|r l] eqn:Hq.
  { pose proof (proj1 (query_range_nil _ _ _) Hq r0 Hr0) as Hb. rewrite Hb in Hb0.
    discriminate Hb0. }
  rewrite bool_decide_eq_false_2 by lia.
  pose proof (query_start_event_spec rows) as Hspec.
  destruct (query_start_event rows) as [|t [|]]; [|clear Hq|done].
  - by destruct (Hspec r1 Hr1).
  - destruct Hspec as (r' & Hr' & Hst' & <- & _).
    change (default PNone (head [ts r'])) with (ts r').
    by rewrite (Htruthy r' Hr' Hst').
Qed.

Lemma export_raw_fails_once_started_witness :
  export_to_excel [stored 1000 7 (PStr "STARTED")] (qz 0) (qz 2000) 0
  = inl KeyErrorDatetime.
Proof.
  apply (export_raw_fails_once_started [stored 1000 7 (PStr "STARTED")] (qz 0) (qz 2000) 0
           (stored 1000 7 (PStr "STARTED")) (stored 1000 7 (PStr "STARTED"))).
  - lia.
  - apply list_elem_of_here.
  - vm_compute. reflexivity.
  - apply list_elem_of_here.
  - vm_compute. reflexivity.
  - intros r Hr _. apply list_elem_of_singleton in Hr. subst r. vm_compute. reflexivity.
Defined.







(** * Further properties: the dashboard *)

Lemma data_signals_cons e evs :
  data_signals (e :: evs)
  = match e with EData r => r :: data_signals evs | _ => data_signals evs end.
Proof. by destruct e. Qed.

Lemma started_signals_cons e evs :
  started_signals (e :: evs)
  = match e with EReactorStarted t => t :: started_signals evs | _ => started_signals evs end.
Proof. by destruct e. Qed.

(** The data of the dashboard after its slots have handled a trace. *)
Lemma slots_spec evs d :
  foldl DashboardTab.slot d evs =
  DashboardTab.Dashboard
    (match DashboardTab.fermentation_start_time d with
     | Some t => Some t
     | None => head (started_signals evs)
     end)
    (DashboardTab.time_data d ++ (get "timestamp" <$> data_signals evs))
    ((λ kl : string * list pyval,
        (kl.1, kl.2 ++ ((λ r, DashboardTab._sanitize_value (get kl.1 r))
                          <$> data_signals evs)))
       <$> DashboardTab.plot_data d).
Proof.
  revert d. induction evs as [|e evs IH]; intros d.
  { destruct d as [st td pd]. cbn. rewrite app_nil_r. f_equal; [by destruct st|].
    rewrite <- (list_fmap_id pd) at 1. apply list_fmap_ext. intros _ [k l] _.
    cbn. by rewrite app_nil_r. }
  cbn [foldl]. rewrite IH, data_signals_cons, started_signals_cons.
  destruct d as [st td pd].
  destruct e; cbn [DashboardTab.slot]; try done.
  - unfold DashboardTab.update_plot_data.
    cbn [DashboardTab.fermentation_start_time DashboardTab.time_data
           DashboardTab.plot_data].
    rewrite <- app_assoc. f_equal. rewrite <- list_fmap_compose.
    apply list_fmap_ext. intros _ [k l] _. cbn. by rewrite <- app_assoc.
  - unfold DashboardTab.set_fermentation_start.
    cbn [DashboardTab.fermentation_start_time DashboardTab.time_data
           DashboardTab.plot_data].
    by destruct st.
Qed.

Lemma dict_get_fmap_key {A B} (f : string * A → string * B) (h : string → B)
    (l : list (string * A)) k :
  (∀ kl, f kl = (kl.1, h kl.1)) → k ∈ l.*1 →
  ConfigManager.dict_get k (f <$> l) = Some (h k).
Proof.
  intros Hf. induction l as [|[k0 v0] l IH]; cbn [fmap list_fmap fst].
  - intros Hin. by apply not_elem_of_nil in Hin.
  - intros Hin. rewrite Hf. cbn [ConfigManager.dict_get fst].
    destruct (decide (k = k0)) as [->|Hne]; [done|].
    apply IH. by apply elem_of_cons in Hin as [?|?].
Qed.

Lemma dict_get_is_Some {A} (l : list (string * A)) k :
  k ∈ l.*1 → is_Some (ConfigManager.dict_get k l).
Proof.
  induction l as [|[k0 v0] l IH]; cbn [fmap list_fmap fst ConfigManager.dict_get].
  - intros Hin. by apply not_elem_of_nil in Hin.
  - intros Hin. destruct (decide (k = k0)) as [->|Hne]; [eauto|].
    apply IH. by apply elem_of_cons in Hin as [?|?].
Qed.

Lemma mapM_numbers (origin : Qc) (times : list Qc) :
  mapM (λ t, x ← number t; Some ((x - origin) / qz 3600)%Qc) (PNum <$> times)
  = Some ((λ t, (t - origin) / qz 3600)%Qc <$> times).
Proof.
  induction times as [|t times IH]; [done|].
  cbn [fmap list_fmap mapM]. cbn [number mbind option_bind]. by rewrite IH.
Qed.

(** X19.  The live plot stays aligned.  After [clear_all_data], as
    [start_opc_client] calls it, whatever the thread emits: [time_data]
    holds the timestamp of every reading received, in order; the start of
    the fermentation is the first start signalled; and the series of every
    key holds for every reading its value under that key, or [None] when it
    has none or it is no number.  So when the timestamps are numbers,
    [redraw_plot] gives every visible line its whole series, against the
    hours elapsed since the start signalled, or since the first reading when
    no start was signalled or it was signalled at time 0. *)
Theorem live_plot_aligned (evs : list event) (d : DashboardTab.dashboard) :
  let d' := foldl DashboardTab.slot (DashboardTab.clear_all_data d) evs in
  DashboardTab.time_data d' = get "timestamp" <$> data_signals evs ∧
  DashboardTab.fermentation_start_time d' = head (started_signals evs) ∧
  ∀ key, key ∈ (DashboardTab.plot_data d).*1 →
    ConfigManager.dict_get key (DashboardTab.plot_data d')
    = Some ((λ r, DashboardTab._sanitize_value (get key r)) <$> data_signals evs) ∧
    ∀ (t0 : Qc) (times : list Qc) (origin : Qc),
      get "timestamp" <$> data_signals evs = PNum <$> t0 :: times →
      (head (started_signals evs) = None ∧ origin = t0) ∨
      (∃ q, head (started_signals evs) = Some (PNum q) ∧
            origin = if bool_decide (q = Q2Qc 0) then t0 else q) →
      DashboardTab.redraw_line key d'
      = Some ((λ t, (t - origin) / qz 3600)%Qc <$> t0 :: times,
              (λ r, DashboardTab._sanitize_value (get key r)) <$> data_signals evs).
Proof.
  cbn zeta. rewrite slots_spec. unfold DashboardTab.clear_all_data.
  cbn [DashboardTab.fermentation_start_time DashboardTab.time_data
         DashboardTab.plot_data app].
  split; [done|]. split; [done|]. intros key Hkey.
  assert (ConfigManager.dict_get key
            ((λ kl : string * list pyval,
                (kl.1, kl.2 ++ ((λ r, DashboardTab._sanitize_value (get kl.1 r))
                                  <$> data_signals evs)))
               <$> ((λ kl : string * list pyval, (kl.1, @nil pyval))
                      <$> DashboardTab.plot_data d))
          = Some ((λ r, DashboardTab._sanitize_value (get key r)) <$> data_signals evs))
    as Hget.
  { rewrite <- list_fmap_compose.
    apply (dict_get_fmap_key _
             (λ k, (λ r, DashboardTab._sanitize_value (get k r)) <$> data_signals evs));
      [|done].
    by intros [k l]. }
  split; [exact Hget|]. intros t0 times origin Htimes Horigin.
  unfold DashboardTab.redraw_line, DashboardTab.eft_data_hours.
  cbn [DashboardTab.time_data DashboardTab.plot_data DashboardTab.fermentation_start_time].
  rewrite Hget, Htimes. cbn [fmap list_fmap head mbind option_bind].
  assert (match head (started_signals evs) with
          | None => number (PNum t0)
          | Some (PNum q) => if truthy (PNum q) then Some q else number (PNum t0)
          | Some _ => None
          end = Some origin) as ->.
  { destruct Horigin as [[-> ->]|(q & -> & ->)]; [done|].
    cbn [truthy number]. by case_bool_decide. }
  cbn [mbind option_bind].
  pose proof (mapM_numbers origin (t0 :: times)) as Hm.
  cbn [fmap list_fmap] in Hm. rewrite Hm. clear Hm.
  cbn [mbind option_bind default from_option]. unfold id.
  rewrite bool_decide_eq_true_2; [done|].
  rewrite (length_fmap (λ r, DashboardTab._sanitize_value (get key r))).
  rewrite <- (length_fmap (get "timestamp")), Htimes.
  cbn [length fmap list_fmap]. by rewrite !length_fmap.
Qed.

(** The elapsed hours of a dashboard whose times are numbers and whose start,
    if it has one, is a number. *)
Lemma eft_data_hours_numbers (d : DashboardTab.dashboard) (t0 : Qc) (times : list Qc) :
  DashboardTab.time_data d = PNum <$> t0 :: times →
  (DashboardTab.fermentation_start_time d = None ∨
   ∃ q, DashboardTab.fermentation_start_time d = Some (PNum q)) →
  ∃ hours, DashboardTab.eft_data_hours d = Some hours ∧
           length hours = length (t0 :: times).
Proof.
  intros Htimes Hstart. unfold DashboardTab.eft_data_hours. rewrite Htimes.
  cbn [fmap list_fmap head mbind option_bind].
  assert (∃ origin,
            match DashboardTab.fermentation_start_time d with
            | None => number (PNum t0)
            | Some (PNum q) => if truthy (PNum q) then Some q else number (PNum t0)
            | Some _ => None
            end = Some origin) as [origin ->].
  { destruct Hstart as [->|[q ->]]; [by eexists|].
    destruct (truthy (PNum q)); by eexists. }
  cbn [mbind option_bind].
  pose proof (mapM_numbers origin (t0 :: times)) as Hm.
  cbn [fmap list_fmap] in Hm. rewrite Hm. eexists. split; [done|].
  cbn [length]. by rewrite length_fmap.
Qed.

(** X20.  What Load and Visualize draws.  For a database that holds rows,
    the dashboard gets the timestamps of all rows in ascending order, the
    start of the fermentation from the earliest row marked STARTED, and for
    every line the column of the table that has its key; the line [temp]
    has none (the column is [temperature]): its series stays empty and
    [redraw_plot] never draws it, while, the timestamps being numbers,
    every other line is drawn with one value per row. *)
Theorem load_and_visualize_draws_columns
    (rows : list row) (d : DashboardTab.dashboard) :
  rows ≠ [] → (DashboardTab.plot_data d).*1 = DashboardTab.line_keys →
  Forall (λ r, is_Some (number (ts r))) rows →
  let df := get_all_data_as_dataframe rows in
  let d' := (MainWindow.load_and_visualize_db rows d).1 in
  DashboardTab.time_data d' = ts <$> df ∧
  DashboardTab.fermentation_start_time d'
  = ts <$> head (filter (λ r, cell "bioreactor_status" r = PStr "STARTED") df) ∧
  DashboardTab.redraw_line "temp" d' = None ∧
  ∀ key, key ∈ DashboardTab.line_keys → key ≠ "temp" →
         ∃ hours, length hours = length df ∧
                  DashboardTab.redraw_line key d' = Some (hours, (λ r, cell key r) <$> df).
Proof.
  intros Hrows Hkeys Hnum. cbn zeta. unfold MainWindow.load_and_visualize_db.
  pose proof (merge_sort_Permutation row_le rows) as Hperm.
  fold (get_all_data_as_dataframe rows) in Hperm.
  rewrite <- Hperm in Hnum. clear Hperm.
  destruct (get_all_data_as_dataframe rows) as [|r0 df] eqn:Hdf.
  { pose proof (merge_sort_Permutation row_le rows) as Hperm.
    fold (get_all_data_as_dataframe rows) in Hperm. rewrite Hdf in Hperm.
    apply Permutation_nil_l in Hperm. by destruct Hrows. }
  assert (ts <$> r0 :: df = PNum <$> (seconds <$> r0 :: df)) as Hts.
  { rewrite <- list_fmap_compose. apply Forall_fmap_ext.
    eapply Forall_impl; [exact Hnum|]. intros r [q Hq]. cbn. unfold seconds.
    destruct (ts r) as [|q'| |]; try discriminate Hq. done. }
  cbn [fst]. unfold DashboardTab.display_historical_data. cbn zeta.
  set (pd := DashboardTab.plot_data d) in *.
  assert (∀ st, DashboardTab.plot_data
                  match st with
                  | r :: _ => DashboardTab.set_fermentation_start (ts r)
                                (DashboardTab.clear_all_data d)
                  | [] => DashboardTab.clear_all_data d
                  end
                = (λ kl : string * list pyval, (kl.1, @nil pyval)) <$> pd) as Hpd.
  { by intros [|r st]. }
  assert (∀ st : list row,
            DashboardTab.fermentation_start_time
              match st with
              | r :: _ => DashboardTab.set_fermentation_start (ts r)
                            (DashboardTab.clear_all_data d)
              | [] => DashboardTab.clear_all_data d
              end
            = ts <$> head st) as Hst.
  { by intros [|r st]. }
  split; [done|]. split; [apply Hst|].
  assert (∀ key, key ∈ DashboardTab.line_keys →
            ∃ hours, length hours = length (r0 :: df) ∧
            DashboardTab.redraw_line key
              (DashboardTab.Dashboard
                 (ts <$> head (filter (λ r, cell "bioreactor_status" r = PStr "STARTED")
                                 (r0 :: df)))
                 (ts <$> r0 :: df)
                 ((λ kl : string * list pyval,
                     (kl.1, if bool_decide (kl.1 ∈ columns)
                            then (λ r, cell kl.1 r) <$> r0 :: df
                            else kl.2))
                    <$> ((λ kl : string * list pyval, (kl.1, @nil pyval)) <$> pd)))
            = if bool_decide (key ∈ columns)
              then Some (hours, (λ r, cell key r) <$> r0 :: df) else None) as Hline.
  { intros key Hkey.
    destruct (eft_data_hours_numbers
                (DashboardTab.Dashboard
                   (ts <$> head (filter (λ r, cell "bioreactor_status" r = PStr "STARTED")
                                   (r0 :: df)))
                   (ts <$> r0 :: df)
                   ((λ kl : string * list pyval,
                       (kl.1, if bool_decide (kl.1 ∈ columns)
                              then (λ r, cell kl.1 r) <$> r0 :: df
                              else kl.2))
                      <$> ((λ kl : string * list pyval, (kl.1, @nil pyval)) <$> pd)))
                (seconds r0) (seconds <$> df)) as (hours & Hhours & Hlen).
    { exact Hts. }
    { cbn [DashboardTab.fermentation_start_time].
      destruct (filter _ (r0 :: df)) as [|r st] eqn:Hf; [by left|right].
      assert (r ∈ r0 :: df) as Hr.
      { assert (r ∈ filter (λ r, cell "bioreactor_status" r = PStr "STARTED") (r0 :: df))
          as Hin by (rewrite Hf; apply list_elem_of_here).
        by apply list_elem_of_filter in Hin as [_ ?]. }
      rewrite Forall_forall in Hnum. destruct (Hnum r Hr) as [q Hq].
      exists q. cbn [head fmap option_fmap option_map].
      destruct (ts r) as [|q'| |]; try discriminate Hq. by injection Hq as ->. }
    exists hours. cbn [length] in Hlen. rewrite length_fmap in Hlen.
    split; [done|]. unfold DashboardTab.redraw_line. rewrite Hhours.
    cbn [mbind option_bind DashboardTab.plot_data].
    rewrite <- list_fmap_compose.
    rewrite (dict_get_fmap_key _
               (λ k, if bool_decide (k ∈ columns)
                     then (λ r, cell k r) <$> r0 :: df else [])); cycle 1.
    { by intros [k l]. }
    { by rewrite Hkeys. }
    unfold default, from_option, id. destruct (bool_decide (key ∈ columns)).
    - rewrite bool_decide_eq_true_2; [done|]. rewrite length_fmap, Hlen. done.
    - rewrite bool_decide_eq_false_2; [done|]. rewrite Hlen. done. }
  rewrite Hst, Hpd. split.
  - destruct (Hline "temp") as (hours & _ & ->).
    { apply (bool_decide_unpack _). vm_compute. exact I. }
    done.
  - intros key Hkey Hne. destruct (Hline key Hkey) as (hours & Hlen & ->).
    exists hours. split; [done|].
    rewrite bool_decide_eq_true_2; [done|].
    unfold DashboardTab.line_keys in Hkey. cbn [flat_map app] in Hkey.
    repeat (apply elem_of_cons in Hkey as [->|Hkey]);
      [..|by apply not_elem_of_nil in Hkey]; try done;
      apply (bool_decide_unpack _); vm_compute; exact I.
Qed.

Lemma load_and_visualize_draws_columns_witness :
  DashboardTab.redraw_line "temp"
    (MainWindow.load_and_visualize_db [stored 1000 7 PNone] DashboardTab.init).1 = None.
Proof.
  apply (load_and_visualize_draws_columns [stored 1000 7 PNone] DashboardTab.init).
  - discriminate.
  - vm_compute. reflexivity.
  - apply Forall_singleton. eexists. vm_compute. reflexivity.
Defined.

(** * Further properties: a run on channels the table has *)

Lemma first_unbindable_None i vals :
  Forall (λ v, bindable v = true) vals → first_unbindable i vals = None.
Proof.
  intros H. revert i. induction H as [|v vals Hv _ IH]; intros i; [done|].
  cbn [first_unbindable]. rewrite Hv. apply IH.
Qed.

Lemma storable_accepted (batch : list reading) : Forall storable batch → accepted batch.
Proof.
  destruct batch as [|first rest]; [done|]. intros Hall. cbn [accepted].
  pose proof (Forall_inv Hall) as (Hts & Hcols & _). split.
  - unfold prepare.
    destruct (sorted_keys first) as [|k0 keys] eqn:Hkeys.
    { apply elem_of_sorted_keys in Hts. rewrite Hkeys in Hts.
      by apply not_elem_of_nil in Hts. }
    rewrite <- Hkeys.
    destruct (filter (λ k, k ∉ columns) (sorted_keys first)) as [|c l] eqn:Hf; [done|].
    assert (c ∈ filter (λ k, k ∉ columns) (sorted_keys first)) as Hc
      by (rewrite Hf; apply list_elem_of_here).
    apply list_elem_of_filter in Hc as [Hnot Hc]. destruct Hnot.
    by apply Hcols, elem_of_sorted_keys.
  - apply Forall_forall. intros r Hr. rewrite Forall_forall in Hall.
    destruct (Hall r Hr) as (_ & _ & Hbind).
    apply first_unbindable_None. unfold tuple. apply Forall_fmap, Forall_forall.
    intros k _. cbn. unfold get. destruct (r !! k) as [v|] eqn:Hk; [|done].
    by apply (Hbind k).
Qed.

(** A flush of storable readings stores them all. *)
Lemma flush_storable t :
  pending (db_manager t) = [] → Forall storable (data_cache t) →
  pending (db_manager (_flush_cache_to_db t)) = [] ∧
  committed (db_manager t) `prefix_of` committed (db_manager (_flush_cache_to_db t)) ∧
  ∀ r, r ∈ data_cache t → has_row r (db_manager (_flush_cache_to_db t)).
Proof.
  intros Hp Hall. destruct (data_cache t) as [|first rest] eqn:Hc.
  { rewrite flush_nil by done. split; [done|]. split; [done|].
    intros r Hr. by apply not_elem_of_nil in Hr. }
  rewrite (flush_cons t first rest Hc). cbn [db_manager].
  destruct (insert_bulk_data_accepted first rest (db_manager t) (storable_accepted _ Hall))
    as (new & -> & _ & Hins).
  cbn [fst pending committed]. split; [done|].
  unfold visible. rewrite Hp, app_nil_r. split; [by apply prefix_app_r|].
  intros r Hr. apply Hins, inserted_or_ignored_timestamp in Hr as (row & Hrow & Hts).
  exists row. unfold visible in Hrow. rewrite Hp, app_nil_r in Hrow. split; [done|].
  rewrite Hts. unfold ts. rewrite cell_project.
  rewrite decide_True; [done|]. apply elem_of_sorted_keys.
  by destruct (Forall_inv Hall) as [? _].
Qed.

Lemma storable_insert (data : reading) name v :
  storable data → name ∈ columns → bindable v = true → storable (<[name := v]> data).
Proof.
  intros (Hts & Hcols & Hbind) Hname Hv. split; [|split].
  - destruct (decide (name = "timestamp")) as [->|Hne].
    + rewrite lookup_insert_eq. eauto.
    + by rewrite lookup_insert_ne.
  - intros k. destruct (decide (name = k)) as [->|Hne]; [done|].
    rewrite lookup_insert_ne by done. apply Hcols.
  - intros k v'. destruct (decide (name = k)) as [->|Hne].
    + rewrite lookup_insert_eq. by intros [= <-].
    + rewrite lookup_insert_ne by done. apply Hbind.
Qed.

Lemma poll_nodes_storable c names t data note :
  (∀ n, n ∈ names → n ∈ columns) →
  (∀ n v, get_value c n = Returns v → bindable v = true) →
  storable data →
  ∃ data', foldl (poll_node c) (t, data, note) names = (t, data', note) ∧ storable data'.
Proof.
  intros Hcols Hbind. revert data.
  induction names as [|n names IH]; intros data Hdata; cbn [foldl]; [eauto|].
  assert (n ∈ columns) as Hn by apply Hcols, list_elem_of_here.
  assert (n ≠ "run_start") as Hne.
  { intros ->. revert Hn. apply (bool_decide_unpack _). vm_compute. exact I. }
  assert (∃ v, poll_node c (t, data, note) n = (t, <[n := v]> data, note) ∧
               bindable v = true) as (v & -> & Hv).
  { unfold poll_node. rewrite bool_decide_eq_false_2 by done. cbn [andb].
    destruct (get_value c n) as [v|e] eqn:Hget; [|by eexists].
    exists v. split; [done|]. by apply (Hbind n). }
  apply IH.
  - intros n' Hn'. by apply Hcols, list_elem_of_further.
  - by apply storable_insert.
Qed.

(** A pass on such channels caches and emits one storable reading, and
    nothing else. *)
Lemma poll_cycle_storable nodes c t :
  (∀ n, n ∈ nodes → n ∈ columns) →
  (∀ n v, get_value c n = Returns v → bindable v = true) →
  ∃ data, storable data ∧
          poll_cycle nodes c t
          = Thread (reactor_start_time t) (data_cache t ++ [data]) (db_manager t)
                   (trace t ++ [EData data]).
Proof.
  intros Hcols Hbind. unfold poll_cycle, poll_reading, poll_nodes.
  destruct (poll_nodes_storable c nodes t {[ "timestamp" := PNum (now c) ]} None
              Hcols Hbind) as (data & -> & Hdata).
  { split; [|split].
    - rewrite lookup_singleton_eq. eauto.
    - intros k [v Hk]. apply lookup_singleton_Some in Hk as [<- _].
      apply (bool_decide_unpack _). vm_compute. exact I.
    - intros k v Hk. apply lookup_singleton_Some in Hk as [_ <-]. done. }
  by exists data.
Qed.

Lemma data_signals_app evs1 evs2 :
  data_signals (evs1 ++ evs2) = data_signals evs1 ++ data_signals evs2.
Proof. apply omap_app. Qed.

Lemma data_signals_logs (logs : list log_entry) : data_signals (ELog <$> logs) = [].
Proof. induction logs as [|l logs IH]; [done|exact IH]. Qed.

Lemma flush_data_signals t :
  data_signals (trace (_flush_cache_to_db t)) = data_signals (trace t).
Proof.
  destruct (flush_trace t) as (logs & -> & _).
  rewrite data_signals_app. cbn. rewrite data_signals_logs. apply app_nil_r.
Qed.

Lemma kept_emit d0 t e : (∀ r, e ≠ EData r) → kept d0 t → kept d0 (emit e t).
Proof.
  intros He (Hp & Hc & Hpre & Hall). unfold kept, emit.
  cbn [db_manager data_cache trace]. split; [done|]. split; [done|]. split; [done|].
  intros r Hr. apply Hall. rewrite data_signals_app in Hr.
  destruct e; cbn in Hr; rewrite ?app_nil_r in Hr; try done. by destruct (He d).
Qed.

Lemma kept_flush d0 t :
  kept d0 t →
  kept d0 (_flush_cache_to_db t) ∧
  ∀ r, r ∈ data_signals (trace (_flush_cache_to_db t)) →
       has_row r (db_manager (_flush_cache_to_db t)).
Proof.
  intros (Hp & Hc & Hpre & Hall).
  destruct (flush_storable t Hp Hc) as (Hp' & Hpre' & Hrows).
  assert (∀ r, r ∈ data_signals (trace (_flush_cache_to_db t)) →
               has_row r (db_manager (_flush_cache_to_db t))) as Hall'.
  { intros r Hr. rewrite flush_data_signals in Hr.
    destruct (Hall r Hr) as [Hin|(row & Hrow & Hts)]; [by apply Hrows|].
    exists row. split; [|done]. destruct Hpre' as [l ->].
    apply elem_of_app. by left. }
  split; [|done]. split; [done|]. rewrite flush_clears.
  split; [apply Forall_nil_2|]. split; [by etrans|]. intros r Hr. right. by apply Hall'.
Qed.

Lemma kept_loop d0 p nodes cs t :
  (∀ n, n ∈ nodes → n ∈ columns) →
  (∀ c n v, c ∈ cs → get_value c n = Returns v → bindable v = true) →
  kept d0 t → kept d0 (loop p nodes cs t).1.
Proof.
  intros Hcols. revert t.
  induction cs as [|c cs IH]; intros t Hbind Ht; [done|]. cbn [loop].
  set (t1 := if timer_fired c then _flush_cache_to_db t else t).
  assert (kept d0 t1) as Ht1.
  { subst t1. destruct (timer_fired c); [|done]. by apply kept_flush. }
  destruct (poll_cycle_storable nodes c t1 Hcols) as (data & Hdata & ->).
  { intros n v. apply Hbind, list_elem_of_here. }
  set (t2 := Thread _ _ _ _).
  assert (kept d0 t2) as Ht2.
  { subst t2. destruct Ht1 as (Hp & Hc & Hpre & Hall). unfold kept.
    cbn [db_manager data_cache trace]. split; [done|].
    split; [apply Forall_app; split; [done|by apply Forall_singleton]|].
    split; [done|]. intros r Hr. rewrite data_signals_app in Hr.
    apply elem_of_app in Hr as [Hr|Hr].
    - destruct (Hall r Hr) as [?|?]; [left|by right]. apply elem_of_app. by left.
    - left. apply elem_of_app. by right. }
  assert (kept d0 (emit (ESleep p) t2)) as Ht3 by by apply kept_emit.
  case_bool_decide; [done|]. apply IH; [|done].
  intros c' n v Hc'. by apply Hbind, list_elem_of_further.
Qed.

Lemma run_kept (cfg : config) (cl : client) (d : db) :
  (∀ n, n ∈ (node_ids_to_poll (tags cfg)).*1 → n ∈ columns) →
  (∀ c n v, c ∈ cycles cl → get_value c n = Returns v → bindable v = true) →
  pending d = [] →
  let t' := (run cfg cl (init d)).1 in
  data_cache t' = [] ∧
  pending (db_manager t') = [] ∧
  committed d `prefix_of` committed (db_manager t') ∧
  ∀ r, r ∈ data_signals (trace t') → has_row r (db_manager t').
Proof.
  intros Hcols Hbind Hpend. cbn zeta. unfold run.
  destruct (polling_interval cfg) as [poll_ms warning].
  set (p := (qz poll_ms / qz 1000)%Qc).
  set (t1 := Thread _ _ _ _).
  assert (kept d t1) as Ht1.
  { subst t1. unfold kept. cbn [init db_manager data_cache trace reactor_start_time app].
    split; [done|]. split; [apply Forall_nil_2|]. split; [done|].
    intros r Hr. rewrite data_signals_logs in Hr. by apply not_elem_of_nil in Hr. }
  clearbody t1.
  assert (∃ t2 c e, try_block cfg cl p (node_ids_to_poll (tags cfg)) t1 = (t2, c, e) ∧
                    kept d t2) as (t2 & c & e & -> & Ht2).
  { unfold try_block. destruct (connect cl) as [[]|e0].
    - destruct (get_nodes cl _) as [e1|].
      + eexists _, _, _. split; [done|]. by repeat apply kept_emit.
      + match goal with |- context [loop p ?n ?cs ?t0] =>
          assert (kept d t0) as Ht0 by (by repeat apply kept_emit);
          pose proof (kept_loop d p n cs t0 Hcols Hbind Ht0) as Hl;
          destruct (loop p n cs t0) as [t2 e2] end.
        by eexists _, _, _.
    - eexists _, _, _. split; [done|]. by apply kept_emit. }
  match goal with |- context [finally cl c ?t] => assert (kept d t) as Ht3 end.
  { destruct e as [e|]; [|done]. by repeat apply kept_emit. }
  match goal with |- context [finally cl c ?t] => generalize dependent t end.
  intros t3 Ht3. rewrite finally_state. cbn zeta.
  destruct (kept_flush d (emit ETimerStop t3)) as [(Hp & _ & Hpre & _) Hall].
  { by apply kept_emit. }
  cbn [data_cache db_manager trace]. split; [apply flush_clears|].
  split; [done|]. split; [done|].
  intros r Hr. apply Hall. rewrite data_signals_app in Hr.
  apply elem_of_app in Hr as [Hr|Hr]; [done|].
  unfold closing in Hr. destruct c; [destruct (disconnect cl)|];
    by apply not_elem_of_nil in Hr.
Qed.

(** X21.  A run on channels the table has stores every reading.  When
    every polled channel is a column of the table (so none is called
    [run_start]) and every value read can be bound, a run from a fresh
    thread on a connection without an open transaction ends with an empty
    cache and no open transaction, keeps every row that was committed, and
    has committed a row of the timestamp of every reading it emitted. *)
Theorem run_stores_every_reading (cfg : config) (cl : client) (d : db) :
  (∀ n, n ∈ (node_ids_to_poll (tags cfg)).*1 → n ∈ columns) →
  (∀ c n v, c ∈ cycles cl → get_value c n = Returns v → bindable v = true) →
  pending d = [] →
  let t' := (run cfg cl (init d)).1 in
  data_cache t' = [] ∧
  pending (db_manager t') = [] ∧
  committed d `prefix_of` committed (db_manager t') ∧
  ∀ r, r ∈ data_signals (trace t') → has_row r (db_manager t').
Proof. apply run_kept. Qed.

Lemma run_stores_every_reading_witness :
  let t' := (run (Config "opc.tcp://localhost:4840" (Some "1000") [("ph_nodeid", "ns=2;i=2")])
                 (sample_client [Cycle (qz 1) (λ _, Returns (PNum (qz 7))) false;
                                 Cycle (qz 2) (λ _, Returns (PNum (qz 8))) true])
                 (init empty_db)).1 in
  data_cache t' = [] ∧
  pending (db_manager t') = [] ∧
  committed empty_db `prefix_of` committed (db_manager t') ∧
  ∀ r, r ∈ data_signals (trace t') → has_row r (db_manager t').
Proof.
  apply (run_stores_every_reading
           (Config "opc.tcp://localhost:4840" (Some "1000") [("ph_nodeid", "ns=2;i=2")])
           (sample_client [Cycle (qz 1) (λ _, Returns (PNum (qz 7))) false;
                           Cycle (qz 2) (λ _, Returns (PNum (qz 8))) true])
           empty_db).
  - assert ((node_ids_to_poll
               (tags (Config "opc.tcp://localhost:4840" (Some "1000")
                        [("ph_nodeid", "ns=2;i=2")]))).*1 = ["ph"]) as ->
      by (vm_compute; reflexivity).
    intros n Hn. apply list_elem_of_singleton in Hn. subst n.
    apply (bool_decide_unpack _). vm_compute. exact I.
  - intros c n v Hc Hv. cbn [sample_client cycles] in Hc.
    apply elem_of_cons in Hc as [->|Hc];
      [|apply list_elem_of_singleton in Hc; subst c];
      cbn [get_value] in Hv; injection Hv as <-; reflexivity.
  - reflexivity.
Defined.

(** * Further properties: the optional variables *)

Lemma filter_length_mono {A} (P Q : A → Prop) `{!∀ x, Decision (P x)}
    `{!∀ x, Decision (Q x)} (l : list A) :
  (∀ x, P x → Q x) → (length (filter P l) ≤ length (filter Q l))%nat.
Proof.
  intros HPQ. induction l as [|x l IH]; [done|]. rewrite !filter_cons.
  destruct (decide (P x)) as [HP|HP].
  - rewrite decide_True by by apply HPQ. cbn [length]. lia.
  - destruct (decide (Q x)); cbn [length]; lia.
Qed.

Lemma checked_optionals_ext cb cb' :
  (∀ key, ConfigManager.dict_get key cb = Some true ↔
          ConfigManager.dict_get key cb' = Some true) →
  DashboardTab.checked_optionals cb = DashboardTab.checked_optionals cb'.
Proof. intros H. unfold DashboardTab.checked_optionals. by apply list_filter_iff. Qed.

Lemma checked_optionals_uncheck key cb :
  (length (DashboardTab.checked_optionals (dict_set key false cb))
   ≤ length (DashboardTab.checked_optionals cb))%nat.
Proof.
  apply filter_length_mono. intros k.
  destruct (decide (key = k)) as [->|Hne].
  - by rewrite dict_get_set_eq.
  - by rewrite dict_get_set_ne.
Qed.

(** X22.  At most three optional variables.  Whatever box is set to
    whatever state, by a click or by [load_ui_state], no more than three
    optional variables are checked afterwards if no more than three were:
    the box takes the state asked for, unless that would check a fourth
    one, and then it is left unchecked. *)
Theorem optional_variables_at_most_three
    (key : string) (b : bool) (checkboxes : list (string * bool)) :
  (length (DashboardTab.checked_optionals checkboxes) ≤ 3)%nat →
  (length (DashboardTab.checked_optionals (DashboardTab.setChecked key b checkboxes))
   ≤ 3)%nat ∧
  (is_Some (ConfigManager.dict_get key checkboxes) →
   ConfigManager.dict_get key (DashboardTab.setChecked key b checkboxes)
   = Some (if bool_decide
                (3 < length (DashboardTab.checked_optionals (dict_set key b checkboxes)))%nat
           then false else b)).
Proof.
  intros Hmax. unfold DashboardTab.setChecked.
  destruct (ConfigManager.dict_get key checkboxes) as [b0|] eqn:Hkey.
  2:{ split; [done|]. by intros [? [=]]. }
  assert (∀ k, ConfigManager.dict_get k (dict_set key b0 checkboxes)
               = ConfigManager.dict_get k checkboxes) as Hsame.
  { intros k. destruct (decide (key = k)) as [->|Hne].
    - by rewrite dict_get_set_eq.
    - by rewrite dict_get_set_ne. }
  case_bool_decide as Hb.
  - subst b0. split; [done|]. intros _.
    rewrite (checked_optionals_ext (dict_set key b checkboxes) checkboxes)
      by (intros k; by rewrite Hsame).
    rewrite bool_decide_eq_false_2 by lia. done.
  - unfold DashboardTab._on_checkbox_state_changed. case_bool_decide as Hfour.
    + split; [|intros _; apply dict_get_set_eq].
      rewrite (checked_optionals_ext _ (dict_set key false checkboxes)).
      * etrans; [apply checked_optionals_uncheck|done].
      * intros k. destruct (decide (key = k)) as [->|Hne].
        -- by rewrite !dict_get_set_eq.
        -- by rewrite !dict_get_set_ne.
    + split; [lia|]. intros _. apply dict_get_set_eq.
Qed.

Lemma optional_variables_at_most_three_witness :
  (length (DashboardTab.checked_optionals
             (DashboardTab.setChecked "variable4" true
                [("variable1", true); ("variable2", true); ("variable3", true);
                 ("variable4", false)])) ≤ 3)%nat ∧
  (is_Some (ConfigManager.dict_get "variable4"
              [("variable1", true); ("variable2", true); ("variable3", true);
               ("variable4", false)]) →
   ConfigManager.dict_get "variable4"
     (DashboardTab.setChecked "variable4" true
        [("variable1", true); ("variable2", true); ("variable3", true);
         ("variable4", false)])
   = Some (if bool_decide
                (3 < length (DashboardTab.checked_optionals
                               (dict_set "variable4" true
                                  [("variable1", true); ("variable2", true);
                                   ("variable3", true); ("variable4", false)])))%nat
           then false else true)).
Proof.
  apply (optional_variables_at_most_three "variable4" true
           [("variable1", true); ("variable2", true); ("variable3", true);
            ("variable4", false)]).
  vm_compute. lia.
Defined.

(** * Further properties: the export dialog and the cadence *)

(** X23.  An export from the dialog is always resampled.  The interval the
    dialog returns lies between 1 and 3600, so the export never takes the
    branch without resampling: it never fails on the key [datetime], and
    when it succeeds it returns at least one row and every row carries its
    [datetime] label. *)
Theorem export_from_dialog_resamples
    (rows : list row) (start_time end_time : Z) (v : Z) :
  match ExportDialog.show_export_dialog rows start_time end_time v with
  | inl err => err ≠ KeyErrorDatetime
  | inr out => out ≠ [] ∧ Forall (λ o, is_Some (o_datetime o)) out
  end.
Proof.
  unfold ExportDialog.show_export_dialog, ExportDialog.get_values.
  assert (0 < ExportDialog.setValue v)%Z as Hpos by (unfold ExportDialog.setValue; lia).
  destruct (export_to_excel rows (qz start_time) (qz end_time) (ExportDialog.setValue v))
    as [err|out] eqn:Hexp.
  - revert Hexp. unfold export_to_excel.
    destruct (query_range _ _ rows) as [|first rest]; [by intros [= <-]|].
    rewrite bool_decide_eq_true_2 by lia.
    destruct (truthy _); [|done]. destruct (default PNone _); by intros [= <-].
  - destruct (export_to_excel_rows _ _ _ _ _ Hexp) as [Hne _].
    destruct (query_range (qz start_time) (qz end_time) rows) as [|first rest] eqn:Hdf;
      [done|].
    destruct (export_resampled _ _ _ _ _ first rest Hpos Hexp Hdf)
      as (E & i0 & n & Hn & -> & _).
    split.
    + rewrite (seqZ_cons i0 n Hn). discriminate.
    + apply Forall_fmap, Forall_true. intros i. cbn. eauto.
Qed.

Lemma qz_div_neg (ms : Z) : (ms < 0)%Z → (qz ms / qz 1000 < 0)%Qc.
Proof.
  intros Hms. to_Q. unfold Qlt, Qmult, Qinv, inject_Z. cbn. lia.
Qed.

Lemma poll_nodes_signals c nodes acc :
  data_signals (trace (foldl (poll_node c) acc nodes).1.1) = data_signals (trace acc.1.1) ∧
  status_signals (trace (foldl (poll_node c) acc nodes).1.1)
  = status_signals (trace acc.1.1).
Proof.
  revert acc. induction nodes as [|n nodes IH]; intros acc; [done|].
  cbn [foldl]. destruct (IH (poll_node c acc n)) as [-> ->].
  destruct acc as [[t data] note]. unfold poll_node.
  destruct (_ && _); destruct (get_value c n) as [v|e];
    try destruct (equals_one v); cbn [fst snd]; try done.
  unfold emit. cbn [trace].
  rewrite data_signals_app, status_signals_app. cbn. by rewrite !app_nil_r.
Qed.

Lemma poll_cycle_signals nodes c t :
  data_signals (trace (poll_cycle nodes c t))
  = data_signals (trace t) ++ [poll_reading nodes c t] ∧
  status_signals (trace (poll_cycle nodes c t)) = status_signals (trace t).
Proof.
  unfold poll_cycle, emit. cbn [trace].
  rewrite data_signals_app, status_signals_app. unfold poll_nodes.
  destruct (poll_nodes_signals c nodes (t, {[ "timestamp" := PNum (now c) ]}, None))
    as [-> ->].
  cbn. by rewrite app_nil_r.
Qed.

Lemma status_signals_logs (logs : list log_entry) : status_signals (ELog <$> logs) = [].
Proof. induction logs as [|l logs IH]; [done|exact IH]. Qed.

Lemma flush_status_signals t :
  status_signals (trace (_flush_cache_to_db t)) = status_signals (trace t).
Proof.
  destruct (flush_trace t) as (logs & -> & _).
  rewrite status_signals_app. cbn. rewrite status_signals_logs. apply app_nil_r.
Qed.

Lemma finally_signals cl is_connected t :
  data_signals (trace (finally cl is_connected t).1) = data_signals (trace t) ∧
  status_signals (trace (finally cl is_connected t).1)
  = status_signals (trace t) ++ status_signals (closing cl is_connected).
Proof.
  destruct (finally_trace cl is_connected t) as (logs & -> & _).
  rewrite !data_signals_app, !status_signals_app, data_signals_logs, status_signals_logs.
  assert (data_signals (closing cl is_connected) = []) as ->.
  { unfold closing. destruct is_connected; [destruct (disconnect cl)|]; done. }
  cbn. by rewrite !app_nil_r.
Qed.

Lemma emit_signals e t :
  data_signals (trace (emit e t)) = data_signals (trace t) ++ data_signals [e] ∧
  status_signals (trace (emit e t)) = status_signals (trace t) ++ status_signals [e].
Proof. unfold emit. cbn [trace]. by rewrite data_signals_app, status_signals_app. Qed.

(** X24.  A negative cadence ends the run after one pass.  When the
    configured polling interval is a negative integer and the connection and
    the nodes are fine, [run] polls once, emits that one reading, fails in
    [time.sleep], reports the failure after the connection and goes through
    its shutdown. *)
Theorem negative_cadence_stops_after_one_pass
    (cfg : config) (cl : client) (d : db) (ms : Z) (c : cycle) (cs : list cycle) :
  getint cfg = Some ms → (ms < 0)%Z →
  connect cl = Returns () →
  get_nodes cl (node_ids_to_poll (tags cfg)) = None →
  cycles cl = c :: cs →
  let t' := (run cfg cl (init d)).1 in
  length (data_signals (trace t')) = 1%nat ∧
  status_signals (trace t')
  = [ "Connected to " +:+ address cfg;
      "Connection Failed: sleep length must be non-negative" ]
    ++ status_signals (closing cl true).
Proof.
  intros Hint Hneg Hconn Hnodes Hcycles. cbn zeta. unfold run, polling_interval.
  rewrite Hint. unfold try_block. rewrite Hconn, Hnodes, Hcycles. cbn [loop].
  rewrite bool_decide_eq_true_2 by by apply qz_div_neg.
  set (t0 := emit ETimerStart _).
  assert (data_signals (trace t0) = [] ∧
          status_signals (trace t0) = ["Connected to " +:+ address cfg]) as [Hd0 Hs0].
  { subst t0. unfold emit, init. cbn [trace reactor_start_time data_cache db_manager].
    rewrite !data_signals_app, !status_signals_app. done. }
  clearbody t0.
  set (t1 := if timer_fired c then _flush_cache_to_db t0 else t0).
  assert (data_signals (trace t1) = [] ∧
          status_signals (trace t1) = ["Connected to " +:+ address cfg]) as [Hd1 Hs1].
  { subst t1. destruct (timer_fired c); [|done].
    by rewrite flush_data_signals, flush_status_signals. }
  clearbody t1.
  destruct (finally_signals cl true
              (emit (ELog (LogClientFailed "sleep length must be non-negative"))
                 (emit (EStatus ("Connection Failed: " +:+
                                 "sleep length must be non-negative"))
                    (emit (ESleep (qz ms / qz 1000)%Qc)
                       (poll_cycle (node_ids_to_poll (tags cfg)).*1 c t1)))))
    as [Hd Hs].
  cbn [fst snd]. rewrite Hd, Hs. clear Hd Hs.
  repeat match goal with
         | |- context [data_signals (trace (emit ?e ?t))] =>
             rewrite (proj1 (emit_signals e t))
         | |- context [status_signals (trace (emit ?e ?t))] =>
             rewrite (proj2 (emit_signals e t))
         end.
  destruct (poll_cycle_signals (node_ids_to_poll (tags cfg)).*1 c t1) as [-> ->].
  rewrite Hd1, Hs1. done.
Qed.

Lemma negative_cadence_stops_after_one_pass_witness :
  let t' := (run (sample_config "-5") (sample_client [sample_cycle 1; sample_cycle 2])
                 (init empty_db)).1 in
  length (data_signals (trace t')) = 1%nat ∧
  status_signals (trace t')
  = [ "Connected to " +:+ address (sample_config "-5");
      "Connection Failed: sleep length must be non-negative" ]
    ++ status_signals (closing (sample_client [sample_cycle 1; sample_cycle 2]) true).
Proof.
  apply (negative_cadence_stops_after_one_pass (sample_config "-5")
           (sample_client [sample_cycle 1; sample_cycle 2]) empty_db (-5)
           (sample_cycle 1) [sample_cycle 2]).
  - vm_compute. reflexivity.
  - lia.
  - reflexivity.
  - vm_compute. reflexivity.
  - reflexivity.
Defined.

(** * Further properties: the state of the interface *)

(** X25.  Manual limits and auto-ranging.  [_apply_axis_limits] switches
    auto-ranging off for the three main axes, but for the optional axes it
    writes the flag of a key [opt] that names no axis and leaves their own
    flags as they were: after Enable Auto-Ranging, applying manual limits
    leaves the three optional axes, and only them, auto-ranged. *)
Theorem manual_limits_leave_optional_axes_auto (state : list (string * bool)) :
  (∀ key, key ∈ ["ph"; "temp"; "do"] →
     ConfigManager.dict_get key (DashboardTab._apply_axis_limits state) = Some false) ∧
  (∀ key, key ∈ ["opt1"; "opt2"; "opt3"] →
     ConfigManager.dict_get key (DashboardTab._apply_axis_limits state)
     = ConfigManager.dict_get key state) ∧
  DashboardTab.auto_ranged
    (DashboardTab._apply_axis_limits (DashboardTab._enable_auto_range_all state))
  = ["opt1"; "opt2"; "opt3"].
Proof.
  assert (∀ st, DashboardTab._apply_axis_limits st
                = dict_set "opt" false
                    (dict_set "opt" false
                       (dict_set "opt" false
                          (dict_set "do" false
                             (dict_set "temp" false (dict_set "ph" false st))))))
    as Happly by reflexivity.
  assert (∀ st, DashboardTab._enable_auto_range_all st
                = dict_set "opt3" true
                    (dict_set "opt2" true
                       (dict_set "opt1" true
                          (dict_set "do" true
                             (dict_set "temp" true (dict_set "ph" true st))))))
    as Henable by reflexivity.
  assert (∀ (k k' : string) (v : bool) st,
            ConfigManager.dict_get k (dict_set k' v st)
            = if decide (k = k') then Some v else ConfigManager.dict_get k st) as Hget.
  { intros k k' v st. destruct (decide (k = k')) as [->|Hne].
    - apply dict_get_set_eq.
    - by apply dict_get_set_ne. }
  split; [|split].
  - intros key Hkey. rewrite Happly, !Hget.
    repeat (apply elem_of_cons in Hkey as [->|Hkey]); [..|by apply not_elem_of_nil in Hkey];
      reflexivity.
  - intros key Hkey. rewrite Happly, !Hget.
    repeat (apply elem_of_cons in Hkey as [->|Hkey]); [..|by apply not_elem_of_nil in Hkey];
      reflexivity.
  - assert (∀ key,
              ConfigManager.dict_get key
                (DashboardTab._apply_axis_limits (DashboardTab._enable_auto_range_all state))
              = if decide (key ∈ ["opt"; "do"; "temp"; "ph"]) then Some false
                else if decide (key ∈ ["opt3"; "opt2"; "opt1"]) then Some true
                else ConfigManager.dict_get key state) as Hall.
    { intros key. rewrite Happly, Henable, !Hget.
      repeat (destruct (decide (key = _)) as [->|?]; [reflexivity|]).
      rewrite decide_False; [rewrite decide_False; [done|]|];
        rewrite !elem_of_cons, elem_of_nil; tauto. }
    unfold DashboardTab.auto_ranged, DashboardTab.axis_keys.
    repeat (rewrite filter_cons, Hall; cbn [decide]).
    reflexivity.
Qed.

Lemma set_Some p s o v :
  named s → ConfigManager.has_section p s = true →
  ∃ p', ConfigManager.set p s o v = Some p' ∧ ConfigManager.has_section p' s = true.
Proof.
  intros [H1 H2] Hsec. unfold ConfigManager.set, ConfigManager.has_section in *.
  rewrite !bool_decide_eq_false_2 by done. cbn [orb].
  apply bool_decide_eq_true in Hsec as [opts Hopts]. rewrite Hopts. cbn.
  eexists. split; [done|]. apply bool_decide_eq_true. cbn [ConfigManager.sections].
  rewrite dict_get_set_eq. eauto.
Qed.

(** What [save_ui_state] leaves in the parser. *)
Lemma save_ui_state_spec cb p :
  ∃ p', DashboardTab.save_ui_state cb p = Some p' ∧
        ConfigManager.has_section p' "UI_STATE" = true ∧
        ∀ key b, key ∈ DashboardTab.optional_variable_keys →
                 ConfigManager.dict_get key cb = Some b →
                 ConfigManager.get_option p' "UI_STATE" key
                 = Some (DashboardTab.bool_text b).
Proof.
  unfold DashboardTab.save_ui_state.
  set (p0 := if ConfigManager.has_section p "UI_STATE" then p
             else ConfigManager.add_section p "UI_STATE").
  assert (ConfigManager.has_section p0 "UI_STATE" = true) as Hsec0.
  { subst p0. destruct (ConfigManager.has_section p "UI_STATE") eqn:Hs; [done|].
    by destruct (has_section_add p "UI_STATE" Hs). }
  clearbody p0. assert (named "UI_STATE") as Hn by (split; intros [=]).
  induction DashboardTab.optional_variable_keys as [|k ks IH] using rev_ind.
  { exists p0. split; [done|]. split; [done|]. intros key b Hkey.
    by apply not_elem_of_nil in Hkey. }
  destruct IH as (p1 & Hp1 & Hsec1 & Hget1). rewrite foldl_app, Hp1. cbn [foldl].
  destruct (ConfigManager.dict_get k cb) as [b|] eqn:Hk.
  - destruct (set_Some p1 "UI_STATE" k (DashboardTab.bool_text b) Hn Hsec1)
      as (p2 & Hset & Hsec2).
    exists p2. split.
    { unfold SettingsTab.assign. cbn [fst snd mbind option_bind].
      assert (ConfigManager.interpolate (DashboardTab.bool_text b)
              = Some (DashboardTab.bool_text b)) as -> by by destruct b.
      exact Hset. }
    split; [done|]. destruct (set_spec p1 _ _ _ p2 Hn Hset) as [Heq Hother].
    intros key b' Hkey Hb'. destruct (decide (key = k)) as [->|Hne].
    + rewrite Hk in Hb'. injection Hb' as <-. exact Heq.
    + rewrite Hother by congruence. apply Hget1; [|done].
      apply elem_of_app in Hkey as [?|Hkey]; [done|].
      by apply list_elem_of_singleton in Hkey.
  - exists p1. split; [done|]. split; [done|]. intros key b Hkey Hb.
    apply elem_of_app in Hkey as [?|Hkey]; [by apply Hget1|].
    apply list_elem_of_singleton in Hkey. subst key. congruence.
Qed.

(** [load_ui_state] sets every box to the boolean read for its key. *)
Lemma load_ui_state_spec p cb0 (g : string → bool) :
  ConfigManager.has_section p "UI_STATE" = true →
  (∀ key, key ∈ DashboardTab.optional_variable_keys →
          DashboardTab.getboolean p "UI_STATE" key = Some (g key)) →
  DashboardTab.load_ui_state p cb0
  = Some (foldl (λ cb key,
                   match ConfigManager.dict_get key cb with
                   | Some _ => DashboardTab.setChecked key (g key) cb
                   | None => cb
                   end) cb0 DashboardTab.optional_variable_keys).
Proof.
  intros Hsec. unfold DashboardTab.load_ui_state. rewrite Hsec.
  induction DashboardTab.optional_variable_keys as [|k ks IH] using rev_ind; [done|].
  intros Hg. rewrite !foldl_app. cbn [foldl]. rewrite IH.
  - cbn [mbind option_bind].
    destruct (ConfigManager.dict_get k _); [|done].
    rewrite Hg; [done|]. apply elem_of_app. right. apply list_elem_of_here.
  - intros key Hkey. apply Hg, elem_of_app. by left.
Qed.

(** X26.  The state of the check boxes survives a restart.  With the seven
    boxes of the optional variables, at most three of them checked, what
    [save_ui_state] writes is read back by [load_ui_state], on boxes that
    are all unchecked as [_init_controls] creates them, as the same state. *)
Theorem ui_state_round_trip (checkboxes : list (string * bool)) (p : ConfigManager.parser) :
  checkboxes.*1 = DashboardTab.optional_variable_keys →
  (length (DashboardTab.checked_optionals checkboxes) ≤ 3)%nat →
  ∃ p', DashboardTab.save_ui_state checkboxes p = Some p' ∧
        DashboardTab.load_ui_state p'
          ((λ key, (key, false)) <$> DashboardTab.optional_variable_keys)
        = Some checkboxes.
Proof.
  intros Hkeys Hmax.
  destruct (save_ui_state_spec checkboxes p) as (p' & Hsave & Hsec & Hget).
  exists p'. split; [done|].
  rewrite (load_ui_state_spec p' _
             (λ key, default false (ConfigManager.dict_get key checkboxes)) Hsec).
  - clear Hsave Hsec Hget p p'. unfold DashboardTab.optional_variable_keys in Hkeys.
    do 7 (destruct checkboxes as [|[? ?] checkboxes];
          [discriminate Hkeys|]; cbn [fmap list_fmap fst] in Hkeys;
          injection Hkeys as -> Hkeys).
    destruct checkboxes; [clear Hkeys|discriminate Hkeys].
    repeat match goal with b : bool |- _ => destruct b end;
      first [ vm_compute in Hmax; lia | vm_compute; reflexivity ].
  - intros key Hkey. unfold DashboardTab.getboolean.
    assert (is_Some (ConfigManager.dict_get key checkboxes)) as [b Hb].
    { apply dict_get_is_Some. by rewrite Hkeys. }
    rewrite (Hget key b Hkey Hb), Hb. by destruct b.
Qed.

Lemma ui_state_round_trip_witness :
  ∃ p',
    DashboardTab.save_ui_state
      [("variable1", true); ("variable2", false); ("variable3", false);
       ("variable4", true); ("variable5", false); ("variable6", false);
       ("variable7", true)]
      ConfigManager._create_default_config = Some p' ∧
    DashboardTab.load_ui_state p'
      ((λ key, (key, false)) <$> DashboardTab.optional_variable_keys)
    = Some [("variable1", true); ("variable2", false); ("variable3", false);
            ("variable4", true); ("variable5", false); ("variable6", false);
            ("variable7", true)].
Proof.
  apply (ui_state_round_trip
           [("variable1", true); ("variable2", false); ("variable3", false);
            ("variable4", true); ("variable5", false); ("variable6", false);
            ("variable7", true)]
           ConfigManager._create_default_config).
  - reflexivity.
  - vm_compute. lia.
Defined.

(** * Further properties: from the acquisition to the plot *)

(** X27.  What was polled can be visualized.  After a run on channels the
    table has, with values that bind, Load and Visualize on the database
    the run wrote gives the dashboard a time axis that holds the timestamp
    of every reading the run emitted. *)
Theorem polled_timestamps_are_visualized
    (cfg : config) (cl : client) (d : db) (dash : DashboardTab.dashboard) :
  (∀ n, n ∈ (node_ids_to_poll (tags cfg)).*1 → n ∈ columns) →
  (∀ c n v, c ∈ cycles cl → get_value c n = Returns v → bindable v = true) →
  pending d = [] →
  let t' := (run cfg cl (init d)).1 in
  ∀ r, r ∈ data_signals (trace t') →
       get "timestamp" r
       ∈ DashboardTab.time_data
           (MainWindow.load_and_visualize_db (committed (db_manager t')) dash).1.
Proof.
  intros Hcols Hbind Hpend. cbn zeta. intros r Hr.
  destruct (run_kept cfg cl d Hcols Hbind Hpend) as (_ & _ & _ & Hall).
  destruct (Hall r Hr) as (row & Hrow & <-).
  unfold MainWindow.load_and_visualize_db.
  pose proof (merge_sort_Permutation row_le (committed (db_manager (run cfg cl (init d)).1)))
    as Hperm.
  fold (get_all_data_as_dataframe (committed (db_manager (run cfg cl (init d)).1))) in Hperm.
  rewrite <- Hperm in Hrow.
  destruct (get_all_data_as_dataframe _) as [|r0 df]; [by apply not_elem_of_nil in Hrow|].
  cbn [fst]. unfold DashboardTab.display_historical_data.
  cbn [DashboardTab.time_data]. apply list_elem_of_fmap. by exists row.
Qed.

Lemma polled_timestamps_are_visualized_witness :
  get "timestamp" (sample 1 (PNum (qz 7)))
  ∈ DashboardTab.time_data
      (MainWindow.load_and_visualize_db
         (committed
            (db_manager
               (run (Config "opc.tcp://localhost:4840" (Some "1000")
                       [("ph_nodeid", "ns=2;i=2")])
                    (sample_client [Cycle (qz 1) (λ _, Returns (PNum (qz 7))) false;
                                    Cycle (qz 2) (λ _, Returns (PNum (qz 8))) true])
                    (init empty_db)).1))
         DashboardTab.init).1.
Proof.
  apply (polled_timestamps_are_visualized
           (Config "opc.tcp://localhost:4840" (Some "1000") [("ph_nodeid", "ns=2;i=2")])
           (sample_client [Cycle (qz 1) (λ _, Returns (PNum (qz 7))) false;
                           Cycle (qz 2) (λ _, Returns (PNum (qz 8))) true])
           empty_db DashboardTab.init).
  - assert ((node_ids_to_poll
               (tags (Config "opc.tcp://localhost:4840" (Some "1000")
                        [("ph_nodeid", "ns=2;i=2")]))).*1 = ["ph"]) as ->
      by (vm_compute; reflexivity).
    intros n Hn. apply list_elem_of_singleton in Hn. subst n.
    apply (bool_decide_unpack _). vm_compute. exact I.
  - intros c n v Hc Hv. cbn [sample_client cycles] in Hc.
    apply elem_of_cons in Hc as [->|Hc];
      [|apply list_elem_of_singleton in Hc; subst c];
      cbn [get_value] in Hv; injection Hv as <-; reflexivity.
  - reflexivity.
  - apply (bool_decide_unpack _). vm_compute. exact I.
Defined.

(** * Further properties: from the settings tab to the acquisition *)


